(** * Automated data analysis: the analysis engine and the train/test split

    A shallow embedding of [src/utils/dataAnalysis.ts] (column typing,
    correlation, outliers, trend, insight rules) and of
    [src/utils/modeling.ts] (seeded shuffle, split, the eleven trainers and
    their dispatcher), followed by the properties proved about them.

    Conventions of the embedding.
    - A finite JavaScript number is an exact rational ([Q]); IEEE rounding is
      not modelled.  Where the source can produce [NaN] or an infinity the
      type [jsnum] keeps them apart.
    - Integer counters, lengths and indices are [nat] or [Z].
    - Built-ins whose result is not a rational function of the arguments
      ([Math.sqrt], [Number] on strings, [Date.parse], [toFixed], ...) are
      parameters of the definitions that call them. *)

From Stdlib Require Import String Ascii Bool.
From Stdlib Require Import QArith Qround Qabs ZArith Lia Lqa.
From Stdlib Require Import PeanoNat List Permutation Sorted Setoid Morphisms.
Import ListNotations.

Set Implicit Arguments.

(* ================================================================== *)
(** * JavaScript values and array helpers *)
(* ================================================================== *)

Module JS.

Local Open Scope Q_scope.

(** A JavaScript number. *)
Inductive jsnum : Type :=
| Fin (q : Q)
| NaN
| Inf (negative : bool).

(** A raw cell of a record ([any] in the source). [VNum None] is the
    number [NaN]. *)
Inductive value : Type :=
| VNull
| VUndefined
| VBool (b : bool)
| VNum (n : option Q)
| VStr (s : string).

(** [Record<string, V>]: an object read by key. *)
Definition Record_ (V : Type) : Type := list (string * V).

Fixpoint lookup (V : Type) (r : Record_ V) (k : string) : option V :=
  match r with
  | [] => None
  | (k', v) :: r' => if String.eqb k' k then Some v else lookup r' k
  end.

(** [row[col]]: a missing key reads as [undefined]. *)
Definition getCell (row : Record_ value) (col : string) : value :=
  match lookup row col with
  | Some v => v
  | None => VUndefined
  end.

Definition ofNat (n : nat) : Q := inject_Z (Z.of_nat n).

(** [x < y] on finite numbers. *)
Definition Qltb (x y : Q) : bool := negb (Qle_bool y x).

(** [x / y] on finite operands, with the IEEE results for a zero divisor. *)
Definition js_div (x y : Q) : jsnum :=
  if Qeq_bool y 0 then
    if Qeq_bool x 0 then NaN else Inf (Qltb x 0)
  else Fin (x / y).

Definition js_mul (a b : jsnum) : jsnum :=
  match a, b with
  | Fin x, Fin y => Fin (x * y)
  | NaN, _ | _, NaN => NaN
  | Inf s, Fin y | Fin y, Inf s =>
      if Qeq_bool y 0 then NaN else Inf (xorb s (Qltb y 0))
  | Inf s, Inf t => Inf (xorb s t)
  end.

Definition js_sub (a b : jsnum) : jsnum :=
  match a, b with
  | Fin x, Fin y => Fin (x - y)
  | NaN, _ | _, NaN => NaN
  | Inf s, Fin _ => Inf s
  | Fin _, Inf t => Inf (negb t)
  | Inf s, Inf t => if Bool.eqb s t then NaN else Inf s
  end.

(** [Math.abs]. *)
Definition js_abs (a : jsnum) : jsnum :=
  match a with
  | Fin x => Fin (Qabs x)
  | NaN => NaN
  | Inf _ => Inf false
  end.

(** [Math.round]: the nearest integer, halves going up. *)
Definition js_round (a : jsnum) : jsnum :=
  match a with
  | Fin x => Fin (inject_Z (Qfloor (x + 0.5)))
  | other => other
  end.

(** [a > q]; every comparison with [NaN] is false. *)
Definition js_gt (a : jsnum) (q : Q) : bool :=
  match a with
  | Fin x => Qltb q x
  | NaN => false
  | Inf negative => negb negative
  end.

(** The sign test [Array.prototype.sort] applies to a comparator's result:
    a [NaN] result counts as [+0]. *)
Definition js_le0 (a : jsnum) : bool :=
  match a with
  | Fin x => Qle_bool x 0
  | NaN => true
  | Inf negative => negative
  end.

Section Sort.
Variable A : Type.
Variable cmp : A -> A -> jsnum.

Fixpoint insert (x : A) (l : list A) : list A :=
  match l with
  | [] => [x]
  | y :: l' => if js_le0 (cmp x y) then x :: y :: l' else y :: insert x l'
  end.

(** [arr.sort(cmp)] returning the sorted copy: the stable sort the
    language prescribes, written as an insertion sort. *)
Fixpoint sort (l : list A) : list A :=
  match l with
  | [] => []
  | x :: l' => insert x (sort l')
  end.
End Sort.

(** [arr.map((v, i) => f v i)]. *)
Fixpoint mapi_from (A B : Type) (f : A -> nat -> B) (i : nat) (l : list A) : list B :=
  match l with
  | [] => []
  | a :: l' => f a i :: mapi_from f (S i) l'
  end.

Definition mapi (A B : Type) (f : A -> nat -> B) (l : list A) : list B :=
  mapi_from f 0 l.

(** [arr.reduce((acc, v, i) => f acc v i, init)]. *)
Fixpoint reducei_from (A B : Type) (f : B -> A -> nat -> B) (i : nat) (l : list A) (acc : B) : B :=
  match l with
  | [] => acc
  | a :: l' => reducei_from f (S i) l' (f acc a i)
  end.

Definition reducei (A B : Type) (f : B -> A -> nat -> B) (l : list A) (init : B) : B :=
  reducei_from f 0 l init.

(** [arr.reduce((a, b) => a + b, 0)]. *)
Definition sum (l : list Q) : Q := fold_left Qplus l 0.

End JS.

(* ================================================================== *)
(** * utils/dataAnalysis.ts *)
(* ================================================================== *)

Module DataAnalysis.
Import JS.
Local Open Scope Q_scope.

Inductive ColumnType : Type := number | string_ | date | boolean.

Record ColumnInfo : Type := {
  name : string;
  type : ColumnType;
  nullable : bool
}.

Record ColumnStats : Type := {
  count : nat;
  nullCount : nat;
  uniqueCount : nat;
  min : option Q;
  max : option Q;
  mean : option Q;
  median : option Q;
  stdDev : option Q;
  quartiles : option (Q * Q * Q);
  mode : value
}.

Inductive InsightType : Type := correlation | outlier | trend | summary.
Inductive Severity : Type := low | medium | high.

Record Insight : Type := {
  itype : InsightType;
  title : string;
  description : string;
  severity : Severity
}.

Inductive Trend : Type := increasing | decreasing | stable.

Record Outliers : Type := {
  ocount : nat;
  indices : list Z
}.

(** [val === null || val === undefined || val === ''] *)
Definition isMissing (val : value) : bool :=
  match val with
  | VNull | VUndefined => true
  | VStr s => String.eqb s ""
  | _ => false
  end.

(** [typeof val === 'boolean' || val === 'true' || val === 'false'] *)
Definition isBooleanLike (val : value) : bool :=
  match val with
  | VBool _ => true
  | VStr s => String.eqb s "true" || String.eqb s "false"
  | _ => false
  end.

Section Builtins.

(** [Number(s)] on a string; [None] is [NaN]. *)
Variable parseNumber : string -> option Q.
(** [!isNaN(Date.parse(String(val)))] *)
Variable parsesAsDate : value -> bool.
(** [Math.sqrt] on a non-negative argument. *)
Variable Msqrt : Q -> Q.
(** Template-literal rendering of a number, and [n.toFixed(digits)]. *)
Variable showNumber : jsnum -> string.
Variable toFixed : jsnum -> nat -> string.

(** [Number(val)]; [None] is [NaN]. *)
Definition Number_ (val : value) : option Q :=
  match val with
  | VNull => Some 0
  | VUndefined => None
  | VBool b => Some (if b then 1 else 0)
  | VNum n => n
  | VStr s => parseNumber s
  end.

Definition isNumeric (val : value) : bool :=
  match Number_ val with
  | Some _ => negb (match val with VStr s => String.eqb s "" | _ => false end)
  | None => false
  end.

(** The three counters of [detectColumnType]'s loop. *)
Record TypeCounts : Type := {
  numberCount : nat;
  dateCount : nat;
  booleanCount : nat
}.

Definition countCell (c : TypeCounts) (val : value) : TypeCounts :=
  if isMissing val then c
  else if isBooleanLike val then
    {| numberCount := numberCount c; dateCount := dateCount c;
       booleanCount := S (booleanCount c) |}
  else if isNumeric val then
    {| numberCount := S (numberCount c); dateCount := dateCount c;
       booleanCount := booleanCount c |}
  else if parsesAsDate val then
    {| numberCount := numberCount c; dateCount := S (dateCount c);
       booleanCount := booleanCount c |}
  else c.

Definition detectColumnType (values : list value) : ColumnType :=
  let sampleSize := Nat.min 100 (length values) in
  let c :=
    fold_left (fun c i => countCell c (nth i values VUndefined))
              (seq 0 sampleSize)
              {| numberCount := 0; dateCount := 0; booleanCount := 0 |} in
  if Qltb (ofNat sampleSize * 0.8) (ofNat (booleanCount c)) then boolean
  else if Qltb (ofNat sampleSize * 0.8) (ofNat (numberCount c)) then number
  else if Qltb (ofNat sampleSize * 0.8) (ofNat (dateCount c)) then date
  else string_.

(** [Math.sqrt(x)]: [NaN] below zero. *)
Definition js_sqrt (x : Q) : jsnum :=
  if Qltb x 0 then NaN else Fin (Msqrt x).

Definition calculateCorrelation (x y : list Q) : jsnum :=
  if negb (length x =? length y)%nat || (length x =? 0)%nat then Fin 0
  else
    let n := ofNat (length x) in
    let sumX := sum x in
    let sumY := sum y in
    let sumXY := reducei (fun acc xi i => acc + xi * nth i y 0) x 0 in
    let sumX2 := fold_left (fun acc xi => acc + xi * xi) x 0 in
    let sumY2 := fold_left (fun acc yi => acc + yi * yi) y 0 in
    let numerator := n * sumXY - sumX * sumY in
    match js_sqrt ((n * sumX2 - sumX * sumX) * (n * sumY2 - sumY * sumY)) with
    | Fin denominator =>
        if Qeq_bool denominator 0 then Fin 0 else js_div numerator denominator
    | _ => NaN
    end.

Definition detectOutliers (values : list Q) : Outliers :=
  if (length values <? 4)%nat then {| ocount := 0; indices := [] |}
  else
    let sorted := sort (fun a b => Fin (a - b)) values in
    let q1 := nth (Z.to_nat (Qfloor (ofNat (length sorted) * 0.25))) sorted 0 in
    let q3 := nth (Z.to_nat (Qfloor (ofNat (length sorted) * 0.75))) sorted 0 in
    let iqr := q3 - q1 in
    let lowerBound := q1 - 1.5 * iqr in
    let upperBound := q3 + 1.5 * iqr in
    let outlierIndices :=
      filter (fun i => negb (i =? -1)%Z)
        (mapi (fun v i => if Qltb v lowerBound || Qltb upperBound v
                          then Z.of_nat i else (-1)%Z) values) in
    {| ocount := length outlierIndices; indices := outlierIndices |}.

(** The body of the loop of [detectTrend] at index [i], on the counters
    [(increases, decreases)]. *)
Definition trendStep (values : list Q) (c : nat * nat) (i : nat) : nat * nat :=
  let '(increases, decreases) := c in
  if Qltb (nth (i - 1) values 0) (nth i values 0) then (S increases, decreases)
  else if Qltb (nth i values 0) (nth (i - 1) values 0) then (increases, S decreases)
  else (increases, decreases).

Definition detectTrend (values : list Q) : Trend :=
  if (length values <? 3)%nat then stable
  else
    let c := fold_left (trendStep values) (seq 1 (length values - 1)) (0%nat, 0%nat) in
    let threshold := ofNat (length values) * 0.6 in
    if Qltb threshold (ofNat (fst c)) then increasing
    else if Qltb threshold (ofNat (snd c)) then decreasing
    else stable.

(** Key equality of [Set] and [Map] (SameValueZero). *)
Definition sameValueZero (a b : value) : bool :=
  match a, b with
  | VNull, VNull | VUndefined, VUndefined => true
  | VBool x, VBool y => Bool.eqb x y
  | VNum None, VNum None => true
  | VNum (Some x), VNum (Some y) => Qeq_bool x y
  | VStr x, VStr y => String.eqb x y
  | _, _ => false
  end.

(** [new Set(vals)], in insertion order. *)
Definition toSet (vals : list value) : list value :=
  fold_left (fun seen v => if existsb (sameValueZero v) seen then seen else seen ++ [v])
            vals [].

(** [m.set(v, (m.get(v) || 0) + 1)] on a [Map] kept in insertion order. *)
Fixpoint bump (m : list (value * nat)) (v : value) : list (value * nat) :=
  match m with
  | [] => [(v, 1%nat)]
  | (k, c) :: m' => if sameValueZero k v then (k, S c) :: m' else (k, c) :: bump m' v
  end.

(** Values that survive [.map(Number).filter(n => !isNaN(n))]. *)
Definition numbersOf (vals : list value) : list Q :=
  flat_map (fun v => match Number_ v with Some q => [q] | None => [] end) vals.

Definition analyzeColumn (columnName : string) (values : list value) (type_ : ColumnType)
  : ColumnStats :=
  let validValues := filter (fun v => negb (isMissing v)) values in
  let count_ := length values in
  let nullCount_ := (count_ - length validValues)%nat in
  let uniqueCount_ := length (toSet validValues) in
  let numbers :=
    match type_ with
    | number => sort (fun a b => Fin (a - b)) (numbersOf validValues)
    | _ => []
    end in
  let present := (0 <? length numbers)%nat in
  let opt (q : Q) := if present then Some q else None in
  let mean_ := sum numbers / ofNat (length numbers) in
  let median_ := nth (length numbers / 2) numbers 0 in
  let q1 := nth (Z.to_nat (Qfloor (ofNat (length numbers) * 0.25))) numbers 0 in
  let q3 := nth (Z.to_nat (Qfloor (ofNat (length numbers) * 0.75))) numbers 0 in
  let variance :=
    fold_left (fun acc val => acc + (val - mean_) ^ 2) numbers 0
    / ofNat (length numbers) in
  let modeMap := fold_left bump validValues [] in
  let '(_, mode_) :=
    fold_left (fun '(maxCount, m) '(value_, c) =>
                 if (maxCount <? c)%nat then (c, value_) else (maxCount, m))
              modeMap (0%nat, VNull) in
  {| count := count_;
     nullCount := nullCount_;
     uniqueCount := uniqueCount_;
     min := opt (nth 0 numbers 0);
     max := opt (nth (length numbers - 1) numbers 0);
     mean := opt mean_;
     median := opt median_;
     stdDev := opt (Msqrt variance);
     quartiles := if present then Some (q1, median_, q3) else None;
     mode := mode_ |}.

(** [calculateDataQuality]; [None] when [statistics[col.name]] is
    undefined and reading its [nullCount] throws. *)
Definition calculateDataQuality (data : list (Record_ value))
    (columnInfo : list ColumnInfo) (statistics : Record_ ColumnStats) : option jsnum :=
  let totalCells := (length data * length columnInfo)%nat in
  match
    fold_left (fun acc col =>
                 match acc, lookup statistics (name col) with
                 | Some missingCells, Some st => Some (missingCells + nullCount st)%nat
                 | _, _ => None
                 end)
              columnInfo (Some 0%nat)
  with
  | None => None
  | Some missingCells =>
      Some (js_round (js_mul (js_div (ofNat totalCells - ofNat missingCells)
                                     (ofNat totalCells))
                             (Fin 100)))
  end.

Record Corr : Type := {
  col1 : string;
  col2 : string;
  cvalue : jsnum
}.

(** The column [col] of [data] after [.map(row => Number(row[col]))
    .filter(v => !isNaN(v))]. *)
Definition columnNumbers (data : list (Record_ value)) (col : string) : list Q :=
  numbersOf (map (fun row => getCell row col) data).

(** The pairs [(l[i], l[j])], [i < j], in the order of the nested loops. *)
Fixpoint pairs (A : Type) (l : list A) : list (A * A) :=
  match l with
  | [] => []
  | a :: l' => map (pair a) l' ++ pairs l'
  end.

Definition findCorrelations (data : list (Record_ value))
    (numericColumns : list ColumnInfo) : list Corr :=
  let correlations :=
    flat_map
      (fun '(c1, c2) =>
         let values1 := columnNumbers data (name c1) in
         let values2 := columnNumbers data (name c2) in
         if (2 <? length values1)%nat && (2 <? length values2)%nat then
           let correlation_ := calculateCorrelation values1 values2 in
           if js_gt (js_abs correlation_) 0.5
           then [{| col1 := name c1; col2 := name c2; cvalue := correlation_ |}]
           else []
         else [])
      (pairs numericColumns) in
  sort (fun a b => js_sub (js_abs (cvalue b)) (js_abs (cvalue a))) correlations.

Definition isNumberColumn (c : ColumnInfo) : bool :=
  match type c with number => true | _ => false end.

Definition isStringColumn (c : ColumnInfo) : bool :=
  match type c with string_ => true | _ => false end.

(** Truthiness of an optional number: present and not zero. *)
Definition truthy (x : option Q) : bool :=
  match x with
  | Some q => negb (Qeq_bool q 0)
  | None => false
  end.

Definition orZero (x : option Q) : Q :=
  match x with Some q => q | None => 0 end.

Definition quote : string := String "034" "".

(** The coefficient-of-variation rule of the per-column callback. *)
Definition variabilityInsights (col : ColumnInfo) (stats : ColumnStats) : list Insight :=
  if truthy (stdDev stats) && truthy (mean stats) then
    let cv := orZero (stdDev stats) / orZero (mean stats) * 100 in
    if Qltb 75 cv then
      [{| itype := trend;
          title := "Extreme Variability in " ++ name col;
          description := "This feature shows very high variance (CV: "
            ++ toFixed (Fin cv) 1
            ++ "%). Consider normalization or investigating the cause of such wide dispersion.";
          severity := high |}]
    else if Qltb cv 5 then
      [{| itype := trend;
          title := "Low Variability in " ++ name col;
          description := "Values are highly consistent (CV: "
            ++ toFixed (Fin cv) 1
            ++ "%). This feature may have limited predictive power.";
          severity := low |}]
    else []
  else [].

Definition missingDataInsights (data : list (Record_ value)) (col : ColumnInfo)
    (stats : ColumnStats) : list Insight :=
  if Qltb (ofNat (length data) * 0.2) (ofNat (nullCount stats)) then
    [{| itype := outlier;
        title := "Significant Missing Data in " ++ name col;
        description :=
          toFixed (js_mul (js_div (ofNat (nullCount stats)) (ofNat (length data))) (Fin 100)) 1
          ++ "% of values are missing. Consider imputation strategies or investigate why data is incomplete.";
        severity := high |}]
  else [].

(** The body of [numericColumns.forEach(col => ...)]. *)
Definition numericColumnInsights (data : list (Record_ value))
    (statistics : Record_ ColumnStats) (col : ColumnInfo) : list Insight :=
  match lookup statistics (name col) with
  | None => []
  | Some stats =>
      let values := columnNumbers data (name col) in
      (if (0 <? length values)%nat then
         let outliers := detectOutliers values in
         (if (0 <? ocount outliers)%nat then
            let percentage :=
              toFixed (Fin (ofNat (ocount outliers) / ofNat (length values) * 100)) 1 in
            [{| itype := outlier;
                title := "Anomalies Detected in " ++ name col;
                description := "Found " ++ showNumber (Fin (ofNat (ocount outliers)))
                  ++ " outliers (" ++ percentage
                  ++ "% of data). These unusual values may indicate errors or significant events that need investigation.";
                severity :=
                  if Qltb (ofNat (length values) * 0.1) (ofNat (ocount outliers))
                  then high else medium |}]
          else [])
         ++
         (match detectTrend values with
          | stable => []
          | t =>
              [{| itype := trend;
                  title := (match t with increasing => "Upward" | _ => "Downward" end)
                           ++ " Trend in " ++ name col;
                  description := "The data shows a clear "
                    ++ (match t with increasing => "increasing" | _ => "decreasing" end)
                    ++ " pattern. "
                    ++ (match t with
                        | increasing =>
                            "Values are growing over time, suggesting positive momentum."
                        | _ => "Values are declining, which may require attention."
                        end);
                  severity := medium |}]
          end)
         ++ variabilityInsights col stats
       else [])
      ++ missingDataInsights data col stats
      ++ (if (uniqueCount stats =? length data)%nat then
            [{| itype := summary;
                title := name col ++ " Contains Unique Values";
                description := "Every row has a distinct value. This might be an ID field or contain highly granular data.";
                severity := low |}]
          else [])
  end.

Definition correlationInsight (corr : Corr) : list Insight :=
  let strength := js_abs (cvalue corr) in
  if js_gt strength 0.7 then
    let positive := js_gt (cvalue corr) 0 in
    [{| itype := correlation;
        title := "Strong " ++ (if positive then "Positive" else "Negative")
                 ++ " Correlation Found";
        description := quote ++ col1 corr ++ quote ++ " and " ++ quote ++ col2 corr ++ quote
          ++ " are " ++ (if positive then "strongly related" else "inversely related")
          ++ " (r = " ++ toFixed (cvalue corr) 2 ++ "). "
          ++ (if positive then "As one increases, the other tends to increase."
              else "As one increases, the other tends to decrease.");
        severity := if js_gt strength 0.9 then high else medium |}]
  else [].

(** The body of [stringColumns.forEach(col => ...)]; [None] when
    [statistics[col.name]] is undefined and reading [uniqueCount] throws. *)
Definition stringColumnInsights (data : list (Record_ value))
    (statistics : Record_ ColumnStats) (col : ColumnInfo) : option (list Insight) :=
  match lookup statistics (name col) with
  | None => None
  | Some stats =>
      Some (if Qltb (ofNat (uniqueCount stats)) (ofNat (length data) * 0.05) then
              [{| itype := summary;
                  title := name col ++ " Has Few Categories";
                  description := "Only " ++ showNumber (Fin (ofNat (uniqueCount stats)))
                    ++ " unique values found. This categorical field could be useful for grouping and segmentation analysis.";
                  severity := low |}]
            else [])
  end.

(** All results of [f] in order, or [None] as soon as one call throws. *)
Fixpoint forEachOpt (A B : Type) (f : A -> option (list B)) (l : list A) : option (list B) :=
  match l with
  | [] => Some []
  | a :: l' =>
      match f a with
      | None => None
      | Some bs =>
          match forEachOpt f l' with
          | None => None
          | Some rest => Some (bs ++ rest)
          end
      end
  end.

(** [generateInsights]; [None] when the run ends in a [TypeError]. *)
Definition generateInsights (data : list (Record_ value))
    (columnInfo : list ColumnInfo) (statistics : Record_ ColumnStats)
  : option (list Insight) :=
  let numericColumns := filter isNumberColumn columnInfo in
  match calculateDataQuality data columnInfo statistics with
  | None => None
  | Some dataQualityScore =>
      let first :=
        {| itype := summary;
           title := "Intelligent Dataset Analysis";
           description := "Analyzed " ++ showNumber (Fin (ofNat (length data)))
             ++ " records with " ++ showNumber (Fin (ofNat (length columnInfo)))
             ++ " features. Data quality score: " ++ showNumber dataQualityScore
             ++ "%. Found " ++ showNumber (Fin (ofNat (length numericColumns)))
             ++ " numeric features for advanced analysis.";
           severity := if js_gt dataQualityScore 80 then low
                       else if js_gt dataQualityScore 60 then medium else high |} in
      let perColumn := flat_map (numericColumnInsights data statistics) numericColumns in
      let correlations :=
        if (2 <=? length numericColumns)%nat
        then flat_map correlationInsight (findCorrelations data numericColumns)
        else [] in
      match forEachOpt (stringColumnInsights data statistics)
                       (filter isStringColumn columnInfo) with
      | None => None
      | Some strings => Some (first :: perColumn ++ correlations ++ strings)
      end
  end.

End Builtins.
End DataAnalysis.

(* ================================================================== *)
(** * utils/modeling.ts: the seeded shuffle and the split *)
(* ================================================================== *)

Module Modeling.
Import JS.
Local Open Scope Q_scope.

(** An array under [result[k] = v] and [result[k]] for any integer [k]:
    its elements, [None] being a slot that holds [undefined], and the
    properties stored under negative keys, latest first. *)
Record jsarray (A : Type) : Type := {
  elems : list (option A);
  props : list (Z * option A)
}.

(** [arr[n] = v] for [0 <= n]; writing past the end extends the array
    with empty slots. *)
Fixpoint setNth (A : Type) (n : nat) (v : option A) (l : list (option A))
  : list (option A) :=
  match n, l with
  | O, [] => [v]
  | O, _ :: l' => v :: l'
  | S n', [] => None :: setNth n' v []
  | S n', x :: l' => x :: setNth n' v l'
  end.

Fixpoint getProp (A : Type) (ps : list (Z * option A)) (k : Z) : option A :=
  match ps with
  | [] => None
  | (k', v) :: ps' => if (k' =? k)%Z then v else getProp ps' k
  end.

(** [arr[k]] *)
Definition aget (A : Type) (a : jsarray A) (k : Z) : option A :=
  if (0 <=? k)%Z then nth (Z.to_nat k) (elems a) None else getProp (props a) k.

(** [arr[k] = v] *)
Definition aset (A : Type) (a : jsarray A) (k : Z) (v : option A) : jsarray A :=
  if (0 <=? k)%Z
  then {| elems := setNth (Z.to_nat k) v (elems a); props := props a |}
  else {| elems := elems a; props := (k, v) :: props a |}.

(** [arr.slice(start, stop)] *)
Definition slice (A : Type) (l : list A) (start stop : Z) : list A :=
  let len := Z.of_nat (length l) in
  let clamp k := if (k <? 0)%Z then Z.max (len + k) 0 else Z.min k len in
  firstn (Z.to_nat (clamp stop - clamp start)) (skipn (Z.to_nat (clamp start)) l).

(** The update of [currentSeed] inside [random]; [%] is the remainder
    that takes the sign of the dividend.  Integer arithmetic is that of
    the source as long as the product stays below [2^53]; every seed
    after the first is below [233280]. *)
Definition nextSeed (currentSeed : Z) : Z :=
  Z.rem (currentSeed * 9301 + 49297) 233280.

(** [seed || Date.now()]: an absent seed and the seed [0] are both falsy. *)
Definition initialSeed (now : Z) (seed : option Z) : Z :=
  match seed with
  | Some s => if (s =? 0)%Z then now else s
  | None => now
  end.

(** One turn of the loop of [shuffle] at index [i]. *)
Definition shuffleStep (A : Type) (st : jsarray A * Z) (i : nat) : jsarray A * Z :=
  let '(result, currentSeed) := st in
  let currentSeed' := nextSeed currentSeed in
  let random := currentSeed' # 233280 in
  let j := Qfloor (random * (ofNat i + 1)) in
  let ri := aget result (Z.of_nat i) in
  let rj := aget result j in
  (aset (aset result (Z.of_nat i) rj) j ri, currentSeed').

(** [shuffle(array, seed)]; [now] is what [Date.now()] returns when it is
    consulted. *)
Definition shuffle (A : Type) (now : Z) (array : list A) (seed : option Z)
  : list (option A) :=
  let result := {| elems := map Some array; props := [] |} in
  let currentSeed := initialSeed now seed in
  elems (fst (fold_left (@shuffleStep A)
                        (rev (seq 1 (length array - 1)))
                        (result, currentSeed))).

Record Split (A : Type) : Type := {
  trainData : list (option A);
  testData : list (option A)
}.

Definition splitData (A : Type) (now : Z) (data : list A) (testSize : Q)
    (seed : option Z) : Split A :=
  let shuffled := shuffle now data seed in
  let testCount := Qfloor (ofNat (length data) * testSize) in
  {| trainData := slice shuffled testCount (Z.of_nat (length shuffled));
     testData := slice shuffled 0 testCount |}.

(* ================================================================== *)
(** * utils/modeling.ts: the trainers and their dispatcher *)
(* ================================================================== *)

(** A run of a trainer: the values it passed to [onProgress], in order,
    and its result, [None] when the run ended in a thrown [TypeError] or
    [Error]. *)
Definition M (A : Type) : Type := (list Q * option A)%type.

Definition ret (A : Type) (a : A) : M A := ([], Some a).

Definition bind (A B : Type) (m : M A) (f : A -> M B) : M B :=
  match m with
  | (l, Some a) => let '(l', r) := f a in (l ++ l', r)
  | (l, None) => (l, None)
  end.

(** [onProgress?.(p)] *)
Definition onProgress (p : Q) : M unit := ([p], Some tt).

Definition throw (A : Type) : M A := ([], None).

Notation "x <- m ;; k" := (bind m (fun x => k))
  (at level 61, m at next level, right associativity).
Notation "m ;; k" := (bind m (fun _ => k))
  (at level 61, right associativity).

(** [for (i of is) { st = body(i, st) }] *)
Fixpoint forM (S : Type) (body : nat -> S -> M S) (is_ : list nat) (st : S) : M S :=
  match is_ with
  | [] => ret st
  | i :: rest => st' <- body i st ;; forM body rest st'
  end.

(** [arr.map((a, idx) => f a idx)] for a callback that reports progress
    or throws. *)
Fixpoint mapM_from (A B : Type) (f : A -> nat -> M B) (i : nat) (l : list A) : M (list B) :=
  match l with
  | [] => ret []
  | a :: rest => b <- f a i ;; bs <- mapM_from f (S i) rest ;; ret (b :: bs)
  end.

Definition mapM (A B : Type) (f : A -> nat -> M B) (l : list A) : M (list B) :=
  mapM_from f 0 l.

(** [if (cond) onProgress?.(p)] *)
Definition progressWhen (cond : bool) (p : Q) : M unit :=
  if cond then onProgress p else ret tt.

(** [X[0]], whose [.length] is read next: throws on an empty matrix. *)
Definition firstRow (A : Type) (X : list (list A)) : M (list A) :=
  match X with
  | [] => throw _
  | row :: _ => ret row
  end.

(** The floating-point kernels of the trainers.  [num] is a JavaScript
    number as the trainers compute with it (any double, [NaN] and the
    infinities included, or [undefined] read from an array); [rng] is the
    state of [Math.random].  Each kernel stands for the arithmetic of the
    lines named beside it; loops that report progress, reads that can
    throw, and the shape of the result are written out in the trainers. *)
Record Numerics : Type := {
  num : Type;
  rng : Type;
  tree : Type;
  bayes : Type;
  net : Type;
  (** a literal or an integer as a number *)
  lit : Q -> num;
  (** [Number(cell)] *)
  toNumber : value -> num;
  (** a named metric formula over [(predictions, y_test)] *)
  metric : string -> list num -> list num -> num;
  (** [new Set(y_train).size <= 10] *)
  fewLabels : list num -> bool;
  (** [featureNames.forEach(name => importance[name] = Math.random() * a + b)] *)
  randomImportance : Q -> Q -> list string -> rng -> Record_ num;
  (** linear (false) or logistic (true) regression: one pass of the
      gradient loop body over [X_train, y_train, weights] (131-140, 201-210) *)
  gradientPass : bool -> list (list num) -> list num -> list num -> list num;
  (** the prediction for one test row from the weights (149-152, 219-222) *)
  regressionOutput : bool -> list num -> list num -> num;
  (** [Math.abs(weights[i + offset])] per feature name (162-165, 883-886) *)
  weightImportance : nat -> list num -> list string -> Record_ num;
  (** decision tree: [y_train.every(y => y === 0 || y === 1)] and the
      majority label of [y_train] (262-269) *)
  isBinary : list num -> bool;
  majorityLabel : list num -> num;
  (** k-means: [distances.indexOf(Math.min(...distances))] for the
      distances of a point to the centroids, [-1] when no distance equals
      the minimum (314-317, 339-342) *)
  closestCentroid : list (list num) -> list num -> Z;
  (** the mean of the points of a cluster (323-326) *)
  centroidOf : list (list num) -> list num;
  (** the distance added to the inertia for a point and its centroid (347-350) *)
  pointDistance : list num -> list num -> num;
  (** the division of the summed distances by [X_test.length] (345-351) *)
  meanDistance : list num -> nat -> num;
  (** random forest: one bootstrap sample and its tree (423-429) *)
  forestTree : list (list num) -> list num -> rng -> tree * rng;
  (** the forest's prediction for a row, rounded for classification (433-437) *)
  forestOutput : bool -> list tree -> list num -> num;
  (** gradient boosting: one stump fitted to the residuals and the updated
      training predictions (575-581), and the prediction for a row (586-592) *)
  boostInit : list (list num) -> list num -> list num;
  boostStump : list (list num) -> list num -> list num -> tree * list num;
  boostOutput : bool -> list num -> list tree -> list num -> num;
  stumpImportance : list tree -> list string -> Record_ num;
  (** xgboost: one tree on the gradients and the updated training
      predictions (743-751), and the prediction for a row (756-762) *)
  xgbTree : list (list num) -> list num -> list num -> tree * list num;
  xgbOutput : bool -> list num -> list tree -> list num -> num;
  (** svm: one pass over the training rows (826-842) and the class of a
      test row (851-854) *)
  svmPass : list (list num) -> list num -> list num * num -> list num * num;
  svmOutput : list num * num -> list num -> num;
  (** knn: the vote among the nearest rows, [k >= 1] (914-934) *)
  knnVote : nat -> list (list num) -> list num -> list num -> num;
  (** naive Bayes: priors, means and deviations per class (969-993) and
      the most probable class of a row (1003-1021) *)
  bayesFit : list (list num) -> list num -> bayes;
  bayesOutput : bayes -> list num -> num;
  (** neural network: random initial weights (1065-1068), one epoch
      (1074-1086), the class of a row (1095-1101), the importance of the
      features (1105-1109) *)
  netInit : nat -> nat -> rng -> net * rng;
  netEpoch : list (list num) -> list num -> net -> net;
  netOutput : net -> list num -> num;
  netImportance : nat -> net -> list string -> Record_ num
}.

Record TrainingResult (K : Numerics) : Type := {
  modelType : string;
  metrics : Record_ (num K);
  predictions : list (num K);
  actualValues : option (list (num K));
  featureImportance : option (Record_ (num K));
  trainTime : Z;
  testAccuracy : option (num K);
  trainAccuracy : option (num K)
}.

Record ModelConfig : Type := {
  ctype : string;
  targetColumn : string;
  featureColumns : list string;
  testSize : Q;
  randomSeed : option Z
}.

(** The three readings of [Date.now()] during one call of [trainModel]:
    on entry, inside [shuffle] when the seed is falsy, and on exit. *)
Record Clock : Type := {
  startTime : Z;
  shuffleTime : Z;
  endTime : Z
}.

Section Trainers.

Variable K : Numerics.

Local Open Scope string_scope.
Local Open Scope Q_scope.

Abbreviation matrix := (list (list (num K))).
Abbreviation vector := (list (num K)).

(** The trainers are called by [trainModel] only, on matrices whose rows
    hold one entry per feature name. *)

Definition trainLinearRegression (X_train : matrix) (y_train : vector)
    (X_test : matrix) (y_test : vector) (featureNames : list string)
  : M (TrainingResult K) :=
  onProgress 20 ;;
  row0 <- firstRow X_train ;;
  let m := length row0 in
  weights <- forM (fun iter w =>
                     let w' := gradientPass K false X_train y_train w in
                     progressWhen (iter mod 100 =? 0)%nat (20 + (ofNat iter / 1000) * 60) ;;
                     ret w')
                  (seq 0 1000) (repeat (lit K 0) (m + 1)) ;;
  onProgress 80 ;;
  let predictions_ := map (regressionOutput K false weights) X_test in
  let mse := metric K "mse" predictions_ y_test in
  let rmse := metric K "rmse" predictions_ y_test in
  let r2 := metric K "r2" predictions_ y_test in
  let importance := weightImportance K 1 weights featureNames in
  onProgress 100 ;;
  ret {| modelType := "linear_regression";
         metrics := [("mse", mse); ("rmse", rmse); ("r2", r2)];
         predictions := predictions_;
         actualValues := Some y_test;
         featureImportance := Some importance;
         trainTime := 0;
         testAccuracy := Some r2;
         trainAccuracy := None |}.

Definition classificationMetrics (predictions_ y_test : vector) : Record_ (num K) :=
  [("accuracy", metric K "accuracy" predictions_ y_test);
   ("precision", metric K "precision" predictions_ y_test);
   ("recall", metric K "recall" predictions_ y_test);
   ("f1", metric K "f1" predictions_ y_test)].

Definition trainLogisticRegression (X_train : matrix) (y_train : vector)
    (X_test : matrix) (y_test : vector) (featureNames : list string)
  : M (TrainingResult K) :=
  onProgress 20 ;;
  row0 <- firstRow X_train ;;
  let m := length row0 in
  weights <- forM (fun iter w =>
                     let w' := gradientPass K true X_train y_train w in
                     progressWhen (iter mod 100 =? 0)%nat (20 + (ofNat iter / 1000) * 60) ;;
                     ret w')
                  (seq 0 1000) (repeat (lit K 0) (m + 1)) ;;
  onProgress 80 ;;
  let predictions_ := map (regressionOutput K true weights) X_test in
  let importance := weightImportance K 1 weights featureNames in
  onProgress 100 ;;
  ret {| modelType := "logistic_regression";
         metrics := classificationMetrics predictions_ y_test;
         predictions := predictions_;
         actualValues := Some y_test;
         featureImportance := Some importance;
         trainTime := 0;
         testAccuracy := Some (metric K "accuracy" predictions_ y_test);
         trainAccuracy := None |}.

Definition trainDecisionTree (g : rng K) (X_train : matrix) (y_train : vector)
    (X_test : matrix) (y_test : vector) (featureNames : list string)
  : M (TrainingResult K) :=
  onProgress 50 ;;
  let isClassification := isBinary K y_train in
  let predictions_ := map (fun _ => majorityLabel K y_train) X_test in
  let accuracy :=
    if isClassification then metric K "accuracy" predictions_ y_test
    else metric K "1/(1+mse)" predictions_ y_test in
  let importance := randomImportance K 1 0 featureNames g in
  onProgress 100 ;;
  ret {| modelType := "decision_tree";
         metrics := [("accuracy", accuracy)];
         predictions := predictions_;
         actualValues := Some y_test;
         featureImportance := Some importance;
         trainTime := 0;
         testAccuracy := Some accuracy;
         trainAccuracy := None |}.

(** [clusters[c].push(idx)] for [0 <= c < clusters.length]. *)
Fixpoint pushAt (clusters : list (list nat)) (c : nat) (idx : nat) : list (list nat) :=
  match clusters, c with
  | [], _ => []
  | cl :: rest, O => (cl ++ [idx])%list :: rest
  | cl :: rest, S c' => cl :: pushAt rest c' idx
  end.

(** One turn of the loop of Lloyd's algorithm (311-329); it throws when a
    point has no closest centroid and [clusters[-1].push] is attempted. *)
Definition lloydPass (X_train : matrix) (k : nat) (centroids : matrix) : M matrix :=
  clusters <- forM (fun idx clusters =>
                      let point := nth idx X_train [] in
                      let closestCluster := closestCentroid K centroids point in
                      if (0 <=? closestCluster)%Z && (closestCluster <? Z.of_nat k)%Z
                      then ret (pushAt clusters (Z.to_nat closestCluster) idx)
                      else throw _)
                   (seq 0 (length X_train)) (repeat [] k) ;;
  ret (map (fun cluster =>
              match cluster with
              | [] => nth 0 centroids []
              | _ => centroidOf K (map (fun idx => nth idx X_train []) cluster)
              end)
           clusters).

Definition trainKMeans (X_train X_test : matrix) (featureNames : list string)
  : M (TrainingResult K) :=
  let k := Nat.min 3 (length X_train) in
  onProgress 20 ;;
  centroids <- forM (fun iter centroids =>
                       newCentroids <- lloydPass X_train k centroids ;;
                       progressWhen (iter mod 10 =? 0)%nat (20 + (ofNat iter / 100) * 60) ;;
                       ret newCentroids)
                    (seq 0 100) (firstn k X_train) ;;
  onProgress 80 ;;
  let clusterOf := map (closestCentroid K centroids) X_test in
  distances <- mapM (fun point i =>
                       let cluster := nth i clusterOf (-1)%Z in
                       match point with
                       | [] => ret (pointDistance K point [])
                       | _ =>
                           if (0 <=? cluster)%Z then
                             match nth_error centroids (Z.to_nat cluster) with
                             | Some centroid => ret (pointDistance K point centroid)
                             | None => throw _
                             end
                           else throw _
                       end)
                    X_test ;;
  let inertia := meanDistance K distances (length X_test) in
  onProgress 100 ;;
  ret {| modelType := "kmeans";
         metrics := [("clusters", lit K (ofNat k)); ("inertia", inertia)];
         predictions := map (fun c => lit K (inject_Z c)) clusterOf;
         actualValues := None;
         featureImportance := None;
         trainTime := 0;
         testAccuracy := None;
         trainAccuracy := None |}.

(** The metric split shared by the three tree ensembles. *)
Definition ensembleMetrics (isClassification : bool) (countName : string) (n : nat)
    (predictions_ y_test : vector) : Record_ (num K) * num K :=
  if isClassification then
    let accuracy := metric K "accuracy" predictions_ y_test in
    ([("accuracy", accuracy); (countName, lit K (ofNat n))], accuracy)
  else
    let r2 := metric K "max(0,r2)" predictions_ y_test in
    ([("mse", metric K "mse" predictions_ y_test);
      ("rmse", metric K "rmse" predictions_ y_test);
      ("r2", r2); (countName, lit K (ofNat n))], r2).

Definition trainRandomForest (g : rng K) (X_train : matrix) (y_train : vector)
    (X_test : matrix) (y_test : vector) (featureNames : list string)
  : M (TrainingResult K) :=
  let numTrees := 10%nat in
  onProgress 10 ;;
  let isClassification := fewLabels K y_train in
  st <- forM (fun i '(trees, g) =>
                let '(t, g') := forestTree K X_train y_train g in
                onProgress (10 + (ofNat i / ofNat numTrees) * 70) ;;
                ret ((trees ++ [t])%list, g'))
             (seq 0 numTrees) ([], g) ;;
  let '(trees, g') := st in
  let predictions_ := map (forestOutput K isClassification trees) X_test in
  let '(metrics_, testAccuracy_) :=
    ensembleMetrics isClassification "trees" numTrees predictions_ y_test in
  let importance := randomImportance K 0.5 0.5 featureNames g' in
  onProgress 100 ;;
  ret {| modelType := "random_forest";
         metrics := metrics_;
         predictions := predictions_;
         actualValues := Some y_test;
         featureImportance := Some importance;
         trainTime := 0;
         testAccuracy := Some testAccuracy_;
         trainAccuracy := None |}.

Definition trainGradientBoosting (X_train : matrix) (y_train : vector)
    (X_test : matrix) (y_test : vector) (featureNames : list string)
  : M (TrainingResult K) :=
  onProgress 10 ;;
  let numTrees := 20%nat in
  let isClassification := fewLabels K y_train in
  st <- forM (fun t '(stumps, predictions_train) =>
                _ <- firstRow X_train ;;
                let '(stump, predictions_train') :=
                  boostStump K X_train y_train predictions_train in
                onProgress (10 + (ofNat t / ofNat numTrees) * 80) ;;
                ret ((stumps ++ [stump])%list, predictions_train'))
             (seq 0 numTrees) ([], boostInit K X_train y_train) ;;
  let stumps := fst st in
  let predictions_ := map (boostOutput K isClassification y_train stumps) X_test in
  let '(metrics_, testAccuracy_) :=
    ensembleMetrics isClassification "estimators" numTrees predictions_ y_test in
  let importance := stumpImportance K stumps featureNames in
  onProgress 100 ;;
  ret {| modelType := "gradient_boosting";
         metrics := metrics_;
         predictions := predictions_;
         actualValues := Some y_test;
         featureImportance := Some importance;
         trainTime := 0;
         testAccuracy := Some testAccuracy_;
         trainAccuracy := None |}.

Definition trainXGBoost (g : rng K) (X_train : matrix) (y_train : vector)
    (X_test : matrix) (y_test : vector) (featureNames : list string)
  : M (TrainingResult K) :=
  onProgress 10 ;;
  let numTrees := 30%nat in
  let isClassification := fewLabels K y_train in
  st <- forM (fun t '(trees, predictions_train) =>
                let '(tree_, predictions_train') :=
                  xgbTree K X_train y_train predictions_train in
                onProgress (10 + (ofNat t / ofNat numTrees) * 80) ;;
                ret ((trees ++ [tree_])%list, predictions_train'))
             (seq 0 numTrees) ([], boostInit K X_train y_train) ;;
  let trees := fst st in
  let predictions_ := map (xgbOutput K isClassification y_train trees) X_test in
  let '(metrics_, testAccuracy_) :=
    ensembleMetrics isClassification "estimators" numTrees predictions_ y_test in
  let importance := randomImportance K 0.8 0.2 featureNames g in
  onProgress 100 ;;
  ret {| modelType := "xgboost";
         metrics := metrics_;
         predictions := predictions_;
         actualValues := Some y_test;
         featureImportance := Some importance;
         trainTime := 0;
         testAccuracy := Some testAccuracy_;
         trainAccuracy := None |}.

Definition trainSVM (X_train : matrix) (y_train : vector)
    (X_test : matrix) (y_test : vector) (featureNames : list string)
  : M (TrainingResult K) :=
  onProgress 10 ;;
  let isClassification := fewLabels K y_train in
  row0 <- firstRow X_train ;;
  let m := length row0 in
  model <- forM (fun iter wb =>
                   let wb' := svmPass K X_train y_train wb in
                   progressWhen (iter mod 10 =? 0)%nat (10 + (ofNat iter / 100) * 70) ;;
                   ret wb')
                (seq 0 100) (repeat (lit K 0) m, lit K 0) ;;
  onProgress 80 ;;
  let predictions_ := map (svmOutput K model) X_test in
  let '(metrics_, testAccuracy_) :=
    if isClassification then
      (classificationMetrics predictions_ y_test, metric K "accuracy" predictions_ y_test)
    else
      ([("mse", metric K "mse" predictions_ y_test);
        ("rmse", metric K "rmse" predictions_ y_test)],
       metric K "1/(1+rmse)" predictions_ y_test) in
  let importance := weightImportance K 0 (fst model) featureNames in
  onProgress 100 ;;
  ret {| modelType := "svm";
         metrics := metrics_;
         predictions := predictions_;
         actualValues := Some y_test;
         featureImportance := Some importance;
         trainTime := 0;
         testAccuracy := Some testAccuracy_;
         trainAccuracy := None |}.

Definition trainKNN (X_train : matrix) (y_train : vector)
    (X_test : matrix) (y_test : vector) (featureNames : list string)
  : M (TrainingResult K) :=
  let k := Nat.min 5 (length X_train) in
  onProgress 20 ;;
  predictions_ <- mapM (fun testPoint idx =>
                          _ <- firstRow X_train ;;
                          let prediction := knnVote K k X_train y_train testPoint in
                          progressWhen (idx mod 10 =? 0)%nat
                            (20 + (ofNat idx / ofNat (length X_test)) * 60) ;;
                          ret prediction)
                       X_test ;;
  onProgress 80 ;;
  let accuracy := metric K "accuracy" predictions_ y_test in
  onProgress 100 ;;
  ret {| modelType := "knn";
         metrics := [("accuracy", accuracy); ("k", lit K (ofNat k))];
         predictions := predictions_;
         actualValues := Some y_test;
         featureImportance := None;
         trainTime := 0;
         testAccuracy := Some accuracy;
         trainAccuracy := None |}.

Definition trainNaiveBayes (X_train : matrix) (y_train : vector)
    (X_test : matrix) (y_test : vector) (featureNames : list string)
  : M (TrainingResult K) :=
  onProgress 20 ;;
  let model := bayesFit K X_train y_train in
  onProgress 60 ;;
  predictions_ <- mapM (fun x idx =>
                          let bestClass := bayesOutput K model x in
                          progressWhen (idx mod 10 =? 0)%nat
                            (60 + (ofNat idx / ofNat (length X_test)) * 30) ;;
                          ret bestClass)
                       X_test ;;
  onProgress 100 ;;
  ret {| modelType := "naive_bayes";
         metrics := classificationMetrics predictions_ y_test;
         predictions := predictions_;
         actualValues := Some y_test;
         featureImportance := None;
         trainTime := 0;
         testAccuracy := Some (metric K "accuracy" predictions_ y_test);
         trainAccuracy := None |}.

Definition trainNeuralNetwork (g : rng K) (X_train : matrix) (y_train : vector)
    (X_test : matrix) (y_test : vector) (featureNames : list string)
  : M (TrainingResult K) :=
  row0 <- firstRow X_train ;;
  let inputSize := length row0 in
  let hiddenSize := Nat.max 4 (inputSize / 2) in
  let '(net0, _) := netInit K inputSize hiddenSize g in
  trained <- forM (fun epoch w =>
                     (* [weightsInputHidden[0].map] on the first training row *)
                     (if (inputSize =? 0)%nat then throw _ else ret tt) ;;
                     let w' := netEpoch K X_train y_train w in
                     progressWhen (epoch mod 5 =? 0)%nat (10 + (ofNat epoch / 50) * 80) ;;
                     ret w')
                  (seq 0 50) net0 ;;
  onProgress 90 ;;
  let predictions_ := map (netOutput K trained) X_test in
  let accuracy := metric K "accuracy" predictions_ y_test in
  (* [weightsInputHidden[i].reduce] for every feature name *)
  (if (length featureNames <=? inputSize)%nat then ret tt else throw _) ;;
  let importance := netImportance K hiddenSize trained featureNames in
  onProgress 100 ;;
  ret {| modelType := "neural_network";
         metrics := [("accuracy", accuracy); ("hidden_neurons", lit K (ofNat hiddenSize))];
         predictions := predictions_;
         actualValues := Some y_test;
         featureImportance := Some importance;
         trainTime := 0;
         testAccuracy := Some accuracy;
         trainAccuracy := None |}.

(** The [switch (config.type)] of [trainModel]. *)
Definition dispatch (type_ : string) (g : rng K) (X_train : matrix) (y_train : vector)
    (X_test : matrix) (y_test : vector) (featureNames : list string)
  : M (TrainingResult K) :=
  if String.eqb type_ "linear_regression" then
    trainLinearRegression X_train y_train X_test y_test featureNames
  else if String.eqb type_ "logistic_regression" then
    trainLogisticRegression X_train y_train X_test y_test featureNames
  else if String.eqb type_ "decision_tree" then
    trainDecisionTree g X_train y_train X_test y_test featureNames
  else if String.eqb type_ "random_forest" then
    trainRandomForest g X_train y_train X_test y_test featureNames
  else if String.eqb type_ "gradient_boosting" then
    trainGradientBoosting X_train y_train X_test y_test featureNames
  else if String.eqb type_ "xgboost" then
    trainXGBoost g X_train y_train X_test y_test featureNames
  else if String.eqb type_ "svm" then
    trainSVM X_train y_train X_test y_test featureNames
  else if String.eqb type_ "knn" then
    trainKNN X_train y_train X_test y_test featureNames
  else if String.eqb type_ "naive_bayes" then
    trainNaiveBayes X_train y_train X_test y_test featureNames
  else if String.eqb type_ "neural_network" then
    trainNeuralNetwork g X_train y_train X_test y_test featureNames
  else if String.eqb type_ "kmeans" then
    trainKMeans X_train X_test featureNames
  else throw _.

(** [config.featureColumns.map(col => Number(row[col]))]; reading a
    column of an [undefined] row throws. *)
Definition featuresOf (config : ModelConfig) (row : option (Record_ value)) : M vector :=
  match row with
  | Some r => ret (map (fun col => toNumber K (getCell r col)) (featureColumns config))
  | None => match featureColumns config with [] => ret [] | _ => throw _ end
  end.

(** [Number(row[config.targetColumn])] *)
Definition targetOf (config : ModelConfig) (row : option (Record_ value)) : M (num K) :=
  match row with
  | Some r => ret (toNumber K (getCell r (targetColumn config)))
  | None => throw _
  end.

Definition withTrainTime (r : TrainingResult K) (t : Z) : TrainingResult K :=
  {| modelType := modelType r;
     metrics := metrics r;
     predictions := predictions r;
     actualValues := actualValues r;
     featureImportance := featureImportance r;
     trainTime := t;
     testAccuracy := testAccuracy r;
     trainAccuracy := trainAccuracy r |}.

Definition trainModel (clock : Clock) (g : rng K) (data : list (Record_ value))
    (config : ModelConfig) : M (TrainingResult K) :=
  let s := splitData (shuffleTime clock) data (testSize config) (randomSeed config) in
  X_train <- mapM (fun row _ => featuresOf config row) (trainData s) ;;
  y_train <- mapM (fun row _ => targetOf config row) (trainData s) ;;
  X_test <- mapM (fun row _ => featuresOf config row) (testData s) ;;
  y_test <- mapM (fun row _ => targetOf config row) (testData s) ;;
  result <- dispatch (ctype config) g X_train y_train X_test y_test (featureColumns config) ;;
  ret (withTrainTime result (endTime clock - startTime clock)).

End Trainers.

(* ================================================================== *)
(** * Sample inputs used to run the definitions *)
(* ================================================================== *)

(** A stand-in for the kernels, to run the trainers on examples: numbers
    are rationals, every fitted quantity is zero, every point is closest
    to centroid [0]. *)
Definition zeroNumerics : Numerics :=
  {| num := Q; rng := unit; tree := unit; bayes := unit; net := unit;
     lit := fun q => q;
     toNumber := fun v => match v with VNum (Some q) => q | _ => 0 end;
     metric := fun _ _ _ => 0;
     fewLabels := fun _ => true;
     randomImportance := fun _ _ names _ => map (fun n => (n, 0)) names;
     gradientPass := fun _ _ _ w => w;
     regressionOutput := fun _ _ _ => 0;
     weightImportance := fun _ _ names => map (fun n => (n, 0)) names;
     isBinary := fun _ => true;
     majorityLabel := fun _ => 0;
     closestCentroid := fun _ _ => 0%Z;
     centroidOf := fun _ => [];
     pointDistance := fun _ _ => 0;
     meanDistance := fun _ _ => 0;
     forestTree := fun _ _ g => (tt, g);
     forestOutput := fun _ _ _ => 0;
     boostInit := fun _ y => y;
     boostStump := fun _ _ p => (tt, p);
     boostOutput := fun _ _ _ _ => 0;
     stumpImportance := fun _ names => map (fun n => (n, 0)) names;
     xgbTree := fun _ _ p => (tt, p);
     xgbOutput := fun _ _ _ _ => 0;
     svmPass := fun _ _ wb => wb;
     svmOutput := fun _ _ => 0;
     knnVote := fun _ _ _ _ => 0;
     bayesFit := fun _ _ => tt;
     bayesOutput := fun _ _ => 0;
     netInit := fun _ _ g => (tt, g);
     netEpoch := fun _ _ w => w;
     netOutput := fun _ _ => 0;
     netImportance := fun _ _ names => map (fun n => (n, 0)) names |}.

(** Five rows with a feature [x] and a target [y]. *)
Definition sampleRows : list (Record_ value) :=
  map (fun q => [("x"%string, VNum (Some q)); ("y"%string, VNum (Some (2 * q + 3)))])
      [1; 2; 3; 4; 5].

Definition sampleConfig (type_ : string) : ModelConfig :=
  {| ctype := type_;
     targetColumn := "y";
     featureColumns := ["x"%string];
     testSize := 0.4;
     randomSeed := Some 42%Z |}.

Definition sampleClock : Clock :=
  {| startTime := 1000; shuffleTime := 1001; endTime := 1250 |}.

End Modeling.

(* ================================================================== *)
(** * Reference notions used in the statements *)
(* ================================================================== *)

Module Reference.
Import JS DataAnalysis.
Local Open Scope Q_scope.

(** The adjacent steps [(l[i-1], l[i])] of a sequence. *)
Definition steps (l : list Q) : list (Q * Q) := combine l (tl l).

(** The number of strictly increasing, and of strictly decreasing, steps. *)
Definition rising (l : list Q) : nat :=
  length (filter (fun p => Qltb (fst p) (snd p)) (steps l)).

Definition falling (l : list Q) : nat :=
  length (filter (fun p => Qltb (snd p) (fst p)) (steps l)).

Definition countIf (A : Type) (p : A -> bool) (l : list A) : nat :=
  length (filter p l).

(** The values type inference looks at: the first hundred. *)
Definition sampled (values : list value) : list value := firstn 100 values.

Section Cells.
Variable parseNumber : string -> option Q.
Variable parsesAsDate : value -> bool.

(** A cell counted as boolean, as numeric, as a date. *)
Definition booleanCell (v : value) : bool :=
  negb (isMissing v) && isBooleanLike v.

Definition numericCell (v : value) : bool :=
  negb (isMissing v) && negb (isBooleanLike v) && isNumeric parseNumber v.

Definition dateCell (v : value) : bool :=
  negb (isMissing v) && negb (isBooleanLike v) && negb (isNumeric parseNumber v)
  && parsesAsDate v.
End Cells.

(** Sums written the textbook way. *)
Definition total (l : list Q) : Q := fold_right Qplus 0 l.




(** The progress value [a + (i / d) * s] reported at turn [i]. *)
Definition ramp (a d s : Q) (i : nat) : Q := a + (ofNat i / d) * s.

(** What a loop of [n] turns reports when it reports [p i] at the turns
    [i] that satisfy [c]. *)
Definition ticks (c : nat -> bool) (p : nat -> Q) (n : nat) : list Q :=
  flat_map (fun i => if c i then [p i] else []) (seq 0 n).

(** A sequence that never decreases and stays within [lo .. hi]. *)
Definition between (lo hi : Q) (t : list Q) : Prop :=
  StronglySorted Qle t /\ Forall (fun p => lo <= p <= hi) t.

(** The contract of [onProgress]: never decreasing, within [0 .. 100],
    ending with exactly [100]. *)
Definition progressOk (t : list Q) : Prop :=
  between 0 100 t /\ last t 0 = 100.

(** A trace of at least three reports whose first is [10] or [20]: a low
    value at the start and at least one report before the last. *)
Definition startsLow (t : list Q) : Prop :=
  (3 <= length t)%nat /\ (hd 0 t == 10 \/ hd 0 t == 20).

(** A run that ends normally. *)
Definition returns (A : Type) (m : Modeling.M A) : Prop :=
  exists t a, m = (t, Some a).


End Reference.

(* ================================================================== *)
(** * Sample inputs for the analysis functions *)
(* ================================================================== *)

Module Samples.
Import JS DataAnalysis.
Local Open Scope Q_scope.
Local Open Scope string_scope.

(** Stand-ins for the built-ins, to run the definitions on examples: an
    integer square root, a [Number] that knows the empty string only, and
    a number formatter that prints a placeholder. *)
Definition sampleSqrt (q : Q) : Q := inject_Z (Z.sqrt (Qfloor q)).

Definition sampleParse (s : string) : option Q :=
  if String.eqb s "" then Some 0 else None.

Definition sampleShow (x : jsnum) : string := "#".

Definition sampleFixed (x : jsnum) (digits : nat) : string := "#".




(** One number followed by four empty cells. *)
Definition mostlyMissing : list value :=
  [VNum (Some 1); VStr ""; VStr ""; VStr ""; VStr ""].





End Samples.

(* ================================================================== *)
(** * String built-ins *)
(* ================================================================== *)

(** A string is the sequence of its code units; the texts handled here
    are those whose code units are below 256. *)
Module Text.

(** The white space and line terminators that [trim] removes, among the
    code units below 256: tab, line feed, vertical tab, form feed,
    carriage return, space and no-break space. *)
Definition isWhiteSpace (c : ascii) : bool :=
  let n := nat_of_ascii c in
  ((9 <=? n)%nat && (n <=? 13)%nat) || (n =? 32)%nat || (n =? 160)%nat.

Fixpoint trimStart (s : string) : string :=
  match s with
  | EmptyString => EmptyString
  | String c s' => if isWhiteSpace c then trimStart s' else s
  end.

Fixpoint trimEnd (s : string) : string :=
  match s with
  | EmptyString => EmptyString
  | String c s' =>
      match trimEnd s' with
      | EmptyString => if isWhiteSpace c then EmptyString else String c EmptyString
      | t => String c t
      end
  end.

(** [s.trim()] *)
Definition trim (s : string) : string := trimEnd (trimStart s).

(** [s.split(sep)] for a separator of one character. *)
Fixpoint split (sep : ascii) (s : string) : list string :=
  match s with
  | EmptyString => [EmptyString]
  | String c s' =>
      if Ascii.eqb c sep then EmptyString :: split sep s'
      else match split sep s' with
           | [] => [String c EmptyString]
           | piece :: rest => String c piece :: rest
           end
  end.

(** The double quote. *)
Definition dquote : ascii := "034"%char.

Fixpoint dropFinalQuote (s : string) : string :=
  match s with
  | EmptyString => EmptyString
  | String c EmptyString => if Ascii.eqb c dquote then EmptyString else s
  | String c s' => String c (dropFinalQuote s')
  end.

(** [s.replace(/^QUOTE|QUOTE$/g, '')], QUOTE being the double quote: a
    quote at the very start and a quote at the very end are removed, the
    second match starting after the first. *)
Definition unquote (s : string) : string :=
  match s with
  | String c s' => if Ascii.eqb c dquote then dropFinalQuote s' else dropFinalQuote s
  | EmptyString => EmptyString
  end.

End Text.

(* ================================================================== *)
(** * utils/dataAnalysis.ts: the CSV reader *)
(* ================================================================== *)

Module Csv.
Import JS Text.

(** The variables of the loop of [parseCSVLine]. *)
Record LineState : Type := {
  result : list string;
  current : string;
  inQuotes : bool
}.

(** The body of the loop of [parseCSVLine] on the character [char]. *)
Definition lineStep (st : LineState) (char : ascii) : LineState :=
  if Ascii.eqb char dquote then
    {| result := result st; current := current st; inQuotes := negb (inQuotes st) |}
  else if Ascii.eqb char ","%char && negb (inQuotes st) then
    {| result := result st ++ [unquote (trim (current st))];
       current := EmptyString;
       inQuotes := inQuotes st |}
  else
    {| result := result st;
       current := (current st ++ String char EmptyString)%string;
       inQuotes := inQuotes st |}.

Definition parseCSVLine (line : string) : list string :=
  let st := fold_left lineStep (list_ascii_of_string line)
                      {| result := []; current := EmptyString; inQuotes := false |} in
  result st ++ [unquote (trim (current st))].

(** [row[k] = v] on the own properties of an object: an existing key
    keeps its place. *)
Fixpoint assign (V : Type) (r : Record_ V) (k : string) (v : V) : Record_ V :=
  match r with
  | [] => [(k, v)]
  | (k', v') :: r' =>
      if String.eqb k' k then (k', v) :: r' else (k', v') :: assign r' k v
  end.

(** [row[header] = values[index]] for a string or [undefined] on the
    right: the key [__proto__] names the prototype setter, which ignores
    a value that is not an object. *)
Definition setCell (row : Record_ value) (header : string) (v : value) : Record_ value :=
  if String.eqb header "__proto__" then row else assign row header v.

(** [values[index]] *)
Definition cellAt (values : list string) (index : nat) : value :=
  match nth_error values index with
  | Some s => VStr s
  | None => VUndefined
  end.

(** The row built by [headers.forEach((header, index) => ...)]. *)
Definition makeRow (headers values : list string) : Record_ value :=
  reducei (fun row header index => setCell row header (cellAt values index)) headers [].

Definition parseCSV (csvText : string) : list (Record_ value) :=
  let lines := split "010"%char (trim csvText) in
  if (length lines <? 2)%nat then []
  else
    let headers := map (fun h => unquote (trim h)) (split ","%char (nth 0 lines EmptyString)) in
    flat_map (fun i =>
                let values := parseCSVLine (nth i lines EmptyString) in
                if (length values =? length headers)%nat
                then [makeRow headers values]
                else [])
             (seq 1 (length lines - 1)).

End Csv.

(* ================================================================== *)
(** * Reference notions for texts and tables *)
(* ================================================================== *)

Module CsvReference.
Import JS Text Csv.

(** Whether the character [c] occurs in [s]. *)
Fixpoint contains (c : ascii) (s : string) : bool :=
  match s with
  | EmptyString => false
  | String c' s' => Ascii.eqb c' c || contains c s'
  end.

(** [pieces.join(sep)] *)
Fixpoint joinWith (sep : ascii) (pieces : list string) : string :=
  match pieces with
  | [] => EmptyString
  | [piece] => piece
  | piece :: rest => (piece ++ String sep (joinWith sep rest))%string
  end.

(** A field as a CSV writer puts it on a line: between double quotes or
    as it is. *)
Definition cell (quoted : bool) (field : string) : string :=
  if quoted then String dquote (field ++ String dquote EmptyString)%string else field.

(** The last position of [h] in [headers], positions counted from [i]. *)
Fixpoint lastIndexFrom (i : nat) (h : string) (headers : list string) : option nat :=
  match headers with
  | [] => None
  | x :: rest =>
      match lastIndexFrom (S i) h rest with
      | Some j => Some j
      | None => if String.eqb x h then Some i else None
      end
  end.

(** A field that needs no quoting and survives trimming. *)
Definition plain (field : string) : Prop :=
  contains dquote field = false /\ contains ","%char field = false /\
  contains "010"%char field = false /\ trim field = field.

(** A table written one line per row, fields separated by commas. *)
Definition render (headers : list string) (rows : list (list string)) : string :=
  joinWith "010"%char (map (joinWith ","%char) (headers :: rows)).

End CsvReference.

(* ================================================================== *)
(** * App.tsx: the analysis run on an uploaded dataset *)
(* ================================================================== *)

Module App.
Import JS DataAnalysis Csv.
Local Open Scope Q_scope.

(** What [handleDataUploaded] computes before it stores anything. *)
Record Analysis : Type := {
  colInfo : list ColumnInfo;
  stats : Record_ ColumnStats;
  generatedInsights : list Insight
}.

Section Upload.
Variable parseNumber : string -> option Q.
Variable parsesAsDate : value -> bool.
Variable Msqrt : Q -> Q.
Variable showNumber : jsnum -> string.
Variable toFixed : jsnum -> nat -> string.

(** [uploadedData.map(row => row[colName])] *)
Definition columnValues (uploadedData : list (Record_ value)) (colName : string)
  : list value :=
  map (fun row => getCell row colName) uploadedData.

(** The analysis part of [handleDataUploaded].  [columns] is what
    [Object.keys(uploadedData[0])] returns; the call throws on an empty
    dataset, whose first row is [undefined], and the run ends there when
    [generateInsights] throws.  [stats[col.name] = ...] is read back by
    key only. *)
Definition handleDataUploaded (columns : list string) (uploadedData : list (Record_ value))
  : option Analysis :=
  match uploadedData with
  | [] => None
  | _ :: _ =>
      let colInfo_ :=
        map (fun colName =>
               let values := columnValues uploadedData colName in
               let type_ := detectColumnType parseNumber parsesAsDate values in
               let nullCount_ := length (filter isMissing values) in
               {| name := colName; type := type_; nullable := (0 <? nullCount_)%nat |})
            columns in
      let stats_ :=
        fold_left (fun stats_ col =>
                     assign stats_ (name col)
                            (analyzeColumn parseNumber Msqrt (name col)
                                           (columnValues uploadedData (name col))
                                           (type col)))
                  colInfo_ [] in
      match generateInsights parseNumber Msqrt showNumber toFixed
                             uploadedData colInfo_ stats_ with
      | None => None
      | Some insights =>
          Some {| colInfo := colInfo_; stats := stats_; generatedInsights := insights |}
      end
  end.

End Upload.
End App.

(* ================================================================== *)
(** * Reference notions for the analysis *)
(* ================================================================== *)

Module AnalysisReference.
Import JS DataAnalysis.
Local Open Scope Q_scope.

(** The missing cells of the columns that have statistics. *)
Definition missingCells (statistics : Record_ ColumnStats) (columnInfo : list ColumnInfo)
  : nat :=
  list_sum (map (fun col => match lookup statistics (name col) with
                            | Some st => nullCount st
                            | None => 0%nat
                            end) columnInfo).

(** The comparator of [findCorrelations]: stronger correlations first. *)
Definition strongerFirst (a b : Corr) : jsnum :=
  js_sub (js_abs (cvalue b)) (js_abs (cvalue a)).

(** The absolute value of a finite correlation. *)
Definition strength (c : Corr) : Q :=
  match cvalue c with
  | Fin r => Qabs r
  | _ => 0
  end.

End AnalysisReference.

(* ================================================================== *)
(** * utils/validation.ts: the checks made before training *)
(* ================================================================== *)

Module Validation.
Import JS DataAnalysis.
Local Open Scope string_scope.
Local Open Scope Q_scope.

Record ValidationResult : Type := {
  isValid : bool;
  warnings : list string;
  errors : list string;
  suggestions : list string
}.

(** [if (cond) list.push(message)] *)
Definition pushWhen (cond : bool) (message : string) : list string :=
  if cond then [message] else [].

(** [Math.max(...values) - Math.min(...values) > 1000]; without values
    the difference is [-Infinity]. *)
Definition rangeOver1000 (values : list Q) : bool :=
  match values with
  | [] => false
  | v :: rest =>
      Qltb 1000 (fold_left (fun a b => if Qltb a b then b else a) rest v
                 - fold_left (fun a b => if Qltb b a then b else a) rest v)
  end.

Section Validate.
Variable parseNumber : string -> option Q.
Variable showNumber : jsnum -> string.

Definition validateModeling (data : list (Record_ value)) (columnInfo : list ColumnInfo)
    (modelType targetColumn : string) (featureColumns : list string)
  : ValidationResult :=
  if (length data <? 20)%nat then
    {| isValid := false;
       warnings := [];
       errors := ["Dataset terlalu kecil untuk training ML (minimum 20 rows diperlukan)."];
       suggestions := [] |}
  else
    let numericColumns := filter isNumberColumn columnInfo in
    let is_ := String.eqb modelType in
    let hasTarget := negb (String.eqb targetColumn "") in
    let classifier :=
      is_ "logistic_regression" || is_ "decision_tree" || is_ "naive_bayes" in
    let ensemble := is_ "random_forest" || is_ "gradient_boosting" || is_ "xgboost" in
    (* [new Set(data.map(row => row[targetColumn])).size] *)
    let targetClasses := length (toSet (map (fun row => getCell row targetColumn) data)) in
    (* [new Set(data.map(row => Number(row[targetColumn])).filter(v => !isNaN(v))).size] *)
    let targetNumbers :=
      length (toSet (map (fun q => VNum (Some q))
                         (columnNumbers parseNumber data targetColumn))) in
    let hasHighCardinalityFeatures :=
      existsb (fun col => rangeOver1000 (columnNumbers parseNumber data col))
              featureColumns in
    let testRows := Qfloor (ofNat (length data) * 0.2) in
    let warnings_ :=
      concat
        [ pushWhen (length data <? 100)%nat
        "Dataset kecil. Model mungkin kurang akurat. Ideal: >100 rows.";
          pushWhen (length featureColumns =? 1)%nat
           "Hanya 1 feature digunakan. Model mungkin kurang akurat.";
          pushWhen (classifier && hasTarget && (10 <? targetClasses)%nat)
           ("Target column memiliki " ++ showNumber (Fin (ofNat targetClasses))
            ++ " unique values. Klasifikasi biasanya untuk <10 classes.");
          pushWhen (is_ "linear_regression" && hasTarget && (targetNumbers <? 10)%nat)
           ("Target column hanya memiliki " ++ showNumber (Fin (ofNat targetNumbers))
            ++ " unique values. Linear regression lebih cocok untuk nilai kontinu.");
          pushWhen (ensemble && (length data <? 100)%nat)
           "Tree-based models membutuhkan lebih banyak data (ideal: >500 rows).";
          pushWhen (ensemble && (length featureColumns <? 3)%nat)
           "Random Forest/Gradient Boosting/XGBoost lebih efektif dengan banyak features (>3).";
          pushWhen (is_ "svm" && (5000 <? Z.of_nat (length data))%Z)
           "SVM lambat pada dataset besar (>5000 rows). Training mungkin memakan waktu lama.";
          pushWhen (is_ "svm" && (50 <? length featureColumns)%nat)
           "SVM dengan banyak features (>50) membutuhkan waktu training lama.";
          pushWhen (is_ "neural_network" && (length data <? 500)%nat)
           "Neural network membutuhkan banyak data (ideal: >1000 rows) untuk training efektif.";
          pushWhen (is_ "knn" && (10000 <? Z.of_nat (length data))%Z)
           "KNN lambat pada dataset besar. Pertimbangkan sampling atau model lain.";
          pushWhen (is_ "kmeans" && (length data <? 30)%nat)
           "Dataset terlalu kecil untuk clustering yang bermakna.";
          pushWhen (testRows <? 10)%Z
           ("Test set hanya " ++ showNumber (Fin (inject_Z testRows))
            ++ " rows. Hasil evaluasi mungkin tidak reliable.") ] in
    let errors_ :=
      concat
        [ pushWhen (negb (is_ "kmeans") && negb hasTarget)
        "Pilih target column yang ingin diprediksi.";
          pushWhen (length featureColumns =? 0)%nat
           "Pilih minimal 1 feature column untuk training.";
          pushWhen (is_ "kmeans" && (length numericColumns <? 2)%nat)
           "K-Means membutuhkan minimal 2 numeric features untuk clustering." ] in
    let suggestions_ :=
      concat
        [ pushWhen (length featureColumns =? 1)%nat
        "Tambahkan lebih banyak features untuk hasil lebih baik.";
          pushWhen (classifier && hasTarget && (10 <? targetClasses)%nat)
           "Pertimbangkan regression jika target adalah nilai kontinu.";
          pushWhen (classifier && hasTarget && (targetClasses =? 2)%nat)
           "Data cocok untuk binary classification (2 classes).";
          pushWhen (is_ "linear_regression" && hasTarget && (targetNumbers <? 10)%nat)
           "Pertimbangkan classification model jika target adalah kategori.";
          pushWhen (is_ "xgboost")
           "XGBoost menggunakan gradient boosting dengan regularization untuk mencegah overfitting.";
          pushWhen (is_ "neural_network")
           "Neural network mungkin overfit pada dataset kecil. Monitor training dan validation accuracy.";
          pushWhen (is_ "knn" && hasHighCardinalityFeatures)
           "Normalisasi sangat penting untuk KNN. Pastikan data sudah di-normalize.";
          pushWhen (is_ "kmeans")
           "K-Means cocok untuk menemukan pola tersembunyi dalam data tanpa label.";
          pushWhen (testRows <? 10)%Z
           "Gunakan lebih banyak data atau kurangi test size." ] in
    {| isValid := (length errors_ =? 0)%nat;
       warnings := warnings_;
       errors := errors_;
       suggestions := suggestions_ |}.

End Validate.
End Validation.

(* ================================================================== *)
(** * Properties *)
(* ================================================================== *)

Import JS DataAnalysis Modeling Reference Samples.
Open Scope Q_scope.

(** ** Comparisons and counters *)

Lemma Qltb_lt x y : Qltb x y = true <-> x < y.
Proof.
  unfold Qltb. rewrite negb_true_iff. split; intro H.
  - apply Qnot_le_lt. intro Hle. apply Qle_bool_iff in Hle. congruence.
  - destruct (Qle_bool y x) eqn:E; auto.
    apply Qle_bool_iff in E. exfalso. apply (Qlt_not_le _ _ H E).
Qed.

Lemma Qltb_ge x y : Qltb x y = false <-> y <= x.
Proof.
  unfold Qltb. rewrite negb_false_iff. apply Qle_bool_iff.
Qed.

Lemma Qltb_asym x y : Qltb x y = true -> Qltb y x = false.
Proof.
  rewrite Qltb_lt, Qltb_ge. apply Qlt_le_weak.
Qed.

Lemma ofNat_lt n m : ofNat n < ofNat m <-> (n < m)%nat.
Proof.
  unfold ofNat. rewrite <- Zlt_Qlt. lia.
Qed.

Lemma ofNat_le n m : ofNat n <= ofNat m <-> (n <= m)%nat.
Proof.
  unfold ofNat. rewrite <- Zle_Qle. lia.
Qed.


Lemma ofNat_add n m : ofNat (n + m) == ofNat n + ofNat m.
Proof.
  unfold ofNat. rewrite Nat2Z.inj_add, inject_Z_plus. reflexivity.
Qed.

Lemma ofNat_nonneg n : 0 <= ofNat n.
Proof.
  change 0 with (ofNat 0). apply ofNat_le. lia.
Qed.

Lemma positive_count (n : nat) : (0 < n)%nat -> 0 < ofNat n.
Proof.
  intro Hn. change 0 with (ofNat 0). apply ofNat_lt. exact Hn.
Qed.

(** ** Trend detection *)

Lemma rising_cons2 x y l :
  rising (x :: y :: l) = ((if Qltb x y then 1 else 0) + rising (y :: l))%nat.
Proof.
  unfold rising, steps. cbn [tl]. change (combine (x :: y :: l) (y :: l))
    with ((x, y) :: combine (y :: l) l).
  cbn [filter fst snd]. destruct (Qltb x y); reflexivity.
Qed.

Lemma falling_cons2 x y l :
  falling (x :: y :: l) = ((if Qltb y x then 1 else 0) + falling (y :: l))%nat.
Proof.
  unfold falling, steps. cbn [tl]. change (combine (x :: y :: l) (y :: l))
    with ((x, y) :: combine (y :: l) l).
  cbn [filter fst snd]. destruct (Qltb y x); reflexivity.
Qed.

Lemma trend_loop (l pre : list Q) (x : Q) (inc dec : nat) :
  fold_left (trendStep (pre ++ x :: l)) (seq (S (length pre)) (length l)) (inc, dec)
  = ((inc + rising (x :: l))%nat, (dec + falling (x :: l))%nat).
Proof.
  revert pre x inc dec.
  induction l as [|y l IH]; intros pre x inc dec.
  - cbn. f_equal; lia.
  - cbn [length seq fold_left].
    replace (pre ++ x :: y :: l) with ((pre ++ [x]) ++ y :: l)
      by (rewrite <- app_assoc; reflexivity).
    replace (S (S (length pre))) with (S (length (pre ++ [x])))
      by (rewrite length_app; cbn; lia).
    assert (Hi : nth (S (length pre)) ((pre ++ [x]) ++ y :: l) 0 = y).
    { rewrite app_nth2 by (rewrite length_app; simpl; lia).
      rewrite length_app. simpl length.
      replace (S (length pre) - (length pre + 1))%nat with 0%nat by lia. reflexivity. }
    assert (Hp : nth (S (length pre) - 1) ((pre ++ [x]) ++ y :: l) 0 = x).
    { rewrite <- app_assoc. replace (S (length pre) - 1)%nat with (length pre) by lia.
      rewrite app_nth2 by lia. rewrite Nat.sub_diag. reflexivity. }
    unfold trendStep at 2. rewrite Hi, Hp.
    rewrite (rising_cons2 x y l), (falling_cons2 x y l).
    destruct (Qltb x y) eqn:Exy.
    + rewrite (Qltb_asym _ _ Exy). rewrite IH. f_equal; lia.
    + destruct (Qltb y x) eqn:Eyx; rewrite IH; f_equal; lia.
Qed.

Lemma trend_counts (values : list Q) :
  fold_left (trendStep values) (seq 1 (length values - 1)) (0%nat, 0%nat)
  = (rising values, falling values).
Proof.
  destruct values as [|x l]; [reflexivity|].
  cbn [length]. rewrite Nat.sub_succ, Nat.sub_0_r.
  apply (trend_loop l [] x 0 0).
Qed.

Lemma rising_falling_le (l : list Q) : (rising l + falling l <= length l - 1)%nat.
Proof.
  unfold rising, falling, steps.
  assert (H : forall s : list (Q * Q),
             (length (filter (fun p => Qltb (fst p) (snd p)) s)
              + length (filter (fun p => Qltb (snd p) (fst p)) s) <= length s)%nat).
  { induction s as [|[a b] s IH]; cbn [filter fst snd length]; [lia|].
    destruct (Qltb a b) eqn:E.
    - rewrite (Qltb_asym _ _ E). cbn [length]. lia.
    - destruct (Qltb b a); cbn [length]; lia. }
  specialize (H (combine l (tl l))). rewrite length_combine in H.
  destruct l; cbn [tl length] in *; lia.
Qed.

Lemma detectTrend_unfold (values : list Q) :
  detectTrend values =
  if (length values <? 3)%nat then stable
  else if Qltb (ofNat (length values) * 0.6) (ofNat (rising values)) then increasing
  else if Qltb (ofNat (length values) * 0.6) (ofNat (falling values)) then decreasing
  else stable.
Proof.
  unfold detectTrend. destruct (length values <? 3)%nat; [reflexivity|].
  rewrite trend_counts. reflexivity.
Qed.

(** C2 (amended).  [detectTrend] counts the strictly rising and the
    strictly falling adjacent steps over the whole sequence.  With fewer
    than three values the result is [stable].  Otherwise it is
    [increasing] exactly when the rising count exceeds 60% of the length
    [n] (not of the [n - 1] steps), [decreasing] exactly when the falling
    count does, and [stable] exactly when neither does.  The sequences
    [1,2,3,4,5], [5,4,3,2,1] and [1,3,1,3,1] give [increasing],
    [decreasing] and [stable]. *)
Theorem detectTrend_threshold (values : list Q) :
  ((length values < 3)%nat -> detectTrend values = stable) /\
  ((3 <= length values)%nat ->
     (detectTrend values = increasing
        <-> ofNat (length values) * 0.6 < ofNat (rising values)) /\
     (detectTrend values = decreasing
        <-> ofNat (length values) * 0.6 < ofNat (falling values)) /\
     (detectTrend values = stable
        <-> ofNat (rising values) <= ofNat (length values) * 0.6 /\
            ofNat (falling values) <= ofNat (length values) * 0.6)) /\
  detectTrend [1; 2; 3; 4; 5] = increasing /\
  detectTrend [5; 4; 3; 2; 1] = decreasing /\
  detectTrend [1; 3; 1; 3; 1] = stable.
Proof.
  split; [|split; [|repeat split; reflexivity]].
  - intro H. rewrite detectTrend_unfold.
    apply Nat.ltb_lt in H. rewrite H. reflexivity.
  - intro H. rewrite detectTrend_unfold.
    assert (Hn : (length values <? 3)%nat = false) by (apply Nat.ltb_ge; exact H).
    rewrite Hn.
    pose proof (rising_falling_le values) as Hsum.
    assert (Hexcl : ofNat (length values) * 0.6 < ofNat (rising values) ->
                    ofNat (length values) * 0.6 < ofNat (falling values) -> False).
    { intros H1 H2.
      assert (Hs : ofNat (rising values + falling values) <= ofNat (length values - 1))
        by (apply ofNat_le; exact Hsum).
      rewrite ofNat_add in Hs.
      assert (Hl : ofNat (length values - 1) <= ofNat (length values))
        by (apply ofNat_le; lia).
      pose proof (ofNat_nonneg (length values)). lra. }
    destruct (Qltb (ofNat (length values) * 0.6) (ofNat (rising values))) eqn:Er;
      [apply Qltb_lt in Er | apply Qltb_ge in Er];
      (destruct (Qltb (ofNat (length values) * 0.6) (ofNat (falling values))) eqn:Ef;
       [apply Qltb_lt in Ef | apply Qltb_ge in Ef]).
    + exfalso. auto.
    + repeat split; intros; try easy; try lra.
    + repeat split; intros; try easy; try lra.
    + repeat split; intros; try easy; try lra.
Qed.

(** ** Sorting and outliers *)

Section SortFacts.
Variable A : Type.
Variable cmp : A -> A -> jsnum.

Lemma insert_perm (x : A) (l : list A) : Permutation (x :: l) (insert cmp x l).
Proof.
  induction l as [|y l IH]; cbn [insert]; [reflexivity|].
  destruct (js_le0 (cmp x y)); [reflexivity|].
  rewrite perm_swap. apply perm_skip. exact IH.
Qed.

Lemma sort_perm (l : list A) : Permutation l (sort cmp l).
Proof.
  induction l as [|x l IH]; cbn [sort]; [reflexivity|].
  rewrite <- insert_perm. apply perm_skip. exact IH.
Qed.

End SortFacts.








(** ** Type inference *)

(** Reading [l[i]] for [i] from [0] to [s - 1] visits the first [s] elements. *)
Lemma map_nth_seq (A : Type) (d : A) (s : nat) (pre l : list A) :
  (s <= length l)%nat ->
  map (fun i => nth i (pre ++ l) d) (seq (length pre) s) = firstn s l.
Proof.
  revert pre l. induction s as [|s IH]; intros pre l Hs; [reflexivity|].
  destruct l as [|x l]; [cbn in Hs; lia|].
  cbn [seq map firstn]. f_equal.
  - rewrite app_nth2 by lia. rewrite Nat.sub_diag. reflexivity.
  - replace (pre ++ x :: l) with ((pre ++ [x]) ++ l) by (rewrite <- app_assoc; reflexivity).
    replace (S (length pre)) with (length (pre ++ [x])) by (rewrite length_app; cbn; lia).
    apply IH. cbn in Hs. lia.
Qed.

Lemma fold_nth_firstn (A C : Type) (f : C -> A -> C) (d : A) (s : nat) (l : list A) (c : C) :
  (s <= length l)%nat ->
  fold_left (fun c i => f c (nth i l d)) (seq 0 s) c = fold_left f (firstn s l) c.
Proof.
  intro Hs. rewrite <- (@map_nth_seq _ d s [] l Hs). cbn [length app].
  generalize (seq 0 s) c. induction l0 as [|i is_ IH]; intro c0; [reflexivity|].
  cbn [map fold_left]. apply IH.
Qed.

Section TypeInference.
Variable parseNumber : string -> option Q.
Variable parsesAsDate : value -> bool.

Local Abbreviation countCell := (DataAnalysis.countCell parseNumber parsesAsDate).
Local Abbreviation detectColumnType := (DataAnalysis.detectColumnType parseNumber parsesAsDate).
Local Abbreviation numericCell := (Reference.numericCell parseNumber).
Local Abbreviation dateCell := (Reference.dateCell parseNumber parsesAsDate).

Lemma count_cells (l : list value) (c : TypeCounts) :
  fold_left countCell l c =
  {| numberCount := numberCount c + countIf numericCell l;
     dateCount := dateCount c + countIf dateCell l;
     booleanCount := booleanCount c + countIf booleanCell l |}.
Proof.
  revert c. induction l as [|v l IH]; intro c.
  - destruct c. unfold countIf. cbn. f_equal; lia.
  - cbn [fold_left]. rewrite IH. unfold countIf. cbn [filter].
    unfold DataAnalysis.countCell, Reference.numericCell, Reference.dateCell, booleanCell.
    destruct (isMissing v); cbn [negb andb]; [reflexivity|].
    destruct (isBooleanLike v); cbn [negb andb length numberCount dateCount booleanCount];
      [f_equal; lia|].
    destruct (isNumeric parseNumber v); cbn [negb andb length numberCount dateCount booleanCount];
      [f_equal; lia|].
    destruct (parsesAsDate v); cbn [negb andb length numberCount dateCount booleanCount];
      f_equal; lia.
Qed.

Lemma class_counts_le (l : list value) :
  (countIf booleanCell l + countIf numericCell l + countIf dateCell l
   <= countIf (fun v => negb (isMissing v)) l)%nat.
Proof.
  unfold countIf. induction l as [|v l IH]; [cbn; lia|].
  cbn [filter]. unfold Reference.numericCell, Reference.dateCell, booleanCell.
  destruct (isMissing v), (isBooleanLike v), (isNumeric parseNumber v), (parsesAsDate v);
    cbn [negb andb length]; unfold Reference.numericCell, Reference.dateCell, booleanCell in IH; lia.
Qed.

Lemma countIf_le (A : Type) (p : A -> bool) (l : list A) : (countIf p l <= length l)%nat.
Proof.
  unfold countIf. apply filter_length_le.
Qed.

Lemma sampled_length (values : list value) :
  length (sampled values) = Nat.min 100 (length values).
Proof.
  unfold sampled. apply length_firstn.
Qed.

Lemma detectColumnType_unfold (values : list value) :
  let s := ofNat (length (sampled values)) * 0.8 in
  detectColumnType values =
  if Qltb s (ofNat (countIf booleanCell (sampled values))) then boolean
  else if Qltb s (ofNat (countIf numericCell (sampled values))) then number
  else if Qltb s (ofNat (countIf dateCell (sampled values))) then date
  else string_.
Proof.
  cbv zeta. unfold DataAnalysis.detectColumnType.
  rewrite (@fold_nth_firstn _ _ countCell VUndefined) by apply Nat.le_min_r.
  rewrite count_cells. cbn [numberCount dateCount booleanCount Nat.add].
  rewrite sampled_length.
  assert (Hs : firstn (Nat.min 100 (length values)) values = sampled values).
  { unfold sampled. destruct (Nat.le_ge_cases 100 (length values)) as [H|H].
    - rewrite Nat.min_l by exact H. reflexivity.
    - rewrite Nat.min_r by exact H. rewrite !firstn_all2; [reflexivity|lia|lia]. }
  rewrite Hs. reflexivity.
Qed.

(** C3 (amended).  [detectColumnType] looks at the first [min(100, n)]
    values and compares each class count with 80% of the sample size,
    empty cells counted in that size.  The type is [boolean], [number]
    or [date] exactly when the count of that class exceeds the bound
    (the classes are disjoint, so the order of the checks never
    decides), and [string] exactly when none does.  When every
    non-empty sampled value is numeric, the type is [number] exactly
    when the non-empty values are more than 80% of the sample. *)
Theorem detectColumnType_thresholds (values : list value) :
  let sample := sampled values in
  let bound := ofNat (length sample) * 0.8 in
  (length sample = Nat.min 100 (length values)) /\
  (detectColumnType values = boolean <-> bound < ofNat (countIf booleanCell sample)) /\
  (detectColumnType values = number <-> bound < ofNat (countIf numericCell sample)) /\
  (detectColumnType values = date <-> bound < ofNat (countIf dateCell sample)) /\
  (detectColumnType values = string_ <->
     ofNat (countIf booleanCell sample) <= bound /\
     ofNat (countIf numericCell sample) <= bound /\
     ofNat (countIf dateCell sample) <= bound) /\
  ((forall v, In v sample -> isMissing v = false -> numericCell v = true) ->
   (detectColumnType values = number
      <-> bound < ofNat (countIf (fun v => negb (isMissing v)) sample))).
Proof.
  cbv zeta. split; [apply sampled_length|].
  rewrite detectColumnType_unfold. cbv zeta.
  set (sample := sampled values).
  set (bound := ofNat (length sample) * 0.8).
  pose proof (class_counts_le sample) as Hsum.
  pose proof (countIf_le (fun v => negb (isMissing v)) sample) as Hlen.
  assert (Hq : ofNat (countIf booleanCell sample) + ofNat (countIf numericCell sample)
               + ofNat (countIf dateCell sample) <= ofNat (length sample)).
  { rewrite <- !ofNat_add. apply ofNat_le. lia. }
  pose proof (ofNat_nonneg (countIf booleanCell sample)) as Hb0.
  pose proof (ofNat_nonneg (countIf numericCell sample)) as Hn0.
  pose proof (ofNat_nonneg (countIf dateCell sample)) as Hd0.
  assert (Hall : (forall v, In v sample -> isMissing v = false -> numericCell v = true) ->
                 countIf numericCell sample = countIf (fun v => negb (isMissing v)) sample).
  { intro H. unfold countIf. f_equal. apply filter_ext_in. intros v Hv.
    destruct (isMissing v) eqn:Em.
    - unfold Reference.numericCell. rewrite Em. reflexivity.
    - rewrite (H v Hv Em). reflexivity. }
  set (result := if Qltb bound (ofNat (countIf booleanCell sample)) then boolean else _).
  assert (Hmain :
    (result = boolean <-> bound < ofNat (countIf booleanCell sample)) /\
    (result = number <-> bound < ofNat (countIf numericCell sample)) /\
    (result = date <-> bound < ofNat (countIf dateCell sample)) /\
    (result = string_ <->
       ofNat (countIf booleanCell sample) <= bound /\
       ofNat (countIf numericCell sample) <= bound /\
       ofNat (countIf dateCell sample) <= bound)).
  { subst result.
    destruct (Qltb bound (ofNat (countIf booleanCell sample))) eqn:Eb;
      [apply Qltb_lt in Eb | apply Qltb_ge in Eb];
    (destruct (Qltb bound (ofNat (countIf numericCell sample))) eqn:En;
      [apply Qltb_lt in En | apply Qltb_ge in En]);
    (destruct (Qltb bound (ofNat (countIf dateCell sample))) eqn:Ed;
      [apply Qltb_lt in Ed | apply Qltb_ge in Ed]);
    try (exfalso; unfold bound in *; lra);
    (repeat split; intros; try easy; try lra). }
  destruct Hmain as (Hb & Hn & Hd & Hs).
  split; [exact Hb|]. split; [exact Hn|]. split; [exact Hd|]. split; [exact Hs|].
  intros Hx. rewrite <- (Hall Hx). exact Hn.
Qed.
End TypeInference.

(** ** Correlation *)













Section Correlation.
Variable Msqrt : Q -> Q.
Hypothesis Msqrt_compat : forall a b, a == b -> Msqrt a == Msqrt b.


End Correlation.

(** ** Insight rules *)

Section Insights.
Variable parseNumber : string -> option Q.
Variable Msqrt : Q -> Q.
Variable showNumber : jsnum -> string.
Variable toFixed : jsnum -> nat -> string.

Local Abbreviation generateInsights :=
  (DataAnalysis.generateInsights parseNumber Msqrt showNumber toFixed).
Local Abbreviation numericColumnInsights :=
  (DataAnalysis.numericColumnInsights parseNumber showNumber toFixed).

(** What [generateInsights] returns when it returns. *)
Lemma generateInsights_shape data columnInfo statistics insights :
  generateInsights data columnInfo statistics = Some insights ->
  exists first strings,
    itype first = summary /\
    forEachOpt (stringColumnInsights showNumber data statistics)
               (filter isStringColumn columnInfo) = Some strings /\
    insights =
      first :: flat_map (numericColumnInsights data statistics)
                        (filter isNumberColumn columnInfo)
            ++ (if (2 <=? length (filter isNumberColumn columnInfo))%nat
                then flat_map (correlationInsight toFixed)
                       (findCorrelations parseNumber Msqrt data
                          (filter isNumberColumn columnInfo))
                else [])
            ++ strings.
Proof.
  unfold DataAnalysis.generateInsights.
  destruct (calculateDataQuality data columnInfo statistics) as [score|]; [|discriminate].
  destruct (forEachOpt _ _) as [strings|] eqn:Es; [|discriminate].
  intro H. injection H as <-.
  eexists. exists strings. split; [|split; [reflexivity|reflexivity]]. reflexivity.
Qed.


Lemma string_insights_summary data statistics cols strings :
  forEachOpt (stringColumnInsights showNumber data statistics) cols = Some strings ->
  forall i, In i strings -> itype i = summary.
Proof.
  revert strings. induction cols as [|c cols IH]; intros strings H i Hi.
  - injection H as <-. destruct Hi.
  - cbn [forEachOpt] in H.
    destruct (stringColumnInsights showNumber data statistics c) as [bs|] eqn:Ec;
      [|discriminate].
    destruct (forEachOpt _ cols) as [rest|]; [|discriminate].
    injection H as <-. apply in_app_or in Hi. destruct Hi as [Hi|Hi]; [|eapply IH; eauto].
    unfold stringColumnInsights in Ec.
    destruct (lookup statistics (name c)); [|discriminate].
    injection Ec as <-. destruct (Qltb _ _); [|destruct Hi].
    destruct Hi as [<-|[]]. reflexivity.
Qed.



End Insights.

(** ** The seeded shuffle *)

Lemma nextSeed_range (s : Z) : (0 <= s)%Z -> (0 <= nextSeed s < 233280)%Z.
Proof.
  intro H. unfold nextSeed. rewrite Z.rem_mod_nonneg by lia.
  apply Z.mod_pos_bound. lia.
Qed.

(** The index drawn at step [i] from a seed in range lies in [0 .. i]. *)
Lemma draw_range (s : Z) (i : nat) :
  (0 <= s < 233280)%Z ->
  (0 <= Qfloor ((s # 233280) * (ofNat i + 1)) <= Z.of_nat i)%Z.
Proof.
  intros [H0 H1].
  set (x := (s # 233280) * (ofNat i + 1)).
  assert (Hr0 : 0 <= s # 233280) by (unfold Qle; cbn; lia).
  assert (Hr1 : s # 233280 < 1) by (unfold Qlt; cbn; lia).
  pose proof (ofNat_nonneg i) as Hi.
  assert (Hx0 : 0 <= x) by (unfold x; apply Qmult_le_0_compat; lra).
  assert (Hx1 : x < ofNat i + 1).
  { unfold x. setoid_replace (ofNat i + 1) with (1 * (ofNat i + 1)) at 2 by ring.
    apply Qmult_lt_compat_r; lra. }
  split.
  - change 0%Z with (Qfloor 0). apply Qfloor_resp_le. exact Hx0.
  - assert (Hlt : (Qfloor x < Z.of_nat i + 1)%Z).
    { rewrite Zlt_Qlt. rewrite inject_Z_plus. fold (ofNat i).
      eapply Qle_lt_trans; [apply Qfloor_le|exact Hx1]. }
    lia.
Qed.

Section ArrayFacts.
Variable A : Type.


Lemma setNth_app (l1 l2 : list (option A)) (a v : option A) :
  setNth (length l1) v (l1 ++ a :: l2) = l1 ++ v :: l2.
Proof.
  induction l1 as [|x l1 IH]; cbn; [reflexivity|]. rewrite IH. reflexivity.
Qed.

Lemma nth_middle_at (l1 l2 : list (option A)) (a : option A) :
  nth (length l1) (l1 ++ a :: l2) None = a.
Proof.
  apply nth_middle.
Qed.

Lemma swap_lt_perm (l : list (option A)) (i j : nat) :
  (i < j)%nat -> (j < length l)%nat ->
  Permutation l (setNth j (nth i l None) (setNth i (nth j l None) l)) /\
  Permutation l (setNth i (nth j l None) (setNth j (nth i l None) l)).
Proof.
  intros Hij Hj.
  destruct (nth_split l None (Nat.lt_trans _ _ _ Hij Hj)) as (l1 & l2 & Hl & Hl1).
  assert (Hj2 : (j - i - 1 < length l2)%nat).
  { rewrite Hl in Hj. rewrite length_app in Hj. cbn in Hj. lia. }
  destruct (nth_split l2 None Hj2) as (m1 & m2 & Hm & Hm1).
  set (a := nth i l None) in *. set (b := nth (j - i - 1) l2 None) in *.
  assert (Eb : nth j l None = b).
  { rewrite Hl. rewrite app_nth2 by lia. rewrite Hl1.
    replace (j - i)%nat with (S (j - i - 1)) by lia. reflexivity. }
  rewrite Eb.
  assert (El : l = l1 ++ a :: m1 ++ b :: m2) by (rewrite Hl at 1; rewrite Hm at 1; reflexivity).
  assert (Hlen : length (l1 ++ a :: m1) = j) by (rewrite length_app; cbn; lia).
  split.
  - rewrite El at 2. rewrite <- Hl1 at 1. rewrite setNth_app.
    replace (l1 ++ b :: m1 ++ b :: m2) with ((l1 ++ b :: m1) ++ b :: m2)
      by (rewrite <- app_assoc; reflexivity).
    assert (Hlen' : length (l1 ++ b :: m1) = j) by (rewrite length_app; cbn; lia).
    rewrite <- Hlen' at 1. rewrite setNth_app. rewrite El at 1.
    rewrite <- app_assoc. apply Permutation_app_head. cbn [app].
    transitivity (a :: b :: m1 ++ m2).
    + apply perm_skip. symmetry. apply Permutation_middle.
    + rewrite perm_swap. apply perm_skip. apply Permutation_middle.
  - rewrite El at 2.
    replace (l1 ++ a :: m1 ++ b :: m2) with ((l1 ++ a :: m1) ++ b :: m2)
      by (rewrite <- app_assoc; reflexivity).
    rewrite <- Hlen at 1. rewrite setNth_app. rewrite <- app_assoc. cbn [app].
    rewrite <- Hl1 at 1. rewrite setNth_app. rewrite El at 1.
    apply Permutation_app_head.
    transitivity (a :: b :: m1 ++ m2).
    + apply perm_skip. symmetry. apply Permutation_middle.
    + rewrite perm_swap. apply perm_skip. apply Permutation_middle.
Qed.

Lemma setNth_same (l : list (option A)) (i : nat) :
  (i < length l)%nat -> setNth i (nth i l None) l = l.
Proof.
  revert l. induction i as [|i IH]; intros [|x l] H; cbn in *; try lia; [reflexivity|].
  rewrite IH by lia. reflexivity.
Qed.

(** Exchanging two slots of an array permutes it. *)
Lemma swap_perm (l : list (option A)) (i j : nat) :
  (i < length l)%nat -> (j < length l)%nat ->
  Permutation l (setNth j (nth i l None) (setNth i (nth j l None) l)).
Proof.
  intros Hi Hj. destruct (Nat.lt_trichotomy i j) as [H|[H|H]].
  - apply (swap_lt_perm l H Hj).
  - subst j. rewrite (@setNth_same l i Hi), (@setNth_same l i Hi). reflexivity.
  - apply (swap_lt_perm l H Hi).
Qed.
End ArrayFacts.



Section ShuffleFacts.
Variable A : Type.



Lemma loop_indices (n : nat) :
  Forall (fun i => (1 <= i < n)%nat) (rev (seq 1 (n - 1))).
Proof.
  apply Forall_forall. intros i Hi. apply in_rev in Hi. apply in_seq in Hi. lia.
Qed.


Lemma shuffleStep_perm (array : list A) (st : jsarray A * Z) (i : nat) :
  (1 <= i < length array)%nat ->
  props (fst st) = [] /\ Permutation (map Some array) (elems (fst st)) /\ (0 <= snd st)%Z ->
  props (fst (shuffleStep st i)) = [] /\
  Permutation (map Some array) (elems (fst (shuffleStep st i))) /\
  (0 <= snd (shuffleStep st i))%Z.
Proof.
  destruct st as [result s]. cbn [fst snd]. intros Hi (Hp & Hperm & Hs).
  assert (Hlen : length (elems result) = length array).
  { rewrite <- (Permutation_length Hperm). apply length_map. }
  unfold shuffleStep.
  pose proof (nextSeed_range Hs) as Hs'.
  pose proof (draw_range i Hs') as Hj.
  set (j := Qfloor _) in *. cbn [fst snd].
  unfold aset, aget.
  replace (0 <=? Z.of_nat i)%Z with true by (symmetry; apply Z.leb_le; lia).
  replace (0 <=? j)%Z with true by (symmetry; apply Z.leb_le; lia).
  cbn [elems props]. rewrite Nat2Z.id.
  split; [exact Hp|]. split; [|lia].
  rewrite Hperm at 1. apply swap_perm; lia.
Qed.

Lemma shuffle_loop_perm (array : list A) (is_ : list nat) (st : jsarray A * Z) :
  Forall (fun i => (1 <= i < length array)%nat) is_ ->
  props (fst st) = [] /\ Permutation (map Some array) (elems (fst st)) /\ (0 <= snd st)%Z ->
  Permutation (map Some array) (elems (fst (fold_left (@shuffleStep A) is_ st))).
Proof.
  revert st. induction is_ as [|i is_ IH]; intros st H Hinv.
  - apply Hinv.
  - inversion H as [|? ? Hi His]; subst. cbn [fold_left].
    apply IH; [exact His|]. apply shuffleStep_perm; assumption.
Qed.

(** With a non-negative starting seed the shuffle permutes the rows. *)
Lemma shuffle_perm (now : Z) (array : list A) (seed : option Z) :
  (0 <= initialSeed now seed)%Z ->
  exists rows, Permutation array rows /\ shuffle now array seed = map Some rows.
Proof.
  intro Hs.
  assert (H : Permutation (map Some array) (shuffle now array seed)).
  { unfold shuffle. apply shuffle_loop_perm; [apply loop_indices|].
    cbn [fst snd elems props]. repeat split; [reflexivity|exact Hs]. }
  symmetry in H. apply Permutation_map_inv in H.
  destruct H as (rows & Hrows & Hp). exists rows. split; [exact Hp|exact Hrows].
Qed.



Lemma testCount_range (n : nat) (testSize : Q) :
  0 <= testSize <= 1 -> (0 <= Qfloor (ofNat n * testSize) <= Z.of_nat n)%Z.
Proof.
  intros [H0 H1]. pose proof (ofNat_nonneg n) as Hn. split.
  - change 0%Z with (Qfloor 0). apply Qfloor_resp_le.
    apply Qmult_le_0_compat; assumption.
  - rewrite <- (Qfloor_Z (Z.of_nat n)). apply Qfloor_resp_le. fold (ofNat n).
    setoid_replace (ofNat n) with (1 * ofNat n) at 2 by ring.
    rewrite (Qmult_comm (ofNat n) testSize).
    apply Qmult_le_compat_r; assumption.
Qed.
End ShuffleFacts.

(** ** Runs in the progress monad *)

Lemma bind_Some_inv (A B : Type) (m : M A) (f : A -> M B) (t : list Q) (b : B) :
  bind m f = (t, Some b) ->
  exists t1 a t2, m = (t1, Some a) /\ f a = (t2, Some b) /\ t = t1 ++ t2.
Proof.
  unfold bind. destruct m as [t1 [a|]]; [|discriminate].
  destruct (f a) as [t2 r] eqn:E. intro H. injection H as <- ->.
  exists t1, a, t2. split; [reflexivity|]. split; [exact E|reflexivity].
Qed.

Lemma flat_map_nil (A B : Type) (l : list A) : flat_map (fun _ : A => @nil B) l = [].
Proof.
  induction l; [reflexivity|]. cbn. exact IHl.
Qed.

(** A loop whose successful turns report [e i] reports their concatenation. *)
Lemma forM_trace (S : Type) (body : nat -> S -> M S) (e : nat -> list Q) :
  (forall i st t r, body i st = (t, Some r) -> t = e i) ->
  forall is_ st t r, forM body is_ st = (t, Some r) -> t = flat_map e is_.
Proof.
  intros He is_. induction is_ as [|i is_ IH]; intros st t r H.
  - injection H as <- _. reflexivity.
  - cbn [forM] in H. apply bind_Some_inv in H.
    destruct H as (t1 & st' & t2 & H1 & H2 & ->).
    cbn [flat_map]. rewrite (He _ _ _ _ H1), (IH _ _ _ H2). reflexivity.
Qed.

Lemma mapM_from_trace (A B : Type) (f : A -> nat -> M B) (e : nat -> list Q) :
  (forall a i t r, f a i = (t, Some r) -> t = e i) ->
  forall l k t bs, mapM_from f k l = (t, Some bs) ->
                   t = flat_map e (seq k (length l)) /\ length bs = length l.
Proof.
  intros He l. induction l as [|a l IH]; intros k t bs H.
  - injection H as <- <-. split; reflexivity.
  - cbn [mapM_from] in H. apply bind_Some_inv in H.
    destruct H as (t1 & b & t2 & H1 & H2 & ->).
    apply bind_Some_inv in H2. destruct H2 as (t3 & bs' & t4 & H3 & H4 & ->).
    injection H4 as <- <-.
    destruct (IH _ _ _ H3) as [-> Hlen].
    cbn [length seq flat_map]. rewrite (He _ _ _ _ H1), app_nil_r, Hlen.
    split; reflexivity.
Qed.

Lemma mapM_trace (A B : Type) (f : A -> nat -> M B) (e : nat -> list Q) :
  (forall a i t r, f a i = (t, Some r) -> t = e i) ->
  forall l t bs, mapM f l = (t, Some bs) ->
                 t = flat_map e (seq 0 (length l)) /\ length bs = length l.
Proof.
  intros He l t bs. apply mapM_from_trace. exact He.
Qed.

Lemma progressWhen_trace (c : bool) (p : Q) (t : list Q) (r : unit) :
  progressWhen c p = (t, Some r) -> t = if c then [p] else [].
Proof.
  unfold progressWhen. destruct c; intro H; injection H as <-; reflexivity.
Qed.

(** ** Sequences that stay between bounds *)

Lemma between_nil (lo hi : Q) : between lo hi [].
Proof.
  split; constructor.
Qed.

Lemma between_cons (lo hi q : Q) (t : list Q) :
  lo <= q -> q <= hi -> between q hi t -> between lo hi (q :: t).
Proof.
  intros H1 H2 [Hs Hb]. split.
  - constructor; [exact Hs|]. eapply Forall_impl; [|exact Hb]. cbn. intros a [Ha _]. exact Ha.
  - constructor; [split; assumption|].
    eapply Forall_impl; [|exact Hb]. cbn. intros a [Ha Hb']. split; lra.
Qed.

Lemma between_app (a b c : Q) (t1 t2 : list Q) :
  a <= b -> b <= c -> between a b t1 -> between b c t2 -> between a c (t1 ++ t2).
Proof.
  intros Hab Hbc [Hs1 Hb1] [Hs2 Hb2]. split.
  - induction Hs1 as [|x t1 Hs1 IH Hx]; [exact Hs2|].
    inversion Hb1 as [|? ? Hxb Hb1']; subst. cbn [app]. constructor; [apply IH, Hb1'|].
    apply Forall_app. split; [exact Hx|].
    eapply Forall_impl; [|exact Hb2]. cbn. intros y [Hy _]. lra.
  - apply Forall_app. split; (eapply Forall_impl; [|eassumption]); cbn; intros y [? ?];
      split; lra.
Qed.

Lemma ramp_mono (a d s : Q) (i j : nat) :
  0 < d -> 0 <= s -> (i <= j)%nat -> ramp a d s i <= ramp a d s j.
Proof.
  intros Hd Hs Hij. unfold ramp.
  apply Qplus_le_r. apply Qmult_le_compat_r; [|exact Hs].
  apply Qmult_le_compat_r; [apply ofNat_le; exact Hij|].
  apply Qlt_le_weak, Qinv_lt_0_compat, Hd.
Qed.

Lemma ramp_lower (a d s : Q) (i : nat) : 0 < d -> 0 <= s -> a <= ramp a d s i.
Proof.
  intros Hd Hs. unfold ramp.
  assert (H : 0 <= ofNat i / d * s).
  { apply Qmult_le_0_compat; [|exact Hs].
    apply Qmult_le_0_compat; [change 0 with (ofNat 0); apply ofNat_le; lia|].
    apply Qlt_le_weak, Qinv_lt_0_compat, Hd. }
  lra.
Qed.

Lemma ramp_upper (a d s : Q) (i : nat) :
  0 < d -> 0 <= s -> ofNat i <= d -> ramp a d s i <= a + s.
Proof.
  intros Hd Hs Hi. unfold ramp. apply Qplus_le_r.
  setoid_replace s with (1 * s) at 2 by ring.
  apply Qmult_le_compat_r; [|exact Hs].
  apply Qle_shift_div_r; [exact Hd|]. lra.
Qed.

(** The reports of a loop whose values grow with the turn. *)
Lemma ticks_between (c : nat -> bool) (a d s : Q) (n : nat) :
  0 < d -> 0 <= s -> ofNat n <= d ->
  between a (a + s) (ticks c (ramp a d s) n).
Proof.
  intros Hd Hs Hn. unfold ticks.
  assert (H : forall m k, (k + m <= n)%nat ->
                between (ramp a d s k) (a + s)
                  (flat_map (fun i => if c i then [ramp a d s i] else []) (seq k m))).
  { induction m as [|m IH]; intros k Hk; [apply between_nil|].
    cbn [seq flat_map].
    assert (Hnext : between (ramp a d s k) (a + s)
              (flat_map (fun i => if c i then [ramp a d s i] else []) (seq (S k) m))).
    { destruct (IH (S k) ltac:(lia)) as [Hs' Hb']. split; [exact Hs'|].
      eapply Forall_impl; [|exact Hb']. cbn. intros q [H1 H2]. split; [|exact H2].
      eapply Qle_trans; [|exact H1]. apply ramp_mono; [assumption..|lia]. }
    destruct (c k); [|exact Hnext]. cbn [app].
    apply between_cons; [apply Qle_refl| |exact Hnext].
    apply ramp_upper; [assumption..|].
    eapply Qle_trans; [|exact Hn]. apply ofNat_le. lia. }
  destruct (H n 0%nat ltac:(lia)) as [Hs' Hb']. split; [exact Hs'|].
  eapply Forall_impl; [|exact Hb']. cbn. intros q [H1 H2]. split; [|exact H2].
  eapply Qle_trans; [|exact H1]. apply ramp_lower; assumption.
Qed.

Lemma last_append (A : Type) (l1 l2 : list A) (d : A) :
  l2 <> [] -> last (l1 ++ l2) d = last l2 d.
Proof.
  intro H. induction l1 as [|a l1 IH]; [reflexivity|].
  cbn [app]. destruct (l1 ++ l2) eqn:E.
  - destruct l1; [cbn in E; contradiction|discriminate].
  - cbn [last]. exact IH.
Qed.

(** A trace made of first reports, the reports of a loop and last reports. *)
Lemma shape_ok (pre post : list Q) (c : nat -> bool) (a d s : Q) (n : nat) :
  0 < d -> 0 <= s -> ofNat n <= d -> 0 <= a -> a + s <= 100 ->
  between 0 a pre -> between (a + s) 100 post -> last post 0 = 100 -> post <> [] ->
  progressOk (pre ++ ticks c (ramp a d s) n ++ post).
Proof.
  intros Hd Hs Hn Ha Has Hpre Hpost Hlast Hne. split.
  - apply (@between_app 0 a 100); [exact Ha|lra|exact Hpre|].
    apply (@between_app a (a + s) 100); [lra|exact Has| |exact Hpost].
    apply ticks_between; assumption.
  - rewrite app_assoc. rewrite last_append by exact Hne. exact Hlast.
Qed.

(** ** What a successful run of each trainer reports and returns *)

Ltac inv_run E :=
  lazymatch type of E with
  | onProgress _ = _ => unfold onProgress in E; injection E as <- <-
  | ret _ = _ => unfold ret in E; injection E as <- <-
  | throw _ = _ => discriminate E
  | progressWhen _ _ = _ => apply progressWhen_trace in E; subst
  | firstRow ?X = _ =>
      destruct X; [discriminate E|]; unfold firstRow, ret in E; injection E as <- <-
  | (if ?c then _ else _) = _ => destruct c; inv_run E
  | _ => idtac
  end.

Ltac step H :=
  let t1 := fresh "t" in
  let a := fresh "a" in
  let t2 := fresh "t" in
  let E := fresh "E" in
  apply bind_Some_inv in H; destruct H as (t1 & a & t2 & E & H & ->);
  cbv beta in H; inv_run E.

(* Open the binds of a run that returned, case by case. *)
Ltac open_run H :=
  repeat first
    [ match type of H with
      | throw _ = _ => discriminate H
      | (_, None) = _ => discriminate H
      | bind _ _ = _ => step H
      | (let '(_, _) := ?x in _) = _ => destruct x
      | (if ?c then _ else _) = _ => destruct c
      | match ?x with _ => _ end = _ => destruct x
      end ];
  inv_run H.

Ltac steps H := open_run H.

Section TrainerRuns.
Variable K : Numerics.

Ltac loop_trace e :=
  match goal with
  | E : forM _ _ _ = (_, Some _) |- _ =>
      apply (@forM_trace _ _ e) in E;
      [subst
      |let Hb := fresh "Hb" in
       intros ? ? ? ? Hb; open_run Hb;
       repeat match goal with |- context [if ?c then _ else _] => destruct c end;
       reflexivity]
  end.

Ltac map_trace e :=
  match goal with
  | E : mapM _ _ = (_, Some _) |- _ =>
      apply (@mapM_trace _ _ _ e) in E;
      [destruct E as [-> ?]
      |let Hb := fresh "Hb" in
       intros ? ? ? ? Hb; open_run Hb;
       repeat match goal with |- context [if ?c then _ else _] => destruct c end;
       reflexivity]
  end.

Lemma trainLinearRegression_run X_train y_train X_test y_test names t r :
  trainLinearRegression K X_train y_train X_test y_test names = (t, Some r) ->
  t = [20] ++ ticks (fun i => (i mod 100 =? 0)%nat) (ramp 20 1000 60) 1000 ++ [80; 100] /\
  length (predictions r) = length X_test /\ actualValues r = Some y_test.
Proof.
  unfold trainLinearRegression. intro H. steps H.
  loop_trace (fun i => if (i mod 100 =? 0)%nat then [ramp 20 1000 60 i] else []).
  cbn [predictions actualValues]. rewrite length_map. repeat split.
Qed.

Lemma trainLogisticRegression_run X_train y_train X_test y_test names t r :
  trainLogisticRegression K X_train y_train X_test y_test names = (t, Some r) ->
  t = [20] ++ ticks (fun i => (i mod 100 =? 0)%nat) (ramp 20 1000 60) 1000 ++ [80; 100] /\
  length (predictions r) = length X_test /\ actualValues r = Some y_test.
Proof.
  unfold trainLogisticRegression. intro H. steps H.
  loop_trace (fun i => if (i mod 100 =? 0)%nat then [ramp 20 1000 60 i] else []).
  cbn [predictions actualValues]. rewrite length_map. repeat split.
Qed.

Lemma trainDecisionTree_run g X_train y_train X_test y_test names t r :
  trainDecisionTree K g X_train y_train X_test y_test names = (t, Some r) ->
  t = [50; 100] /\
  length (predictions r) = length X_test /\ actualValues r = Some y_test.
Proof.
  unfold trainDecisionTree. intro H. steps H.
  cbn [predictions actualValues]. rewrite length_map. repeat split.
Qed.

Lemma lloydPass_trace X_train k centroids t r :
  lloydPass K X_train k centroids = (t, Some r) -> t = [].
Proof.
  unfold lloydPass. intro H. steps H.
  loop_trace (fun _ : nat => @nil Q). rewrite flat_map_nil. reflexivity.
Qed.

Lemma trainKMeans_run X_train X_test names t r :
  trainKMeans K X_train X_test names = (t, Some r) ->
  t = [20] ++ ticks (fun i => (i mod 10 =? 0)%nat) (ramp 20 100 60) 100 ++ [80; 100] /\
  length (predictions r) = length X_test /\ actualValues r = None.
Proof.
  unfold trainKMeans. intro H. steps H.
  match goal with
  | E : forM _ _ _ = (_, Some _) |- _ =>
      apply (@forM_trace _ _
               (fun i => if (i mod 10 =? 0)%nat then [ramp 20 100 60 i] else [])) in E;
      [subst
      |let Hb := fresh "Hb" in
       intros ? ? ? ? Hb; step Hb;
       match goal with E' : lloydPass _ _ _ _ = _ |- _ =>
         apply lloydPass_trace in E'; subst end;
       open_run Hb;
       repeat match goal with |- context [if ?c then _ else _] => destruct c end;
       reflexivity]
  end.
  map_trace (fun _ : nat => @nil Q). rewrite flat_map_nil.
  cbn [predictions actualValues]. rewrite !length_map. repeat split.
Qed.

Lemma trainRandomForest_run g X_train y_train X_test y_test names t r :
  trainRandomForest K g X_train y_train X_test y_test names = (t, Some r) ->
  t = [10] ++ ticks (fun _ => true) (ramp 10 (ofNat 10) 70) 10 ++ [100] /\
  length (predictions r) = length X_test /\ actualValues r = Some y_test.
Proof.
  unfold trainRandomForest. intro H. steps H.
  loop_trace (fun i => if true then [ramp 10 (ofNat 10) 70 i] else []).
  cbn [predictions actualValues]. rewrite length_map. repeat split.
Qed.

Lemma trainGradientBoosting_run X_train y_train X_test y_test names t r :
  trainGradientBoosting K X_train y_train X_test y_test names = (t, Some r) ->
  t = [10] ++ ticks (fun _ => true) (ramp 10 (ofNat 20) 80) 20 ++ [100] /\
  length (predictions r) = length X_test /\ actualValues r = Some y_test.
Proof.
  unfold trainGradientBoosting. intro H. steps H.
  loop_trace (fun i => if true then [ramp 10 (ofNat 20) 80 i] else []).
  cbn [predictions actualValues]. rewrite length_map. repeat split.
Qed.

Lemma trainXGBoost_run g X_train y_train X_test y_test names t r :
  trainXGBoost K g X_train y_train X_test y_test names = (t, Some r) ->
  t = [10] ++ ticks (fun _ => true) (ramp 10 (ofNat 30) 80) 30 ++ [100] /\
  length (predictions r) = length X_test /\ actualValues r = Some y_test.
Proof.
  unfold trainXGBoost. intro H. steps H.
  loop_trace (fun i => if true then [ramp 10 (ofNat 30) 80 i] else []).
  cbn [predictions actualValues]. rewrite length_map. repeat split.
Qed.

Lemma trainSVM_run X_train y_train X_test y_test names t r :
  trainSVM K X_train y_train X_test y_test names = (t, Some r) ->
  t = [10] ++ ticks (fun i => (i mod 10 =? 0)%nat) (ramp 10 100 70) 100 ++ [80; 100] /\
  length (predictions r) = length X_test /\ actualValues r = Some y_test.
Proof.
  unfold trainSVM. intro H. steps H;
  loop_trace (fun i => if (i mod 10 =? 0)%nat then [ramp 10 100 70 i] else []);
  cbn [predictions actualValues]; rewrite length_map; repeat split.
Qed.

Lemma trainKNN_run X_train y_train X_test y_test names t r :
  trainKNN K X_train y_train X_test y_test names = (t, Some r) ->
  t = [20] ++ ticks (fun i => (i mod 10 =? 0)%nat)
                    (ramp 20 (ofNat (length X_test)) 60) (length X_test) ++ [80; 100] /\
  length (predictions r) = length X_test /\ actualValues r = Some y_test.
Proof.
  unfold trainKNN. intro H. steps H.
  map_trace (fun i => if (i mod 10 =? 0)%nat
                      then [ramp 20 (ofNat (length X_test)) 60 i] else []).
  cbn [predictions actualValues]. repeat split. assumption.
Qed.

Lemma trainNaiveBayes_run X_train y_train X_test y_test names t r :
  trainNaiveBayes K X_train y_train X_test y_test names = (t, Some r) ->
  t = [20; 60] ++ ticks (fun i => (i mod 10 =? 0)%nat)
                        (ramp 60 (ofNat (length X_test)) 30) (length X_test) ++ [100] /\
  length (predictions r) = length X_test /\ actualValues r = Some y_test.
Proof.
  unfold trainNaiveBayes. intro H. steps H.
  map_trace (fun i => if (i mod 10 =? 0)%nat
                      then [ramp 60 (ofNat (length X_test)) 30 i] else []).
  cbn [predictions actualValues]. repeat split. assumption.
Qed.

Lemma trainNeuralNetwork_run g X_train y_train X_test y_test names t r :
  trainNeuralNetwork K g X_train y_train X_test y_test names = (t, Some r) ->
  t = [] ++ ticks (fun i => (i mod 5 =? 0)%nat) (ramp 10 50 80) 50 ++ [90; 100] /\
  length (predictions r) = length X_test /\ actualValues r = Some y_test.
Proof.
  unfold trainNeuralNetwork. intro H. steps H.
  loop_trace (fun i => if (i mod 5 =? 0)%nat then [ramp 10 50 80 i] else []).
  cbn [predictions actualValues]. rewrite length_map. repeat split.
Qed.
End TrainerRuns.

(** ** The shapes of the traces *)

Lemma startsLow_cons (q : Q) (rest : list Q) :
  q == 10 \/ q == 20 -> (2 <= length rest)%nat -> startsLow (q :: rest).
Proof.
  intros Hq Hlen. split; [cbn [length]; lia|exact Hq].
Qed.

Lemma two_after (t : list Q) (a b : Q) : (2 <= length (t ++ [a; b]))%nat.
Proof.
  rewrite length_app. cbn. lia.
Qed.

Lemma between_one (lo hi q : Q) : lo <= q -> q <= hi -> between lo hi [q].
Proof.
  intros H1 H2. apply between_cons; [exact H1|exact H2|apply between_nil].
Qed.

Lemma between_two (lo hi p q : Q) :
  lo <= p -> p <= q -> q <= hi -> between lo hi [p; q].
Proof.
  intros H1 H2 H3. apply between_cons; [exact H1|lra|].
  apply between_one; assumption.
Qed.

Ltac side :=
  first [ reflexivity | discriminate | lra | apply Qle_refl | apply between_nil
        | (apply between_one; lra) | (apply between_two; lra)
        | (apply Qle_bool_iff; vm_compute; reflexivity)
        | (apply positive_count; cbn [length]; lia) ].

Ltac shape :=
  match goal with
  | |- progressOk (?pre ++ ticks _ (ramp _ _ _) _ ++ ?post) =>
      apply (@shape_ok pre post); side
  end.

Lemma ticks_first (c : nat -> bool) (p : nat -> Q) (n : nat) :
  c 0%nat = true ->
  ticks c p (S n) = p 0%nat :: flat_map (fun i => if c i then [p i] else []) (seq 1 n).
Proof.
  intro H. unfold ticks. cbn [seq flat_map]. rewrite H. reflexivity.
Qed.

Ltac low :=
  intros _; rewrite ?ticks_first by reflexivity; cbn [app]; apply startsLow_cons;
  [first [left; vm_compute; reflexivity|right; vm_compute; reflexivity]
  |cbn [length]; rewrite ?length_app; cbn [length]; lia].

Section Dispatch.
Variable K : Numerics.

(** What every trainer guarantees when it returns. *)
Lemma dispatch_run type_ g X_train y_train X_test y_test names t r :
  dispatch K type_ g X_train y_train X_test y_test names = (t, Some r) ->
  progressOk t /\
  (type_ = "decision_tree"%string -> t = [50; 100]) /\
  (type_ <> "decision_tree"%string -> startsLow t) /\
  length (predictions r) = length X_test /\
  (forall av, actualValues r = Some av -> av = y_test).
Proof.
  unfold dispatch. intro H.
  repeat match type of H with
         | (if String.eqb ?a ?b then _ else _) = _ =>
             destruct (String.eqb_spec a b) as [->|?]
         end;
    [ apply trainLinearRegression_run in H
    | apply trainLogisticRegression_run in H
    | apply trainDecisionTree_run in H
    | apply trainRandomForest_run in H
    | apply trainGradientBoosting_run in H
    | apply trainXGBoost_run in H
    | apply trainSVM_run in H
    | apply trainKNN_run in H
    | apply trainNaiveBayes_run in H
    | apply trainNeuralNetwork_run in H
    | apply trainKMeans_run in H
    | discriminate H ];
    destruct H as (-> & Hp & Ha);
    (split; [|split; [|split; [|split; [exact Hp|intros av Hav; congruence]]]]).
  - shape.
  - intro; discriminate.
  - low.
  - shape.
  - intro; discriminate.
  - low.
  - split; [apply between_two; lra|reflexivity].
  - reflexivity.
  - intro; congruence.
  - shape.
  - intro; discriminate.
  - low.
  - shape.
  - intro; discriminate.
  - low.
  - shape.
  - intro; discriminate.
  - low.
  - shape.
  - intro; discriminate.
  - low.
  - destruct X_test as [|x0 X_test'];
      [split; [cbn; apply between_cons; [lra|lra|apply between_two; lra]|reflexivity]|shape].
  - intro; discriminate.
  - low.
  - destruct X_test as [|x0 X_test'];
      [split; [cbn; apply between_cons; [lra|lra|apply between_two; lra]|reflexivity]|shape].
  - intro; discriminate.
  - low.
  - shape.
  - intro; discriminate.
  - low.
  - shape.
  - intro; discriminate.
  - low.
Qed.
End Dispatch.

(** ** The dispatcher *)

Section TrainModelFacts.
Variable K : Numerics.

Lemma features_run (config : ModelConfig) rows t X :
  mapM (fun row (_ : nat) => featuresOf K config row) rows = (t, Some X) ->
  t = [] /\ length X = length rows.
Proof.
  intro H. apply (@mapM_trace _ _ _ (fun _ : nat => @nil Q)) in H.
  - destruct H as [-> Hlen]. rewrite flat_map_nil. split; [reflexivity|exact Hlen].
  - intros row i t0 r Hb. unfold featuresOf in Hb.
    destruct row; [|destruct (featureColumns config)]; inv_run Hb; reflexivity.
Qed.

Lemma targets_from (config : ModelConfig) rows k t y :
  mapM_from (fun row (_ : nat) => targetOf K config row) k rows = (t, Some y) ->
  t = [] /\
  exists rs, rows = map Some rs /\
             y = map (fun r => toNumber K (getCell r (targetColumn config))) rs.
Proof.
  revert k t y. induction rows as [|row rows IH]; intros k t y H.
  - cbn in H. injection H as <- <-. split; [reflexivity|]. exists []. split; reflexivity.
  - cbn [mapM_from] in H. step H. step H. inv_run H.
    destruct row as [r|]; unfold targetOf in E; inv_run E.
    destruct (IH _ _ _ E0) as (-> & rs & -> & ->).
    split; [reflexivity|]. exists (r :: rs). split; reflexivity.
Qed.

Lemma targets_run (config : ModelConfig) rows t y :
  mapM (fun row (_ : nat) => targetOf K config row) rows = (t, Some y) ->
  t = [] /\
  exists rs, rows = map Some rs /\
             y = map (fun r => toNumber K (getCell r (targetColumn config))) rs.
Proof.
  apply targets_from.
Qed.

(** A call of [trainModel] that returns is a run of the selected trainer
    on the projected partitions. *)
Lemma trainModel_run clock g data config t r :
  trainModel K clock g data config = (t, Some r) ->
  let s := splitData (shuffleTime clock) data (testSize config) (randomSeed config) in
  exists X_train y_train X_test rows r0,
    testData s = map Some rows /\
    length X_test = length rows /\
    dispatch K (ctype config) g X_train y_train X_test
      (map (fun row => toNumber K (getCell row (targetColumn config))) rows)
      (featureColumns config) = (t, Some r0) /\
    r = withTrainTime r0 (endTime clock - startTime clock).
Proof.
  cbv zeta. unfold trainModel. intro H.
  step H. step H. step H. step H. step H. inv_run H.
  repeat match goal with
         | E : mapM (fun row _ => featuresOf _ _ row) _ = _ |- _ =>
             apply features_run in E; destruct E as [-> ?]
         | E : mapM (fun row _ => targetOf _ _ row) _ = _ |- _ =>
             apply targets_run in E; destruct E as (-> & ? & ? & ->)
         end.
  cbn [app].
  match goal with
  | Hd : dispatch _ _ _ ?Xtr ?ytr ?Xte _ _ = (_, Some ?r0),
    Ht : testData _ = map Some ?rows |- _ =>
      exists Xtr, ytr, Xte, rows, r0
  end.
  repeat split; try assumption.
  - match goal with
    | Hl : length ?X = length (testData _) |- length ?X = _ => rewrite Hl
    end.
    match goal with
    | Ht : testData _ = map Some _ |- _ => rewrite Ht, length_map; reflexivity
    end.
  - rewrite app_nil_r. assumption.
Qed.


(** C9 (amended).  On every run of [trainModel] that returns, the values
    passed to [onProgress] are non-decreasing, lie in [0 .. 100] and end
    with exactly 100.  The decision tree reports exactly 50 then 100;
    every other trainer makes at least three reports, the first being 10
    or 20. *)
Theorem progress_contract clock g data config t r :
  trainModel K clock g data config = (t, Some r) ->
  progressOk t /\
  (ctype config = "decision_tree"%string -> t = [50; 100]) /\
  (ctype config <> "decision_tree"%string -> startsLow t).
Proof.
  intro H.
  destruct (trainModel_run _ _ _ _ H) as (Xtr & ytr & Xte & rows & r0 & _ & _ & Hd & _).
  apply dispatch_run in Hd. destruct Hd as (Hok & Hdt & Hlow & _).
  split; [exact Hok|]. split; assumption.
Qed.
End TrainModelFacts.

(** ** Runs that end normally *)

Lemma returns_ret (A : Type) (a : A) : returns (ret a).
Proof.
  exists [], a. reflexivity.
Qed.

Lemma returns_onProgress (p : Q) : returns (onProgress p).
Proof.
  exists [p], tt. reflexivity.
Qed.

Lemma returns_progressWhen (c : bool) (p : Q) : returns (progressWhen c p).
Proof.
  destruct c; [apply returns_onProgress|apply returns_ret].
Qed.

Lemma returns_bind (A B : Type) (m : M A) (f : A -> M B) :
  returns m -> (forall t a, m = (t, Some a) -> returns (f a)) -> returns (bind m f).
Proof.
  intros (t & a & Hm) Hf. destruct (Hf t a Hm) as (t' & b & Hb).
  exists (t ++ t'), b. rewrite Hm. unfold bind. rewrite Hb. reflexivity.
Qed.

Lemma returns_forM (S : Type) (body : nat -> S -> M S) (is_ : list nat) (st : S) :
  (forall i st', returns (body i st')) -> returns (forM body is_ st).
Proof.
  intro Hb. revert st. induction is_ as [|i is_ IH]; intro st.
  - apply returns_ret.
  - cbn [forM]. apply returns_bind; [apply Hb|]. intros t a _. apply IH.
Qed.

Lemma returns_mapM_from (A B : Type) (f : A -> nat -> M B) (l : list A) (k : nat) :
  (forall a i, In a l -> returns (f a i)) -> returns (mapM_from f k l).
Proof.
  revert k. induction l as [|a l IH]; intros k Hf.
  - apply returns_ret.
  - cbn [mapM_from]. apply returns_bind; [apply Hf; left; reflexivity|].
    intros t b _. apply returns_bind; [apply IH; intros; apply Hf; right; assumption|].
    intros t' bs _. apply returns_ret.
Qed.

Lemma returns_mapM (A B : Type) (f : A -> nat -> M B) (l : list A) :
  (forall a i, In a l -> returns (f a i)) -> returns (mapM f l).
Proof.
  apply returns_mapM_from.
Qed.

Ltac total :=
  repeat lazymatch goal with
    | |- returns (ret _) => apply returns_ret
    | |- returns (onProgress _) => apply returns_onProgress
    | |- returns (progressWhen _ _) => apply returns_progressWhen
    | |- returns (forM _ _ _) => apply returns_forM; intros
    | |- returns (mapM _ _) => apply returns_mapM; intros
    | |- returns (bind _ _) => apply returns_bind; [|intros]
    | |- returns (let '(_, _) := ?x in _) => destruct x
    | |- returns (firstRow (_ :: _)) => apply returns_ret
    end.

Section Totality.
Variable K : Numerics.

(** Every trainer but k-means returns on a non-empty training matrix
    whose rows hold one entry per feature name. *)
Lemma dispatch_returns type_ g row X_train y_train X_test y_test names :
  In type_ ["linear_regression"; "logistic_regression"; "decision_tree"; "random_forest";
            "gradient_boosting"; "xgboost"; "svm"; "knn"; "naive_bayes";
            "neural_network"]%string ->
  names <> [] -> length row = length names ->
  returns (dispatch K type_ g (row :: X_train) y_train X_test y_test names).
Proof.
  intros Hty Hnames Hrow. cbn [In] in Hty.
  assert (Hsize : (length row =? 0)%nat = false).
  { apply Nat.eqb_neq. rewrite Hrow. destruct names; [congruence|cbn; lia]. }
  assert (Hfit : (length names <=? length row)%nat = true)
    by (apply Nat.leb_le; lia).
  unfold dispatch.
  repeat (destruct Hty as [<-|Hty];
          [cbn [String.eqb Ascii.eqb Bool.eqb andb]|]); [..|destruct Hty].
  all: unfold trainLinearRegression, trainLogisticRegression, trainDecisionTree,
         trainRandomForest, trainGradientBoosting, trainXGBoost, trainSVM, trainKNN,
         trainNaiveBayes, trainNeuralNetwork.
  all: try (total; fail).
  (* the neural network *)
  apply returns_bind; [apply returns_ret|]. intros t a Ha.
  unfold firstRow, ret in Ha. injection Ha as <- <-.
  rewrite Hsize, Hfit. total.
Qed.
End Totality.

Section TrainModelReturns.
Variable K : Numerics.

Lemma features_of_rows (config : ModelConfig) (rs : list (Record_ value)) (k : nat) :
  mapM_from (fun row (_ : nat) => featuresOf K config row) k (map Some rs)
  = ([], Some (map (fun r => map (fun col => toNumber K (getCell r col))
                                 (featureColumns config)) rs)).
Proof.
  revert k. induction rs as [|r rs IH]; intro k; [reflexivity|].
  cbn [map mapM_from]. unfold featuresOf at 1. unfold ret at 1. unfold bind at 1.
  rewrite IH. reflexivity.
Qed.

Lemma targets_of_rows (config : ModelConfig) (rs : list (Record_ value)) (k : nat) :
  mapM_from (fun row (_ : nat) => targetOf K config row) k (map Some rs)
  = ([], Some (map (fun r => toNumber K (getCell r (targetColumn config))) rs)).
Proof.
  revert k. induction rs as [|r rs IH]; intro k; [reflexivity|].
  cbn [map mapM_from]. unfold targetOf at 1. unfold ret at 1. unfold bind at 1.
  rewrite IH. reflexivity.
Qed.

Lemma slice_map (A B : Type) (f : A -> B) (l : list A) (a b : Z) :
  slice (map f l) a b = map f (slice l a b).
Proof.
  unfold slice. rewrite length_map, skipn_map, firstn_map. reflexivity.
Qed.

Lemma slice_train_length (B : Type) (l : list B) (c : Z) :
  (0 <= c <= Z.of_nat (length l))%Z ->
  length (slice l c (Z.of_nat (length l))) = (length l - Z.to_nat c)%nat.
Proof.
  intro H. unfold slice.
  replace (if (c <? 0)%Z then _ else _) with c
    by (destruct (c <? 0)%Z eqn:E; [apply Z.ltb_lt in E|]; lia).
  replace (if (Z.of_nat (length l) <? 0)%Z then _ else _) with (Z.of_nat (length l))
    by (destruct (Z.of_nat (length l) <? 0)%Z eqn:E; [apply Z.ltb_lt in E|]; lia).
  rewrite length_firstn, length_skipn. lia.
Qed.

Lemma testCount_below (n : nat) (testSize : Q) :
  (0 < n)%nat -> 0 <= testSize < 1 ->
  (0 <= Qfloor (ofNat n * testSize) < Z.of_nat n)%Z.
Proof.
  intros Hn [H0 H1]. split.
  - apply testCount_range. split; [exact H0|apply Qlt_le_weak, H1].
  - rewrite Zlt_Qlt. fold (ofNat n).
    eapply Qle_lt_trans; [apply Qfloor_le|].
    setoid_replace (ofNat n) with (ofNat n * 1) at 2 by ring.
    apply Qmult_lt_l; [apply positive_count, Hn|exact H1].
Qed.

End TrainModelReturns.

(** ** The split: what holds for which seeds *)


Section SplitFacts.
Variable A : Type.


(** A supplied seed other than zero fixes the split: the clock plays no
    part. *)
Theorem splitData_deterministic (now1 now2 : Z) (data : list A) (testSize : Q) (seed : Z) :
  seed <> 0%Z ->
  splitData now1 data testSize (Some seed) = splitData now2 data testSize (Some seed).
Proof.
  intro Hseed. unfold splitData, shuffle, initialSeed.
  apply Z.eqb_neq in Hseed. rewrite Hseed. reflexivity.
Qed.
End SplitFacts.


(** ** Evaluations and instances *)

Local Open Scope string_scope.

(** C1 (failing input).  The seed [0] is falsy, so [shuffle] seeds the
    generator from the clock: the same [(data, testSize, seed)] split at
    two clock readings five milliseconds apart gives two different
    partitions. *)
Theorem split_seed_zero_follows_clock :
  splitData 946684800000 ["a"; "b"; "c"] 0.5 (Some 0%Z)
  = {| trainData := [Some "b"; Some "a"]; testData := [Some "c"] |} /\
  splitData 946684800005 ["a"; "b"; "c"] 0.5 (Some 0%Z)
  = {| trainData := [Some "c"; Some "b"]; testData := [Some "a"] |}.
Proof.
  split; vm_compute; reflexivity.
Qed.

(** C10 (failing input).  From the seed [-6] the remainder is negative,
    the drawn index is [-1], and the swap writes [undefined] into the
    array: row [b] is lost, the train partition holds an empty slot, and
    [trainModel] throws on it. *)
Theorem split_negative_seed_loses_a_row :
  nextSeed (-6) = (-6509)%Z /\
  Qfloor ((nextSeed (-6) # 233280) * (ofNat 2 + 1)) = (-1)%Z /\
  splitData 0 ["a"; "b"; "c"] 0.5 (Some (-6)%Z)
  = {| trainData := [Some "c"; None]; testData := [Some "a"] |} /\
  trainModel zeroNumerics sampleClock tt sampleRows
    {| ctype := "knn"; targetColumn := "y"; featureColumns := ["x"];
       testSize := 0.4; randomSeed := Some (-6)%Z |}
  = ([], None).
Proof.
  repeat split; vm_compute; reflexivity.
Qed.


Lemma splitData_deterministic_witness :
  splitData 1 ["a"; "b"; "c"] 0.5 (Some 42%Z) = splitData 2 ["a"; "b"; "c"] 0.5 (Some 42%Z).
Proof.
  apply splitData_deterministic. discriminate.
Defined.



(** C2 (counterexample).  On [1, 2, 3, 3] two of the three steps rise,
    which exceeds 60% of the [n - 1 = 3] steps, yet the result is
    [stable]: the threshold is 60% of the length [4]. *)
Lemma detectTrend_steps_counterexample :
  detectTrend [1; 2; 3; 3] = stable /\
  rising [1; 2; 3; 3] = 2%nat /\
  ofNat (length [1; 2; 3; 3] - 1) * 0.6 < ofNat (rising [1; 2; 3; 3]).
Proof.
  repeat split.
Qed.

(** C3 (counterexample).  The only non-empty value among five sampled
    cells is numeric, yet the inferred type is [string]: the bound is 80%
    of all five sampled cells, empty ones included. *)
Lemma detectColumnType_missing_counterexample :
  (forall parseNumber parsesAsDate,
     detectColumnType parseNumber parsesAsDate mostlyMissing = string_) /\
  (forall parseNumber v,
     In v (sampled mostlyMissing) -> isMissing v = false ->
     numericCell parseNumber v = true) /\
  countIf (fun v => negb (isMissing v)) (sampled mostlyMissing) = 1%nat.
Proof.
  split; [reflexivity|]. split; [|reflexivity].
  intros parseNumber v Hv Hm. cbn in Hv.
  repeat (destruct Hv as [<-|Hv]; [first [reflexivity|discriminate Hm]|]).
  destruct Hv.
Qed.








(** C9 (counterexample).  The decision tree reports [50] and [100] and
    nothing in between: its first value is not low and no report happens
    during the work. *)
Lemma decision_tree_progress_counterexample :
  exists r,
    trainModel zeroNumerics sampleClock tt sampleRows (sampleConfig "decision_tree")
    = ([50; 100], Some r).
Proof.
  eexists. vm_compute. reflexivity.
Qed.

Lemma progress_contract_witness :
  exists t r,
    trainModel zeroNumerics sampleClock tt sampleRows (sampleConfig "svm") = (t, Some r) /\
    progressOk t /\ startsLow t.
Proof.
  destruct (trainModel zeroNumerics sampleClock tt sampleRows (sampleConfig "svm"))
    as [t [r|]] eqn:E; [|vm_compute in E; discriminate E].
  exists t, r. split; [reflexivity|].
  destruct (@progress_contract zeroNumerics _ _ _ _ _ _ E) as (H1 & _ & H3).
  split; [exact H1|]. apply H3. discriminate.
Defined.

(* ================================================================== *)
(** * Further properties: the CSV reader, the column statistics, the
      insight runs, the correlations, the trainers and the checks made
      before training *)
(* ================================================================== *)

Close Scope string_scope.

(** ** The CSV reader *)

Import Text Csv CsvReference.

Lemma text_append_empty (s : string) : (s ++ "")%string = s.
Proof.
  induction s as [|c s IH]; cbn; [reflexivity|rewrite IH; reflexivity].
Qed.

Lemma text_append_assoc (a b c : string) : ((a ++ b) ++ c)%string = (a ++ (b ++ c))%string.
Proof.
  induction a as [|x a IH]; cbn; [reflexivity|rewrite IH; reflexivity].
Qed.

Lemma chars_append (a b : string) :
  list_ascii_of_string (a ++ b) = list_ascii_of_string a ++ list_ascii_of_string b.
Proof.
  induction a as [|x a IH]; cbn; [reflexivity|rewrite IH; reflexivity].
Qed.

Lemma contains_append (c : ascii) (a b : string) :
  contains c (a ++ b) = contains c a || contains c b.
Proof.
  induction a as [|x a IH]; cbn; [reflexivity|].
  rewrite IH. apply orb_assoc.
Qed.

Lemma contains_trimStart (c : ascii) (s : string) :
  contains c s = false -> contains c (trimStart s) = false.
Proof.
  induction s as [|x s IH]; cbn; [reflexivity|].
  intro H. destruct (isWhiteSpace x); [|exact H].
  apply IH. apply orb_false_iff in H. apply H.
Qed.

Lemma contains_trimEnd (c : ascii) (s : string) :
  contains c s = false -> contains c (trimEnd s) = false.
Proof.
  induction s as [|x s IH]; cbn; [reflexivity|].
  intro H. apply orb_false_iff in H. destruct H as [Hx Hs].
  specialize (IH Hs). destruct (trimEnd s) as [|y t].
  - destruct (isWhiteSpace x); cbn; [reflexivity|rewrite Hx; reflexivity].
  - cbn in *. rewrite Hx. exact IH.
Qed.

Lemma contains_trim (c : ascii) (s : string) :
  contains c s = false -> contains c (trim s) = false.
Proof.
  intro H. apply contains_trimEnd, contains_trimStart, H.
Qed.

Lemma dropFinalQuote_plain (s : string) :
  contains dquote s = false -> dropFinalQuote s = s.
Proof.
  induction s as [|x s IH]; [reflexivity|].
  intro H. cbn in H. apply orb_false_iff in H. destruct H as [Hx Hs].
  cbn. destruct s as [|y s]; [rewrite Hx; reflexivity|].
  rewrite (IH Hs). reflexivity.
Qed.

Lemma unquote_plain (s : string) : contains dquote s = false -> unquote s = s.
Proof.
  destruct s as [|x s]; [reflexivity|].
  intro H. unfold unquote.
  assert (Hx : Ascii.eqb x dquote = false)
    by (cbn in H; apply orb_false_iff in H; apply H).
  rewrite Hx. apply dropFinalQuote_plain, H.
Qed.

(** A text that is empty or starts with a character [trim] keeps. *)
Lemma trimStart_head (s : string) :
  match trimStart s with
  | EmptyString => True
  | String c _ => isWhiteSpace c = false
  end.
Proof.
  induction s as [|x s IH]; cbn; [exact I|].
  destruct (isWhiteSpace x) eqn:E; [exact IH|exact E].
Qed.

Lemma trimStart_fixed (s : string) :
  match s with EmptyString => True | String c _ => isWhiteSpace c = false end ->
  trimStart s = s.
Proof.
  destruct s as [|x s]; [reflexivity|]. cbn. intros ->. reflexivity.
Qed.

Lemma trimEnd_head (s : string) :
  match s with EmptyString => True | String c _ => isWhiteSpace c = false end ->
  match trimEnd s with EmptyString => True | String c _ => isWhiteSpace c = false end.
Proof.
  destruct s as [|x s]; cbn; [trivial|].
  intro H. destruct (trimEnd s); [rewrite H|]; exact H.
Qed.

Lemma trimEnd_idem (s : string) : trimEnd (trimEnd s) = trimEnd s.
Proof.
  induction s as [|x s IH]; [reflexivity|].
  cbn. destruct (trimEnd s) as [|y t] eqn:E.
  - destruct (isWhiteSpace x) eqn:Ex; [reflexivity|]. cbn. rewrite Ex. reflexivity.
  - change (trimEnd (String x (String y t))) with
      (match trimEnd (String y t) with
       | EmptyString => if isWhiteSpace x then EmptyString else String x EmptyString
       | String _ _ as t' => String x t'
       end).
    rewrite IH. reflexivity.
Qed.

Lemma trim_idem (s : string) : trim (trim s) = trim s.
Proof.
  unfold trim.
  rewrite (trimStart_fixed (trimEnd (trimStart s))).
  - apply trimEnd_idem.
  - apply trimEnd_head, trimStart_head.
Qed.

Lemma split_nonempty (sep : ascii) (s : string) : split sep s <> [].
Proof.
  destruct s as [|c s]; cbn; [discriminate|].
  destruct (Ascii.eqb c sep); [discriminate|].
  destruct (split sep s); discriminate.
Qed.

Lemma split_pieces (c sep : ascii) (s : string) :
  contains c s = false -> Forall (fun p => contains c p = false) (split sep s).
Proof.
  induction s as [|x s IH]; cbn.
  - intros _. constructor; [reflexivity|constructor].
  - intro H. apply orb_false_iff in H. destruct H as [Hx Hs].
    specialize (IH Hs).
    destruct (Ascii.eqb x sep).
    + constructor; [reflexivity|exact IH].
    + destruct (split sep s) as [|p rest].
      * constructor; [cbn; rewrite Hx; reflexivity|constructor].
      * inversion IH; subst. constructor; [cbn; rewrite Hx; assumption|assumption].
Qed.

Lemma line_loop_plain (s : string) (st : LineState) :
  contains dquote s = false -> inQuotes st = false ->
  result (fold_left lineStep (list_ascii_of_string s) st)
  ++ [unquote (trim (current (fold_left lineStep (list_ascii_of_string s) st)))]
  = result st
    ++ map (fun p => unquote (trim p))
           (match split ","%char s with
            | [] => []
            | h :: t => (current st ++ h)%string :: t
            end).
Proof.
  revert st. induction s as [|c s IH]; intros st H Hq.
  - cbn. rewrite text_append_empty. reflexivity.
  - cbn in H. apply orb_false_iff in H. destruct H as [Hc Hs].
    cbn [list_ascii_of_string fold_left].
    assert (Hq' : inQuotes (lineStep st c) = false).
    { unfold lineStep. rewrite Hc, Hq.
      destruct (Ascii.eqb c ","%char); reflexivity. }
    rewrite (IH (lineStep st c) Hs Hq'). cbn [split].
    pose proof (split_nonempty ","%char s) as Hne.
    unfold lineStep. rewrite Hc, Hq.
    destruct (Ascii.eqb c ","%char); cbn [andb negb result current].
    + destruct (split ","%char s) as [|h t]; [congruence|].
      cbn [map]. rewrite text_append_empty, <- app_assoc. reflexivity.
    + destruct (split ","%char s) as [|h t]; [congruence|].
      cbn [map]. rewrite text_append_assoc. reflexivity.
Qed.

(** Without any double quote on the line, [parseCSVLine] gives what
    [line.split(',')] followed by [trim] on every piece gives. *)
Theorem parseCSVLine_plain (line : string) :
  contains dquote line = false ->
  parseCSVLine line = map trim (split ","%char line).
Proof.
  intro H. unfold parseCSVLine. cbv zeta.
  rewrite (@line_loop_plain line {| result := []; current := EmptyString; inQuotes := false |} H eq_refl). cbn [result current app].
  pose proof (@split_pieces dquote ","%char line H) as Hp.
  destruct (split ","%char line) as [|h t]; [reflexivity|].
  change (EmptyString ++ h)%string with h.
  apply map_ext_in. intros p Hin.
  apply unquote_plain, contains_trim.
  rewrite Forall_forall in Hp. apply Hp, Hin.
Qed.

Lemma line_loop_clean (cs : list ascii) (st : LineState) :
  contains dquote (current st) = false ->
  Forall (fun f => contains dquote f = false /\ trim f = f) (result st) ->
  contains dquote (current (fold_left lineStep cs st)) = false /\
  Forall (fun f => contains dquote f = false /\ trim f = f)
         (result (fold_left lineStep cs st)).
Proof.
  revert st. induction cs as [|c cs IH]; intros st Hcur Hres; [split; assumption|].
  cbn [fold_left]. apply IH; unfold lineStep.
  - destruct (Ascii.eqb c dquote) eqn:Ec; [exact Hcur|].
    destruct (Ascii.eqb c ","%char && negb (inQuotes st)); cbn [current]; [reflexivity|].
    rewrite contains_append, Hcur. cbn. rewrite Ec. reflexivity.
  - destruct (Ascii.eqb c dquote) eqn:Ec; [exact Hres|].
    destruct (Ascii.eqb c ","%char && negb (inQuotes st)); cbn [result]; [|exact Hres].
    apply Forall_app. split; [exact Hres|].
    constructor; [|constructor].
    rewrite (unquote_plain (trim (current st))) by (apply contains_trim, Hcur).
    split; [apply contains_trim, Hcur|apply trim_idem].
Qed.

Lemma fields_clean (line : string) :
  Forall (fun f => contains dquote f = false /\ trim f = f) (parseCSVLine line).
Proof.
  unfold parseCSVLine. cbv zeta.
  destruct (@line_loop_clean (list_ascii_of_string line)
              {| result := []; current := EmptyString; inQuotes := false |}
              eq_refl (Forall_nil _)) as [Hcur Hres].
  apply Forall_app. split; [exact Hres|].
  constructor; [|constructor].
  rewrite (unquote_plain (trim _)) by (apply contains_trim, Hcur).
  split; [apply contains_trim, Hcur|apply trim_idem].
Qed.

(** Every line has at least one field, and no field keeps a double quote
    or white space at either end: quotes only switch the quoted mode and
    are never copied, so a doubled quote inside a quoted field is lost
    and the final [replace] finds nothing to remove. *)
Theorem parseCSVLine_fields (line : string) :
  (1 <= length (parseCSVLine line))%nat /\
  Forall (fun f => contains dquote f = false /\ trim f = f) (parseCSVLine line).
Proof.
  split; [|apply fields_clean].
  unfold parseCSVLine. cbv zeta. rewrite length_app. cbn. lia.
Qed.

Lemma line_loop_inside (s : string) (st : LineState) :
  contains dquote s = false ->
  inQuotes st = true \/ contains ","%char s = false ->
  fold_left lineStep (list_ascii_of_string s) st
  = {| result := result st; current := (current st ++ s)%string;
       inQuotes := inQuotes st |}.
Proof.
  revert st. induction s as [|c s IH]; intros st H Hin.
  - cbn. rewrite text_append_empty. destruct st; reflexivity.
  - cbn in H. apply orb_false_iff in H. destruct H as [Hc Hs].
    cbn [list_ascii_of_string fold_left].
    assert (Hstep : lineStep st c
                    = {| result := result st;
                         current := (current st ++ String c EmptyString)%string;
                         inQuotes := inQuotes st |}).
    { unfold lineStep. rewrite Hc.
      destruct Hin as [Hq|Hcomma].
      - rewrite Hq, andb_false_r. reflexivity.
      - cbn in Hcomma. apply orb_false_iff in Hcomma. destruct Hcomma as [-> _].
        reflexivity. }
    rewrite Hstep, IH; cbn [result current inQuotes].
    + rewrite text_append_assoc. reflexivity.
    + exact Hs.
    + destruct Hin as [Hq|Hcomma]; [left; exact Hq|right].
      cbn in Hcomma. apply orb_false_iff in Hcomma. apply Hcomma.
Qed.

Lemma line_loop_cell (q : bool) (f : string) (rest : list ascii) (st : LineState) :
  contains dquote f = false -> (q = false -> contains ","%char f = false) ->
  inQuotes st = false ->
  fold_left lineStep (list_ascii_of_string (cell q f) ++ rest) st
  = fold_left lineStep rest
      {| result := result st; current := (current st ++ f)%string; inQuotes := false |}.
Proof.
  intros Hf Hcomma Hq. rewrite fold_left_app. f_equal.
  destruct q; unfold cell.
  - assert (Hin : inQuotes (lineStep st dquote) = true)
      by (unfold lineStep; cbn; rewrite Hq; reflexivity).
    change (list_ascii_of_string (String dquote (f ++ String dquote EmptyString)))
      with (dquote :: list_ascii_of_string (f ++ String dquote EmptyString)).
    rewrite chars_append. cbn [fold_left]. rewrite fold_left_app.
    rewrite (@line_loop_inside f (lineStep st dquote) Hf (or_introl Hin)).
    unfold lineStep. cbn. rewrite Hq. reflexivity.
  - rewrite (@line_loop_inside f st Hf (or_intror (Hcomma eq_refl))).
    rewrite Hq. reflexivity.
Qed.

Lemma line_loop_cells (cells : list (bool * string)) (st : LineState) :
  cells <> [] ->
  (forall q f, In (q, f) cells ->
     contains dquote f = false /\ trim f = f /\ (q = false -> contains ","%char f = false)) ->
  inQuotes st = false -> current st = EmptyString ->
  result (fold_left lineStep
            (list_ascii_of_string (joinWith ","%char (map (fun c => cell (fst c) (snd c)) cells)))
            st)
  ++ [unquote (trim (current (fold_left lineStep
            (list_ascii_of_string (joinWith ","%char (map (fun c => cell (fst c) (snd c)) cells)))
            st)))]
  = result st ++ map snd cells.
Proof.
  revert st. induction cells as [|[q f] cells IH]; intros st Hne Hall Hq Hcur; [congruence|].
  destruct (Hall q f (or_introl eq_refl)) as (Hf & Htrim & Hcomma).
  destruct cells as [|c2 cells].
  - cbn [map joinWith fst snd].
    rewrite <- (app_nil_r (list_ascii_of_string (cell q f))).
    rewrite (@line_loop_cell q f [] st Hf Hcomma Hq). cbn [fold_left result current].
    rewrite Hcur. cbn [append]. rewrite Htrim, (unquote_plain f Hf). reflexivity.
  - change (joinWith ","%char (map (fun c => cell (fst c) (snd c)) ((q, f) :: c2 :: cells)))
      with (cell q f ++ String ","%char
              (joinWith ","%char (map (fun c => cell (fst c) (snd c)) (c2 :: cells))))%string.
    rewrite chars_append. cbn [list_ascii_of_string].
    rewrite (@line_loop_cell q f _ st Hf Hcomma Hq).
    cbn [fold_left]. unfold lineStep at 2 4. cbn [inQuotes result current negb andb].
    change (Ascii.eqb ","%char dquote) with false.
    change (Ascii.eqb ","%char ","%char) with true. cbn [andb].
    rewrite IH; cbn [result current inQuotes]; try reflexivity.
    + rewrite Hcur. cbn [append]. rewrite Htrim, (unquote_plain f Hf).
      rewrite <- app_assoc. reflexivity.
    + discriminate.
    + intros q' f' Hin. apply Hall. right. exact Hin.
Qed.

(** Round trip of a line: fields without double quotes and without white
    space at their ends, each written between double quotes or, when it
    holds no comma, as it is, and joined by commas, are read back
    unchanged. *)
Theorem parseCSVLine_round_trip (cells : list (bool * string)) :
  cells <> [] ->
  (forall q f, In (q, f) cells ->
     contains dquote f = false /\ trim f = f /\ (q = false -> contains ","%char f = false)) ->
  parseCSVLine (joinWith ","%char (map (fun c => cell (fst c) (snd c)) cells))
  = map snd cells.
Proof.
  intros Hne Hall. unfold parseCSVLine. cbv zeta.
  rewrite (@line_loop_cells cells {| result := []; current := EmptyString; inQuotes := false |} Hne Hall eq_refl eq_refl). reflexivity.
Qed.

(** ** Rows of a CSV text *)

Lemma lookup_assign (V : Type) (r : Record_ V) (k k' : string) (v : V) :
  lookup (assign r k v) k' = if String.eqb k k' then Some v else lookup r k'.
Proof.
  induction r as [|[k0 v0] r IH]; [reflexivity|].
  cbn [assign]. destruct (String.eqb_spec k0 k) as [->|Hk0].
  - cbn [lookup]. destruct (String.eqb k k'); reflexivity.
  - cbn [lookup]. rewrite IH.
    destruct (String.eqb_spec k0 k') as [->|Hk0']; [|reflexivity].
    destruct (String.eqb_spec k k') as [->|_]; [congruence|reflexivity].
Qed.

Lemma lookup_setCell (row : Record_ value) (x h : string) (v : value) :
  h <> "__proto__"%string ->
  lookup (setCell row x v) h = if String.eqb x h then Some v else lookup row h.
Proof.
  intro Hh. unfold setCell.
  destruct (String.eqb_spec x "__proto__") as [->|Hx]; [|apply lookup_assign].
  destruct (String.eqb_spec "__proto__" h) as [<-|_]; [congruence|reflexivity].
Qed.

Lemma lookup_setCell_proto (row : Record_ value) (x : string) (v : value) :
  lookup (setCell row x v) "__proto__" = lookup row "__proto__".
Proof.
  unfold setCell. destruct (String.eqb_spec x "__proto__") as [->|Hx]; [reflexivity|].
  rewrite lookup_assign. destruct (String.eqb_spec x "__proto__"); [congruence|reflexivity].
Qed.

Lemma makeRow_from (values headers : list string) (i : nat) (acc : Record_ value)
    (h : string) :
  h <> "__proto__"%string ->
  lookup (reducei_from (fun row header index => setCell row header (cellAt values index))
                       i headers acc) h
  = match lastIndexFrom i h headers with
    | Some j => Some (cellAt values j)
    | None => lookup acc h
    end.
Proof.
  intro Hh. revert i acc. induction headers as [|x headers IH]; intros i acc; [reflexivity|].
  cbn [reducei_from lastIndexFrom]. rewrite IH.
  destruct (lastIndexFrom (S i) h headers); [reflexivity|].
  rewrite lookup_setCell by exact Hh.
  destruct (String.eqb x h); reflexivity.
Qed.

Lemma makeRow_proto_from (values headers : list string) (i : nat) (acc : Record_ value) :
  lookup (reducei_from (fun row header index => setCell row header (cellAt values index))
                       i headers acc) "__proto__"
  = lookup acc "__proto__".
Proof.
  revert i acc. induction headers as [|x headers IH]; intros i acc; [reflexivity|].
  cbn [reducei_from]. rewrite IH. apply lookup_setCell_proto.
Qed.

Lemma lastIndexFrom_range (k : nat) (h : string) (headers : list string) (j : nat) :
  lastIndexFrom k h headers = Some j ->
  (k <= j < k + length headers)%nat /\ nth (j - k) headers EmptyString = h.
Proof.
  revert k. induction headers as [|x headers IH]; intros k; [discriminate|].
  cbn [lastIndexFrom length]. destruct (lastIndexFrom (S k) h headers) as [j'|] eqn:E.
  - intro Hj. injection Hj as <-. destruct (IH _ E) as [Hr Hn].
    split; [lia|]. replace (j' - k)%nat with (S (j' - S k)) by lia. exact Hn.
  - destruct (String.eqb_spec x h) as [->|_]; [|discriminate].
    intro Hj. injection Hj as <-. split; [lia|]. rewrite Nat.sub_diag. reflexivity.
Qed.

Lemma lastIndexFrom_absent (k : nat) (h : string) (headers : list string) :
  lastIndexFrom k h headers = None <-> ~ In h headers.
Proof.
  revert k. induction headers as [|x headers IH]; intros k; [cbn; tauto|].
  cbn [lastIndexFrom In]. destruct (lastIndexFrom (S k) h headers) as [j|] eqn:E.
  - split; [discriminate|]. intro Hn. exfalso.
    assert (Hin : In h headers).
    { destruct (in_dec string_dec h headers) as [Hi|Hi]; [exact Hi|].
      apply (IH (S k)) in Hi. congruence. }
    tauto.
  - pose proof (proj1 (IH (S k)) E) as Hno.
    destruct (String.eqb_spec x h) as [->|Hx]; [split; [discriminate|tauto]|].
    split; [intros _ [Hc|Hc]; [congruence|tauto]|reflexivity].
Qed.

Lemma lastIndexFrom_nodup (k i : nat) (headers : list string) :
  NoDup headers -> (i < length headers)%nat ->
  lastIndexFrom k (nth i headers EmptyString) headers = Some (k + i)%nat.
Proof.
  intro Hnd. revert k i. induction Hnd as [|x headers Hx Hnd IH]; intros k i Hi;
    [cbn in Hi; lia|].
  cbn [lastIndexFrom]. destruct i as [|i]; cbn [nth].
  - rewrite (proj2 (lastIndexFrom_absent (S k) x headers) Hx).
    rewrite String.eqb_refl, Nat.add_0_r. reflexivity.
  - rewrite IH by (cbn in Hi; lia). f_equal. lia.
Qed.

(** The row's own property under a header is the field at the last
    position of that header among the headers, so a repeated header
    keeps its last column; a key that is not a header is not an own key
    of the row; and the header [__proto__] never becomes one. *)
Theorem makeRow_lookup (headers values : list string) (h : string) :
  (h <> "__proto__"%string ->
   lookup (makeRow headers values) h
   = match lastIndexFrom 0 h headers with
     | Some j => Some (cellAt values j)
     | None => None
     end) /\
  (~ In h headers -> lookup (makeRow headers values) h = None) /\
  lookup (makeRow headers values) "__proto__" = None.
Proof.
  unfold makeRow, reducei. split; [|split].
  - intro Hh. rewrite makeRow_from by exact Hh. reflexivity.
  - intro Hn. destruct (String.eqb_spec h "__proto__") as [->|Hh].
    + apply makeRow_proto_from.
    + rewrite makeRow_from by exact Hh.
      rewrite (proj2 (lastIndexFrom_absent 0 h headers) Hn). reflexivity.
  - apply makeRow_proto_from.
Qed.

Lemma flat_map_tail (A B : Type) (g : A -> list B) (d : A) (l : list A) :
  flat_map (fun i => g (nth i l d)) (seq 1 (length l - 1)) = flat_map g (tl l).
Proof.
  destruct l as [|x l]; [reflexivity|].
  replace (length (x :: l) - 1)%nat with (length l) by (cbn; lia).
  cbn [tl]. rewrite <- (firstn_all l) at 2.
  rewrite <- (@map_nth_seq _ d (length l) [x] l (le_n _)).
  cbn [length app]. rewrite !flat_map_concat_map, map_map. reflexivity.
Qed.

Lemma flat_map_filter (A B : Type) (p : A -> bool) (f : A -> B) (l : list A) :
  flat_map (fun a => if p a then [f a] else []) l = map f (filter p l).
Proof.
  induction l as [|a l IH]; [reflexivity|].
  cbn [flat_map filter]. destruct (p a); cbn; rewrite IH; reflexivity.
Qed.

Lemma parseCSV_unfold (csvText : string) :
  parseCSV csvText
  = map (makeRow (map (fun h => unquote (trim h))
                      (split ","%char (hd EmptyString (split "010"%char (trim csvText))))))
        (filter (fun values =>
                   (length values
                    =? length (split ","%char
                                 (hd EmptyString (split "010"%char (trim csvText)))))%nat)
                (map parseCSVLine (tl (split "010"%char (trim csvText))))).
Proof.
  unfold parseCSV. cbv zeta.
  pose proof (split_nonempty "010"%char (trim csvText)) as Hne.
  destruct (split "010"%char (trim csvText)) as [|header rest] eqn:E; [congruence|].
  cbn [hd tl].
  destruct rest as [|line rest]; [reflexivity|].
  change (nth 0 (header :: line :: rest) EmptyString) with header.
  replace (length (header :: line :: rest) <? 2)%nat with false
    by (symmetry; apply Nat.ltb_ge; cbn; lia).
  rewrite (flat_map_tail
             (fun l => if (length (parseCSVLine l)
                           =? length (map (fun h => unquote (trim h))
                                          (split ","%char header)))%nat
                       then [makeRow (map (fun h => unquote (trim h))
                                          (split ","%char header))
                                     (parseCSVLine l)]
                       else [])
             EmptyString (header :: line :: rest)).
  cbn [tl]. rewrite length_map.
  rewrite <- (flat_map_filter
                (fun values => (length values =? length (split ","%char header))%nat)
                (makeRow (map (fun h => unquote (trim h)) (split ","%char header)))).
  rewrite !flat_map_concat_map, map_map. reflexivity.
Qed.

(** A text that holds one line only (after trimming) gives no row.  In
    general the rows are, in order, those of the lines after the first
    whose number of fields equals the number of header pieces; the other
    lines are skipped without notice, so there are never more rows than
    such lines, and a quoted comma in the header line, which is split at
    every comma, changes the number of header pieces. *)
Theorem parseCSV_rows (csvText : string) :
  let lines := split "010"%char (trim csvText) in
  let headerPieces := split ","%char (hd EmptyString lines) in
  let headers := map (fun h => unquote (trim h)) headerPieces in
  let kept :=
    filter (fun values => (length values =? length headerPieces)%nat)
           (map parseCSVLine (tl lines)) in
  parseCSV csvText = map (makeRow headers) kept /\
  (length (parseCSV csvText) <= length lines - 1)%nat /\
  (contains "010"%char (trim csvText) = false -> parseCSV csvText = []) /\
  (forall row, In row (parseCSV csvText) ->
     exists line, In line (tl lines) /\
                  length (parseCSVLine line) = length headers /\
                  row = makeRow headers (parseCSVLine line)).
Proof.
  cbv zeta. split; [apply parseCSV_unfold|]. split; [|split].
  - rewrite parseCSV_unfold, length_map.
    eapply Nat.le_trans; [apply filter_length_le|].
    rewrite length_map. destruct (split "010"%char (trim csvText)); cbn; lia.
  - intro H. rewrite parseCSV_unfold.
    assert (Hs : forall s, contains "010"%char s = false -> split "010"%char s = [s]).
    { induction s as [|c s IH]; [reflexivity|].
      cbn. intro Hc. apply orb_false_iff in Hc. destruct Hc as [Hc Hs].
      rewrite Hc, (IH Hs). reflexivity. }
    rewrite (Hs _ H). reflexivity.
  - intros row Hrow. rewrite parseCSV_unfold in Hrow.
    apply in_map_iff in Hrow. destruct Hrow as (values & <- & Hin).
    apply filter_In in Hin. destruct Hin as [Hin Hlen].
    apply in_map_iff in Hin. destruct Hin as (line & <- & Hline).
    exists line. split; [exact Hline|]. split; [|reflexivity].
    rewrite length_map. apply Nat.eqb_eq. exact Hlen.
Qed.

Lemma assign_entries (V : Type) (r : Record_ V) (k0 k : string) (v0 v : V) :
  In (k, v) (assign r k0 v0) -> (k = k0 /\ v = v0) \/ In (k, v) r.
Proof.
  induction r as [|[k1 v1] r IH]; cbn [assign].
  - intros [H|[]]. injection H as <- <-. left. split; reflexivity.
  - destruct (String.eqb_spec k1 k0) as [->|Hne].
    + intros [H|H]; [injection H as <- <-; left; split; reflexivity|right; right; exact H].
    + intros [H|H]; [right; left; exact H|].
      destruct (IH H) as [Heq|Hin]; [left; exact Heq|right; right; exact Hin].
Qed.

Lemma makeRow_entries (values headers : list string) (i : nat) (acc : Record_ value)
    (k : string) (v : value) :
  In (k, v) (reducei_from (fun row header index => setCell row header (cellAt values index))
                          i headers acc) ->
  In (k, v) acc \/
  exists j, (i <= j < i + length headers)%nat /\ In k headers /\ v = cellAt values j.
Proof.
  revert i acc. induction headers as [|x headers IH]; intros i acc H; [left; exact H|].
  cbn [reducei_from] in H. apply IH in H. destruct H as [H|(j & Hj & Hk & Hv)].
  - unfold setCell in H. destruct (String.eqb x "__proto__"); [left; exact H|].
    apply assign_entries in H. destruct H as [[-> ->]|H]; [|left; exact H].
    right. exists i. split; [cbn; lia|]. split; [left; reflexivity|reflexivity].
  - right. exists j. split; [cbn; lia|]. split; [right; exact Hk|exact Hv].
Qed.

(** Every cell of every row read from a CSV text is a string, never
    [null], [undefined] or a number; it holds no double quote and no
    white space at its ends, and its key is one of the headers.  So the
    only missing cells of an uploaded dataset are empty strings. *)
Theorem parseCSV_cells (csvText : string) (row : Record_ value) (k : string) (v : value) :
  In row (parseCSV csvText) -> In (k, v) row ->
  In k (map (fun h => unquote (trim h))
            (split ","%char (hd EmptyString (split "010"%char (trim csvText))))) /\
  exists s, v = VStr s /\ contains dquote s = false /\ trim s = s /\
            (isMissing v = true <-> s = EmptyString).
Proof.
  intros Hrow Hcell. rewrite parseCSV_unfold in Hrow.
  apply in_map_iff in Hrow. destruct Hrow as (values & <- & Hin).
  apply filter_In in Hin. destruct Hin as [Hin Hlen]. apply Nat.eqb_eq in Hlen.
  apply in_map_iff in Hin. destruct Hin as (line & <- & _).
  unfold makeRow, reducei in Hcell. apply makeRow_entries in Hcell.
  destruct Hcell as [[]|(j & Hj & Hk & ->)]. split; [exact Hk|].
  rewrite length_map in Hj. unfold cellAt.
  destruct (nth_error (parseCSVLine line) j) as [s|] eqn:Es;
    [|apply nth_error_None in Es; lia].
  exists s. split; [reflexivity|].
  pose proof (fields_clean line) as Hclean. rewrite Forall_forall in Hclean.
  destruct (Hclean s (nth_error_In _ _ Es)) as [Hq Ht].
  split; [exact Hq|]. split; [exact Ht|].
  cbn. split; [intro H; apply String.eqb_eq, H|intros ->; reflexivity].
Qed.

(** ** Reading back a written table *)

Lemma split_none (sep : ascii) (s : string) :
  contains sep s = false -> split sep s = [s].
Proof.
  induction s as [|c s IH]; [reflexivity|].
  cbn. intro H. apply orb_false_iff in H. destruct H as [Hc Hs].
  rewrite Hc, (IH Hs). reflexivity.
Qed.

Lemma split_append (sep : ascii) (p s : string) :
  contains sep p = false ->
  split sep (p ++ String sep s) = p :: split sep s.
Proof.
  induction p as [|c p IH]; cbn.
  - intros _. rewrite Ascii.eqb_refl. reflexivity.
  - intro H. apply orb_false_iff in H. destruct H as [Hc Hp].
    rewrite Hc, (IH Hp). reflexivity.
Qed.

Lemma split_join (sep : ascii) (pieces : list string) :
  pieces <> [] -> Forall (fun p => contains sep p = false) pieces ->
  split sep (joinWith sep pieces) = pieces.
Proof.
  induction pieces as [|p pieces IH]; [congruence|].
  intros _ Hall. inversion Hall as [|? ? Hp Hrest]; subst.
  destruct pieces as [|q pieces]; [apply split_none, Hp|].
  change (joinWith sep (p :: q :: pieces))
    with (p ++ String sep (joinWith sep (q :: pieces)))%string.
  rewrite split_append by exact Hp. rewrite IH; [reflexivity|discriminate|exact Hrest].
Qed.

Lemma contains_joinWith (c sep : ascii) (pieces : list string) :
  Ascii.eqb sep c = false -> Forall (fun p => contains c p = false) pieces ->
  contains c (joinWith sep pieces) = false.
Proof.
  intros Hsep Hall. induction Hall as [|p pieces Hp Hall IH]; [reflexivity|].
  destruct pieces as [|q pieces]; [exact Hp|].
  change (joinWith sep (p :: q :: pieces))
    with (p ++ String sep (joinWith sep (q :: pieces)))%string.
  rewrite contains_append, Hp. cbn [contains orb]. rewrite Hsep. exact IH.
Qed.

Lemma joinWith_first (sep : ascii) (x : string) (l : list string) :
  exists rest, joinWith sep (x :: l) = (x ++ rest)%string.
Proof.
  destruct l as [|y l].
  - exists EmptyString. cbn. symmetry. apply text_append_empty.
  - eexists. reflexivity.
Qed.

Lemma joinWith_last (sep : ascii) (l : list string) :
  l <> [] -> exists pre, joinWith sep l = (pre ++ last l EmptyString)%string.
Proof.
  induction l as [|x l IH]; [congruence|]. intros _.
  destruct l as [|y l]; [exists EmptyString; reflexivity|].
  destruct IH as [pre Hpre]; [discriminate|].
  exists (x ++ String sep pre)%string.
  change (joinWith sep (x :: y :: l)) with (x ++ String sep (joinWith sep (y :: l)))%string.
  change (last (x :: y :: l) EmptyString) with (last (y :: l) EmptyString).
  rewrite Hpre, text_append_assoc. reflexivity.
Qed.

Lemma trimStart_length (s : string) :
  (String.length (trimStart s) <= String.length s)%nat.
Proof.
  induction s as [|c s IH]; cbn; [lia|].
  destruct (isWhiteSpace c); cbn; lia.
Qed.

Lemma trim_parts (f : string) : trim f = f -> trimStart f = f /\ trimEnd f = f.
Proof.
  unfold trim. intro H.
  assert (He : trimEnd f = f) by (rewrite <- H at 1; rewrite trimEnd_idem; exact H).
  split; [|exact He].
  rewrite <- H at 1. rewrite trimStart_fixed; [exact H|].
  apply trimEnd_head, trimStart_head.
Qed.

Lemma trimStart_append (a b : string) :
  a <> EmptyString -> trimStart a = a -> trimStart (a ++ b) = (a ++ b)%string.
Proof.
  destruct a as [|x a]; [congruence|]. intros _ H. cbn in *.
  destruct (isWhiteSpace x); [|reflexivity].
  pose proof (trimStart_length a) as Hl. rewrite H in Hl. cbn in Hl. lia.
Qed.

Lemma trimEnd_append (a b : string) :
  b <> EmptyString -> trimEnd b = b -> trimEnd (a ++ b) = (a ++ b)%string.
Proof.
  intros Hb H. induction a as [|x a IH]; [exact H|].
  cbn. rewrite IH. destruct (a ++ b)%string eqn:E; [|reflexivity].
  destruct a; cbn in E; [congruence|discriminate].
Qed.

Lemma map_fixed (A : Type) (f : A -> A) (l : list A) :
  Forall (fun a => f a = a) l -> map f l = l.
Proof.
  induction 1 as [|a l Ha _ IH]; [reflexivity|]. cbn. rewrite Ha, IH. reflexivity.
Qed.

Lemma filter_all (A : Type) (p : A -> bool) (l : list A) :
  Forall (fun a => p a = true) l -> filter p l = l.
Proof.
  induction 1 as [|a l Ha _ IH]; [reflexivity|]. cbn. rewrite Ha, IH. reflexivity.
Qed.

Lemma last_mapped (A B : Type) (f : A -> B) (l : list A) (a : A) (b : B) :
  l <> [] -> last (map f l) b = f (last l a).
Proof.
  induction l as [|x l IH]; [congruence|]. intros _.
  destruct l as [|y l]; [reflexivity|].
  change (last (map f (x :: y :: l)) b) with (last (map f (y :: l)) b).
  change (last (x :: y :: l) a) with (last (y :: l) a).
  apply IH. discriminate.
Qed.

Lemma parseCSVLine_join (row : list string) :
  row <> [] -> Forall plain row -> parseCSVLine (joinWith ","%char row) = row.
Proof.
  intros Hne Hall.
  assert (Hq : contains dquote (joinWith ","%char row) = false).
  { apply contains_joinWith; [reflexivity|].
    eapply Forall_impl; [|exact Hall]. intros f Hf. apply Hf. }
  unfold parseCSVLine. cbv zeta.
  rewrite (@line_loop_plain (joinWith ","%char row)
             {| result := []; current := EmptyString; inQuotes := false |} Hq eq_refl).
  rewrite split_join;
    [|exact Hne|eapply Forall_impl; [|exact Hall]; intros f Hf; apply Hf].
  cbn [result current app]. destruct row as [|f row]; [congruence|].
  change (EmptyString ++ f)%string with f.
  apply map_fixed. eapply Forall_impl; [|exact Hall].
  intros g (Hg & _ & _ & Ht). rewrite Ht. apply unquote_plain, Hg.
Qed.

Lemma render_trimmed (headers : list string) (rows : list (list string)) :
  rows <> [] -> Forall plain headers -> Forall (Forall plain) rows ->
  hd EmptyString headers <> EmptyString ->
  last (last rows []) EmptyString <> EmptyString ->
  trim (render headers rows) = render headers rows.
Proof.
  intros Hrows Hh Hr Hfirst Hlast. unfold render, trim.
  assert (Hs : trimStart (joinWith "010"%char (map (joinWith ","%char) (headers :: rows)))
               = joinWith "010"%char (map (joinWith ","%char) (headers :: rows))).
  { cbn [map].
    destruct (joinWith_first "010"%char (joinWith ","%char headers)
                (map (joinWith ","%char) rows)) as [r1 ->].
    destruct headers as [|h headers]; [cbn in Hfirst; congruence|].
    destruct (joinWith_first ","%char h headers) as [r2 ->].
    rewrite text_append_assoc. apply trimStart_append; [exact Hfirst|].
    inversion Hh as [|? ? Hp _]; subst. apply trim_parts, Hp. }
  rewrite Hs.
  destruct (@joinWith_last "010"%char (map (joinWith ","%char) (headers :: rows)))
    as [p1 ->]; [discriminate|].
  assert (Hl : last (map (joinWith ","%char) (headers :: rows)) EmptyString
               = joinWith ","%char (last rows [])).
  { destruct rows as [|r rows]; [congruence|].
    change (last (map (joinWith ","%char) (headers :: r :: rows)) EmptyString)
      with (last (map (joinWith ","%char) (r :: rows)) EmptyString).
    apply last_mapped. discriminate. }
  rewrite Hl.
  assert (Hne : last rows [] <> []) by (intro E; rewrite E in Hlast; cbn in Hlast; congruence).
  destruct (@joinWith_last ","%char (last rows []) Hne) as [p2 ->].
  rewrite <- text_append_assoc. apply trimEnd_append; [exact Hlast|].
  assert (Hin : In (last rows []) rows).
  { destruct rows as [|r rows]; [congruence|].
    apply (@exists_last _ (r :: rows)) in Hrows. destruct Hrows as (pre & x & E).
    rewrite E, last_last. apply in_or_app. right. left. reflexivity. }
  rewrite Forall_forall in Hr. specialize (Hr _ Hin).
  assert (Hin2 : In (last (last rows []) EmptyString) (last rows [])).
  { destruct (@exists_last _ (last rows []) Hne) as (pre & x & E).
    rewrite E, last_last. apply in_or_app. right. left. reflexivity. }
  rewrite Forall_forall in Hr. apply trim_parts, Hr, Hin2.
Qed.

(** Round trip of a table: plain fields (no double quote, comma or line
    feed, no white space at the ends), one header per column, a first
    header and a last cell that are not empty, written one line per row,
    are read back as one record per row that holds, under each header,
    the cell of that column. *)
Theorem parseCSV_round_trip (headers : list string) (rows : list (list string)) :
  rows <> [] ->
  Forall plain headers -> Forall (Forall plain) rows ->
  Forall (fun row => length row = length headers) rows ->
  hd EmptyString headers <> EmptyString ->
  last (last rows []) EmptyString <> EmptyString ->
  parseCSV (render headers rows) = map (makeRow headers) rows /\
  (NoDup headers -> ~ In "__proto__"%string headers ->
   forall row i, In row rows -> (i < length headers)%nat ->
     getCell (makeRow headers row) (nth i headers EmptyString)
     = VStr (nth i row EmptyString)).
Proof.
  intros Hrows Hh Hr Hlen Hfirst Hlast.
  assert (Hhne : headers <> []) by (intro E; rewrite E in Hfirst; cbn in Hfirst; congruence).
  split.
  - rewrite parseCSV_unfold, (@render_trimmed headers rows Hrows Hh Hr Hfirst Hlast).
    unfold render. rewrite split_join; [|discriminate|].
    + cbn [map hd tl].
      rewrite split_join;
        [|exact Hhne|eapply Forall_impl; [|exact Hh]; intros f Hf; apply Hf].
      rewrite (@map_fixed _ (fun h => unquote (trim h)) headers).
      * f_equal. rewrite map_map.
        rewrite (@map_fixed _ (fun x => parseCSVLine (joinWith ","%char x)) rows).
        -- apply filter_all. eapply Forall_impl; [|exact Hlen].
           intros row Hrow. apply Nat.eqb_eq. exact Hrow.
        -- rewrite Forall_forall in *. intros row Hin. apply parseCSVLine_join.
           ++ specialize (Hlen _ Hin). destruct row; [|discriminate].
              destruct headers; [congruence|discriminate].
           ++ apply Hr, Hin.
      * eapply Forall_impl; [|exact Hh].
        intros f (Hf & _ & _ & Ht). rewrite Ht. apply unquote_plain, Hf.
    + apply Forall_map. constructor.
      * apply contains_joinWith; [reflexivity|].
        eapply Forall_impl; [|exact Hh]. intros f Hf. apply Hf.
      * eapply Forall_impl; [|exact Hr]. intros row Hrow.
        apply contains_joinWith; [reflexivity|].
        eapply Forall_impl; [|exact Hrow]. intros f Hf. apply Hf.
  - intros Hnd Hproto row i Hin Hi.
    assert (Hne : nth i headers EmptyString <> "__proto__"%string).
    { intro E. apply Hproto. rewrite <- E. apply nth_In, Hi. }
    unfold getCell, makeRow, reducei. rewrite makeRow_from by exact Hne.
    rewrite (@lastIndexFrom_nodup 0 i headers Hnd Hi). cbn [Nat.add].
    unfold cellAt. rewrite Forall_forall in Hlen. specialize (Hlen _ Hin).
    rewrite (nth_error_nth' row EmptyString) by lia. reflexivity.
Qed.

(** ** Column statistics *)

Lemma sameValueZero_refl (v : value) : sameValueZero v v = true.
Proof.
  destruct v as [| |b|[q|]|s]; cbn; try reflexivity.
  - destruct b; reflexivity.
  - apply Qeq_bool_refl.
  - apply String.eqb_refl.
Qed.

Lemma distinct_snoc (A : Type) (R : A -> A -> Prop) (l : list A) (v : A) :
  ForallOrdPairs R l -> Forall (fun a => R a v) l -> ForallOrdPairs R (l ++ [v]).
Proof.
  induction 1 as [|a l Ha Hl IH]; intro Hv.
  - cbn. constructor; constructor.
  - inversion Hv as [|? ? Hav Hlv]; subst. cbn. constructor.
    + apply Forall_app. split; [exact Ha|]. constructor; [exact Hav|constructor].
    + apply IH, Hlv.
Qed.

(** [new Set(vals)] keeps one representative of every value, in the
    order of first occurrence. *)
Lemma toSet_from (l seen : list value) :
  let r := fold_left (fun seen v => if existsb (sameValueZero v) seen then seen
                                    else seen ++ [v]) l seen in
  (exists extra, r = seen ++ extra /\ (length extra <= length l)%nat /\
                 Forall (fun d => In d l) extra) /\
  (forall v, In v l \/ existsb (sameValueZero v) seen = true ->
             existsb (sameValueZero v) r = true) /\
  (ForallOrdPairs (fun a b => sameValueZero b a = false) seen ->
   ForallOrdPairs (fun a b => sameValueZero b a = false) r).
Proof.
  cbv zeta. revert seen. induction l as [|v l IH]; intro seen.
  - cbn. split; [exists []; rewrite app_nil_r; repeat split; constructor|].
    split; [intros v [[]|H]; exact H|tauto].
  - cbn [fold_left].
    destruct (IH (if existsb (sameValueZero v) seen then seen else seen ++ [v]))
      as ((extra & Hr & Hlen & Hin) & Hcov & Hdist).
    split; [|split].
    + destruct (existsb (sameValueZero v) seen).
      * exists extra. split; [exact Hr|]. split; [cbn; lia|].
        eapply Forall_impl; [|exact Hin]. intros d Hd. right. exact Hd.
      * exists (v :: extra). split; [rewrite Hr, <- app_assoc; reflexivity|].
        split; [cbn; lia|]. constructor; [left; reflexivity|].
        eapply Forall_impl; [|exact Hin]. intros d Hd. right. exact Hd.
    + intros v0 Hv0. apply Hcov.
      destruct Hv0 as [[<-|Hv0]|Hv0].
      * right. destruct (existsb (sameValueZero v) seen) eqn:E; [exact E|].
        rewrite existsb_app. cbn. rewrite sameValueZero_refl. apply orb_true_r.
      * left. exact Hv0.
      * right. destruct (existsb (sameValueZero v) seen); [exact Hv0|].
        rewrite existsb_app, Hv0. reflexivity.
    + intro Hs. apply Hdist.
      destruct (existsb (sameValueZero v) seen) eqn:E; [exact Hs|].
      apply distinct_snoc; [exact Hs|].
      apply Forall_forall. intros a Ha.
      destruct (sameValueZero v a) eqn:Ea; [|reflexivity].
      assert (existsb (sameValueZero v) seen = true)
        by (apply existsb_exists; exists a; split; assumption).
      congruence.
Qed.



Section ColumnFacts.
Variable parseNumber : string -> option Q.
Variable Msqrt : Q -> Q.

(** [count] is the number of cells and [nullCount] the number of missing
    ones; [uniqueCount] is the number of different values among the
    others: it counts a list of values of the column that represents
    every value that is not missing and holds no two equal values.  So
    [uniqueCount] never exceeds [count - nullCount], and it is zero
    exactly when every cell is missing. *)
Theorem analyzeColumn_counts (columnName : string) (values : list value)
    (type_ : ColumnType) :
  let stats := analyzeColumn parseNumber Msqrt columnName values type_ in
  count stats = length values /\
  nullCount stats = countIf isMissing values /\
  (nullCount stats <= count stats)%nat /\
  (uniqueCount stats <= count stats - nullCount stats)%nat /\
  (uniqueCount stats = 0%nat <-> nullCount stats = count stats) /\
  exists distinct,
    length distinct = uniqueCount stats /\
    (forall d, In d distinct -> In d values /\ isMissing d = false) /\
    (forall v, In v values -> isMissing v = false ->
               existsb (sameValueZero v) distinct = true) /\
    ForallOrdPairs (fun a b => sameValueZero b a = false) distinct.
Proof.
  cbv zeta. unfold analyzeColumn. cbv zeta.
  destruct (fold_left _ (fold_left bump _ []) (0%nat, VNull)) as [maxCount mode_].
  cbn [count nullCount uniqueCount].
  set (valid := filter (fun v => negb (isMissing v)) values).
  pose proof (filter_length isMissing values) as Hlen. fold valid in Hlen.
  unfold countIf.
  destruct (toSet_from valid []) as ((extra & Hr & Hle & Hin) & Hcov & Hdist).
  cbn [app] in Hr. fold (toSet valid) in Hr, Hcov, Hdist.
  assert (Hzero : length (toSet valid) = 0%nat <-> length valid = 0%nat).
  { split; intro H0.
    - destruct valid as [|v valid'] eqn:Ev; [reflexivity|].
      specialize (Hcov v (or_introl (or_introl eq_refl))).
      destruct (toSet (v :: valid')); [discriminate Hcov|discriminate H0].
    - rewrite Hr. lia. }
  split; [reflexivity|]. split; [lia|]. split; [lia|].
  split; [rewrite Hr; lia|]. split; [rewrite Hzero; lia|].
  exists (toSet valid). split; [reflexivity|]. split; [|split].
  - intros d Hd. rewrite Hr in Hd. rewrite Forall_forall in Hin.
    specialize (Hin d Hd). apply filter_In in Hin. destruct Hin as [Hv Hm].
    split; [exact Hv|]. apply negb_true_iff. exact Hm.
  - intros v Hv Hm. apply Hcov. left. apply filter_In. split; [exact Hv|].
    rewrite Hm. reflexivity.
  - apply Hdist. constructor.
Qed.

End ColumnFacts.

(** ** The mode of a column *)

Lemma sameValueZero_sym (a b : value) : sameValueZero a b = sameValueZero b a.
Proof.
  destruct a as [| |x|[x|]|x], b as [| |y|[y|]|y]; cbn; try reflexivity.
  - destruct x, y; reflexivity.
  - apply Qeq_bool_comm.
  - apply String.eqb_sym.
Qed.

Lemma sameValueZero_trans (a b c : value) :
  sameValueZero a b = true -> sameValueZero b c = true -> sameValueZero a c = true.
Proof.
  destruct a as [| |x|[x|]|x], b as [| |y|[y|]|y], c as [| |z|[z|]|z]; cbn;
    try congruence.
  - destruct x, y, z; cbn; congruence.
  - apply Qeq_bool_trans.
  - intros H1 H2. apply String.eqb_eq in H1, H2. subst. apply String.eqb_refl.
Qed.

Lemma sameValueZero_class (k v u : value) :
  sameValueZero k v = true -> sameValueZero v u = sameValueZero k u.
Proof.
  intro H. destruct (sameValueZero v u) eqn:E1, (sameValueZero k u) eqn:E2; try reflexivity.
  - rewrite (sameValueZero_trans _ _ _ H E1) in E2. discriminate.
  - rewrite sameValueZero_sym in H.
    rewrite (sameValueZero_trans _ _ _ H E2) in E1. discriminate.
Qed.

Lemma countIf_snoc (A : Type) (p : A -> bool) (l : list A) (a : A) :
  countIf p (l ++ [a]) = (countIf p l + (if p a then 1 else 0))%nat.
Proof.
  unfold countIf. rewrite filter_app, length_app. cbn. destruct (p a); reflexivity.
Qed.

(** What the counting map holds after the values [seen]: one entry per
    different value, keyed by its first occurrence, with the number of
    its occurrences. *)
Lemma bump_counts (seen : list value) :
  let m := fold_left bump seen [] in
  ForallOrdPairs (fun a b => sameValueZero (fst a) (fst b) = false) m /\
  (forall k c, In (k, c) m -> In k seen /\ c = countIf (sameValueZero k) seen) /\
  (forall v, In v seen -> exists k c, In (k, c) m /\ sameValueZero k v = true).
Proof.
  cbv zeta. induction seen as [|v seen IH] using rev_ind.
  - cbn. split; [constructor|]. split; [intros k c []|intros v []].
  - rewrite fold_left_app. cbn [fold_left].
    destruct IH as (Hd & Hc & Hr).
    set (m := fold_left bump seen []) in *.
    assert (Hex : (exists k c, In (k, c) m /\ sameValueZero k v = true) \/
                  (forall k c, In (k, c) m -> sameValueZero k v = false)).
    { clear. induction m as [|[k c] m IH]; [right; intros k c []|].
      destruct (sameValueZero k v) eqn:E.
      - left. exists k, c. split; [left; reflexivity|exact E].
      - destruct IH as [(k' & c' & Hin & Hk)|Hno].
        + left. exists k', c'. split; [right; exact Hin|exact Hk].
        + right. intros k' c' [Heq|Hin]; [congruence|eapply Hno, Hin]. }
    assert (Hb : forall m0,
               ForallOrdPairs (fun a b => sameValueZero (fst a) (fst b) = false) m0 ->
               ForallOrdPairs (fun a b => sameValueZero (fst a) (fst b) = false) (bump m0 v) /\
               (forall k c, In (k, c) (bump m0 v) ->
                  (In (k, (c - (if sameValueZero k v then 1 else 0))%nat) m0 /\
                   (sameValueZero k v = true -> (1 <= c)%nat) \/
                   (k = v /\ c = 1%nat /\
                    forall k' c', In (k', c') m0 -> sameValueZero k' v = false))) /\
               (forall k c, In (k, c) m0 ->
                  exists c', In (k, c') (bump m0 v))).
    { clear. induction m0 as [|[k c] m0 IH]; intro Hd.
      - cbn. split; [constructor; constructor|]. split.
        + intros k c [Heq|[]]. injection Heq as <- <-. right.
          split; [reflexivity|]. split; [reflexivity|]. intros k' c' [].
        + intros k c [].
      - inversion Hd as [|? ? Hk Hd']; subst. cbn [bump].
        destruct (sameValueZero k v) eqn:E.
        + split; [constructor; assumption|]. split.
          * intros k0 c0 [Heq|Hin].
            -- injection Heq as <- <-. left. rewrite E. split; [|lia].
               left. f_equal. lia.
            -- left. rewrite Forall_forall in Hk. specialize (Hk _ Hin). cbn in Hk.
               assert (Hk0 : sameValueZero k0 v = false).
               { destruct (sameValueZero k0 v) eqn:E0; [|reflexivity].
                 rewrite sameValueZero_sym in E0.
                 rewrite (sameValueZero_trans _ _ _ E E0) in Hk. discriminate. }
               rewrite Hk0, Nat.sub_0_r. split; [right; exact Hin|congruence].
          * intros k0 c0 [Heq|Hin].
            -- injection Heq as <- <-. exists (S c). left. reflexivity.
            -- exists c0. right. exact Hin.
        + destruct (IH Hd') as (Hd2 & Hc2 & Hr2). split; [|split].
          * constructor; [|exact Hd2].
            apply Forall_forall. intros [k0 c0] Hin. cbn.
            destruct (Hc2 _ _ Hin) as [[Hin0 _]|(-> & _ & _)]; [|exact E].
            rewrite Forall_forall in Hk. apply (Hk _ Hin0).
          * intros k0 c0 [Heq|Hin].
            -- injection Heq as <- <-. left. rewrite E, Nat.sub_0_r.
               split; [left; reflexivity|congruence].
            -- destruct (Hc2 _ _ Hin) as [[Hin0 Hpos]|(-> & -> & Hno)].
               ++ left. split; [right; exact Hin0|exact Hpos].
               ++ right. split; [reflexivity|]. split; [reflexivity|].
                  intros k' c' [Heq|Hin']; [congruence|eapply Hno, Hin'].
          * intros k0 c0 [Heq|Hin].
            -- injection Heq as <- <-. exists c. left. reflexivity.
            -- destruct (Hr2 _ _ Hin) as [c' Hc']. exists c'. right. exact Hc'. }
    destruct (Hb m Hd) as (Hd' & Hc' & Hr'). split; [exact Hd'|]. split.
    + intros k c Hin. rewrite countIf_snoc.
      destruct (Hc' _ _ Hin) as [[Hin0 Hpos]|(-> & -> & Hno)].
      * destruct (Hc _ _ Hin0) as [Hk Hcount].
        split; [apply in_or_app; left; exact Hk|].
        destruct (sameValueZero k v); [specialize (Hpos eq_refl)|]; lia.
      * split; [apply in_or_app; right; left; reflexivity|].
        rewrite sameValueZero_refl.
        assert (H0 : countIf (sameValueZero v) seen = 0%nat).
        { unfold countIf. apply length_zero_iff_nil.
          destruct (filter (sameValueZero v) seen) as [|u us] eqn:Ef; [reflexivity|].
          assert (Hu : In u (filter (sameValueZero v) seen)) by (rewrite Ef; left; reflexivity).
          apply filter_In in Hu. destruct Hu as [Hu Hvu].
          destruct (Hr _ Hu) as (k & c & Hkin & Hku).
          specialize (Hno _ _ Hkin).
          rewrite sameValueZero_sym in Hvu.
          rewrite (sameValueZero_trans _ _ _ Hku Hvu) in Hno. discriminate. }
        lia.
    + intros u Hu. apply in_app_or in Hu. destruct Hu as [Hu|[<-|[]]].
      * destruct (Hr _ Hu) as (k & c & Hin & Hk).
        destruct (Hr' _ _ Hin) as [c' Hc2]. exists k, c'. split; assumption.
      * destruct Hex as [(k & c & Hin & Hk)|Hno].
        -- destruct (Hr' _ _ Hin) as [c' Hc2]. exists k, c'. split; assumption.
        -- clear - Hno. induction m as [|[k c] m IH].
           ++ exists v, 1%nat. split; [left; reflexivity|apply sameValueZero_refl].
           ++ cbn [bump]. rewrite (Hno k c (or_introl eq_refl)).
              destruct IH as (k' & c' & Hin & Hk); [intros; eapply Hno; right; eassumption|].
              exists k', c'. split; [right; exact Hin|exact Hk].
Qed.

Lemma mode_fold (m : list (value * nat)) (c0 : nat) (v0 : value) :
  let r := fold_left (fun '(maxCount, md) '(value_, c) =>
                        if (maxCount <? c)%nat then (c, value_) else (maxCount, md))
                     m (c0, v0) in
  (c0 <= fst r)%nat /\
  (forall k c, In (k, c) m -> (c <= fst r)%nat) /\
  (r = (c0, v0) /\ (forall k c, In (k, c) m -> (c <= c0)%nat) \/ In (snd r, fst r) m).
Proof.
  cbv zeta. revert c0 v0. induction m as [|[k c] m IH]; intros c0 v0.
  - cbn. split; [lia|]. split; [intros k c []|left; split; [reflexivity|intros k c []]].
  - cbn [fold_left]. destruct (Nat.ltb_spec c0 c) as [Hlt|Hge].
    + destruct (IH c k) as (H1 & H2 & H3). split; [lia|]. split.
      * intros k' c' [Heq|Hin]; [injection Heq as <- <-; exact H1|eapply H2, Hin].
      * right. destruct H3 as [[-> _]|Hin]; [left; reflexivity|right; exact Hin].
    + destruct (IH c0 v0) as (H1 & H2 & H3). split; [exact H1|]. split.
      * intros k' c' [Heq|Hin]; [injection Heq as <- <-; lia|eapply H2, Hin].
      * destruct H3 as [[-> Hall]|Hin]; [left|right; right; exact Hin].
        split; [reflexivity|].
        intros k' c' [Heq|Hin]; [injection Heq as <- <-; exact Hge|eapply Hall, Hin].
Qed.

Section ModeFacts.
Variable parseNumber : string -> option Q.
Variable Msqrt : Q -> Q.

(** [mode] is [null] when every cell is missing.  Otherwise it is a value
    of the column that is not missing and that no other value outnumbers:
    it occurs at least as often as every value of the column. *)
Theorem analyzeColumn_mode (columnName : string) (values : list value)
    (type_ : ColumnType) :
  let stats := analyzeColumn parseNumber Msqrt columnName values type_ in
  let valid := filter (fun v => negb (isMissing v)) values in
  (valid = [] -> mode stats = VNull) /\
  (valid <> [] ->
     In (mode stats) values /\ isMissing (mode stats) = false /\
     forall v, In v valid ->
       (countIf (sameValueZero v) valid <= countIf (sameValueZero (mode stats)) valid)%nat).
Proof.
  cbv zeta. unfold analyzeColumn. cbv zeta.
  set (valid := filter (fun v => negb (isMissing v)) values).
  destruct (bump_counts valid) as (_ & Hc & Hr).
  destruct (mode_fold (fold_left bump valid []) 0 VNull) as (_ & Hmax & Hsrc).
  destruct (fold_left _ (fold_left bump valid []) (0%nat, VNull)) as [maxCount mode_].
  cbn [mode]. cbn [fst snd] in Hmax, Hsrc. split.
  - intro Hv. rewrite Hv in Hsrc. cbn in Hsrc.
    destruct Hsrc as [[Heq _]|[]]. congruence.
  - intro Hne.
    assert (Hin : In (mode_, maxCount) (fold_left bump valid [])).
    { destruct Hsrc as [[_ Hall]|Hin]; [|exact Hin]. exfalso.
      destruct valid as [|v valid'] eqn:Ev; [congruence|].
      destruct (Hr v (or_introl eq_refl)) as (k & c & Hkin & Hk).
      destruct (Hc _ _ Hkin) as [_ Hcount]. specialize (Hall _ _ Hkin).
      assert (Hpos : (1 <= countIf (sameValueZero k) (v :: valid'))%nat)
        by (unfold countIf; cbn [filter]; rewrite Hk; cbn; lia).
      lia. }
    destruct (Hc _ _ Hin) as [Hmode Hcount].
    apply filter_In in Hmode. destruct Hmode as [Hmode Hvalid].
    split; [exact Hmode|]. split; [apply negb_true_iff, Hvalid|].
    intros v Hv. destruct (Hr v Hv) as (k & c & Hkin & Hk).
    destruct (Hc _ _ Hkin) as [_ Hkc]. specialize (Hmax _ _ Hkin).
    assert (Heq : countIf (sameValueZero v) valid = countIf (sameValueZero k) valid).
    { unfold countIf. f_equal. apply filter_ext. intro u.
      apply sameValueZero_class, Hk. }
    lia.
Qed.
End ModeFacts.

(** ** The quality score and the runs of [generateInsights] *)

Import App AnalysisReference.

Lemma quality_fold (statistics : Record_ ColumnStats) (cols : list ColumnInfo) (a : nat) :
  fold_left (fun acc col =>
               match acc, lookup statistics (name col) with
               | Some missingCells, Some st => Some (missingCells + nullCount st)%nat
               | _, _ => None
               end) cols (Some a)
  = if forallb (fun col => match lookup statistics (name col) with
                           | Some _ => true
                           | None => false
                           end) cols
    then Some (a + missingCells statistics cols)%nat
    else None.
Proof.
  revert a. induction cols as [|col cols IH]; intro a.
  - cbn. rewrite Nat.add_0_r. reflexivity.
  - cbn [fold_left forallb]. unfold missingCells. cbn [map list_sum].
    destruct (lookup statistics (name col)) as [st|].
    + rewrite IH. cbn [andb]. unfold missingCells.
      destruct (forallb _ cols); [f_equal; unfold list_sum; cbn [fold_right]; lia|reflexivity].
    + cbn [andb]. clear. induction cols as [|c cols IH]; [reflexivity|].
      cbn [fold_left]. exact IH.
Qed.

Lemma all_have_stats (statistics : Record_ ColumnStats) (cols : list ColumnInfo) :
  forallb (fun col => match lookup statistics (name col) with
                      | Some _ => true
                      | None => false
                      end) cols = false
  <-> exists col, In col cols /\ lookup statistics (name col) = None.
Proof.
  induction cols as [|c cols IH]; cbn [forallb].
  - split; [discriminate|intros (col & [] & _)].
  - destruct (lookup statistics (name c)) as [st|] eqn:E; cbn [andb].
    + rewrite IH. split.
      * intros (col & Hin & Hc). exists col. split; [right; exact Hin|exact Hc].
      * intros (col & [<-|Hin] & Hc); [congruence|]. exists col. split; assumption.
    + split; [|reflexivity]. intros _. exists c. split; [left; reflexivity|exact E].
Qed.

Lemma calculateDataQuality_unfold (data : list (Record_ value))
    (columnInfo : list ColumnInfo) (statistics : Record_ ColumnStats) :
  calculateDataQuality data columnInfo statistics
  = if forallb (fun col => match lookup statistics (name col) with
                           | Some _ => true
                           | None => false
                           end) columnInfo
    then Some (js_round
                 (js_mul (js_div (ofNat (length data * length columnInfo)
                                  - ofNat (missingCells statistics columnInfo))
                                 (ofNat (length data * length columnInfo)))
                         (Fin 100)))
    else None.
Proof.
  unfold calculateDataQuality. cbv zeta. rewrite quality_fold.
  destruct (forallb _ columnInfo); reflexivity.
Qed.

Lemma ofNat_zero (n : nat) : Qeq_bool (ofNat n) 0 = true <-> n = 0%nat.
Proof.
  rewrite Qeq_bool_iff. unfold ofNat, Qeq. cbn. lia.
Qed.

Lemma score_range (t m : nat) :
  (0 < t)%nat -> (m <= t)%nat ->
  exists z,
    js_round (js_mul (js_div (ofNat t - ofNat m) (ofNat t)) (Fin 100)) = Fin (inject_Z z) /\
    (0 <= z <= 100)%Z /\ (m = 0%nat -> z = 100%Z) /\ (m = t -> z = 0%Z).
Proof.
  intros Ht Hm. unfold js_div.
  destruct (Qeq_bool (ofNat t) 0) eqn:E; [apply ofNat_zero in E; lia|].
  cbn [js_mul js_round].
  exists (Qfloor ((ofNat t - ofNat m) / ofNat t * 100 + 0.5)).
  split; [reflexivity|].
  assert (Hpos : 0 < ofNat t) by (apply positive_count, Ht).
  assert (Hmq : ofNat m <= ofNat t) by (apply ofNat_le, Hm).
  pose proof (ofNat_nonneg m) as Hm0.
  assert (Hx0 : 0 <= (ofNat t - ofNat m) / ofNat t).
  { apply Qle_shift_div_l; [exact Hpos|]. lra. }
  assert (Hx1 : (ofNat t - ofNat m) / ofNat t <= 1).
  { apply Qle_shift_div_r; [exact Hpos|]. lra. }
  split; [split|split].
  - change 0%Z with (Qfloor 0). apply Qfloor_resp_le. lra.
  - apply Z.le_trans with (Qfloor 100.5); [apply Qfloor_resp_le; lra|].
    vm_compute. discriminate.
  - intro H0. rewrite H0.
    assert (Hone : (ofNat t - ofNat 0) / ofNat t * 100 + 0.5 == 100.5).
    { change (ofNat 0) with 0. field. lra. }
    rewrite Hone. reflexivity.
  - intro H0. rewrite H0.
    assert (Hnone : (ofNat t - ofNat t) / ofNat t * 100 + 0.5 == 0.5).
    { field. lra. }
    rewrite Hnone. reflexivity.
Qed.


Section InsightRuns.
Variable parseNumber : string -> option Q.
Variable parsesAsDate : value -> bool.
Variable Msqrt : Q -> Q.
Variable showNumber : jsnum -> string.
Variable toFixed : jsnum -> nat -> string.

Lemma string_columns_run (data : list (Record_ value)) (statistics : Record_ ColumnStats)
    (cols : list ColumnInfo) :
  (forall col, In col cols -> lookup statistics (name col) <> None) ->
  exists strings,
    forEachOpt (stringColumnInsights showNumber data statistics) cols = Some strings.
Proof.
  induction cols as [|c cols IH]; intro Hall; [exists []; reflexivity|].
  destruct IH as [rest Hrest]; [intros col Hin; apply Hall; right; exact Hin|].
  cbn [forEachOpt]. unfold stringColumnInsights at 1.
  destruct (lookup statistics (name c)) as [st|] eqn:E;
    [|exfalso; apply (Hall c); [left; reflexivity|exact E]].
  rewrite Hrest. eexists. reflexivity.
Qed.


Lemma analyzeColumn_nullCount_le (columnName : string) (values : list value)
    (type_ : ColumnType) :
  (nullCount (analyzeColumn parseNumber Msqrt columnName values type_) <= length values)%nat.
Proof.
  unfold analyzeColumn. cbv zeta.
  destruct (fold_left _ (fold_left bump _ []) (0%nat, VNull)) as [maxCount mode_].
  cbn [nullCount]. lia.
Qed.

Lemma stats_lookup (A : Type) (f : A -> string) (g : A -> ColumnStats)
    (G : string -> ColumnStats) (cols : list A) (acc : Record_ ColumnStats) (k : string) :
  (forall col, In col cols -> g col = G (f col)) ->
  lookup (fold_left (fun stats_ col => Csv.assign stats_ (f col) (g col)) cols acc) k
  = if existsb (fun col => String.eqb (f col) k) cols then Some (G k) else lookup acc k.
Proof.
  revert acc. induction cols as [|c cols IH]; intros acc Hg; [reflexivity|].
  cbn [fold_left existsb]. rewrite IH by (intros col Hin; apply Hg; right; exact Hin).
  destruct (existsb _ cols); [rewrite orb_true_r; reflexivity|].
  rewrite orb_false_r, lookup_assign.
  destruct (String.eqb_spec (f c) k) as [<-|_]; [|reflexivity].
  rewrite Hg by (left; reflexivity). reflexivity.
Qed.

Lemma missing_le (statistics : Record_ ColumnStats) (cols : list ColumnInfo) (n : nat) :
  (forall col st, In col cols -> lookup statistics (name col) = Some st ->
                  (nullCount st <= n)%nat) ->
  (missingCells statistics cols <= n * length cols)%nat.
Proof.
  induction cols as [|c cols IH]; intro H; [cbn; lia|].
  unfold missingCells in *. cbn [map length]. unfold list_sum in *. cbn [fold_right].
  specialize (IH (fun col st Hin => H col st (or_intror Hin))).
  pose proof (H c) as Hc. destruct (lookup statistics (name c)) as [st|].
  - specialize (Hc st (or_introl eq_refl) eq_refl). lia.
  - lia.
Qed.

Lemma handleDataUploaded_unfold (columns : list string)
    (uploadedData : list (Record_ value)) :
  uploadedData <> [] ->
  handleDataUploaded parseNumber parsesAsDate Msqrt showNumber toFixed columns uploadedData
  = let colInfo_ :=
      map (fun colName =>
             {| name := colName;
                type := detectColumnType parseNumber parsesAsDate
                          (columnValues uploadedData colName);
                nullable := (0 <? length (filter isMissing
                                            (columnValues uploadedData colName)))%nat |})
          columns in
    let stats_ :=
      fold_left (fun stats_ col =>
                   Csv.assign stats_ (name col)
                     (analyzeColumn parseNumber Msqrt (name col)
                        (columnValues uploadedData (name col)) (type col)))
                colInfo_ [] in
    match generateInsights parseNumber Msqrt showNumber toFixed
                           uploadedData colInfo_ stats_ with
    | None => None
    | Some insights =>
        Some {| colInfo := colInfo_; stats := stats_; generatedInsights := insights |}
    end.
Proof.
  destruct uploadedData; [congruence|reflexivity].
Qed.

(** The analysis run on an upload throws on an empty dataset.  On any
    other it returns: [generateInsights] finds an entry for every column,
    each column's entry is [analyzeColumn] on its cells with the type
    [detectColumnType] inferred, a column is [nullable] exactly when one
    of its cells is missing, and with at least one column the quality
    score is a whole number between 0 and 100. *)
Theorem handleDataUploaded_returns (columns : list string)
    (uploadedData : list (Record_ value)) :
  handleDataUploaded parseNumber parsesAsDate Msqrt showNumber toFixed columns [] = None /\
  (uploadedData <> [] ->
   exists analysis,
     handleDataUploaded parseNumber parsesAsDate Msqrt showNumber toFixed
                        columns uploadedData = Some analysis /\
     map name (colInfo analysis) = columns /\
     (forall col, In col (colInfo analysis) ->
        type col = detectColumnType parseNumber parsesAsDate
                     (columnValues uploadedData (name col)) /\
        lookup (stats analysis) (name col)
        = Some (analyzeColumn parseNumber Msqrt (name col)
                  (columnValues uploadedData (name col)) (type col)) /\
        (nullable col = true
         <-> exists v, In v (columnValues uploadedData (name col)) /\ isMissing v = true)) /\
     (columns <> [] ->
      exists z, calculateDataQuality uploadedData (colInfo analysis) (stats analysis)
                = Some (Fin (inject_Z z)) /\ (0 <= z <= 100)%Z)).
Proof.
  split; [reflexivity|]. intro Hne.
  rewrite handleDataUploaded_unfold by exact Hne. cbv zeta.
  set (mk := fun colName =>
               {| name := colName;
                  type := detectColumnType parseNumber parsesAsDate
                            (columnValues uploadedData colName);
                  nullable := (0 <? length (filter isMissing
                                              (columnValues uploadedData colName)))%nat |}).
  set (infos := map mk columns).
  set (G := fun k => analyzeColumn parseNumber Msqrt k (columnValues uploadedData k)
                       (detectColumnType parseNumber parsesAsDate
                          (columnValues uploadedData k))).
  set (table := fold_left
                  (fun stats_ col =>
                     Csv.assign stats_ (name col)
                       (analyzeColumn parseNumber Msqrt (name col)
                          (columnValues uploadedData (name col)) (type col)))
                  infos []).
  assert (Hcol : forall col, In col infos -> col = mk (name col)).
  { intros col Hin. apply in_map_iff in Hin. destruct Hin as (c & <- & _). reflexivity. }
  assert (Hlook : forall col, In col infos -> lookup table (name col) = Some (G (name col))).
  { intros col Hin. unfold table.
    rewrite (@stats_lookup _ name
               (fun col => analyzeColumn parseNumber Msqrt (name col)
                             (columnValues uploadedData (name col)) (type col))
               G infos [] (name col)).
    - replace (existsb (fun c => String.eqb (name c) (name col)) infos) with true;
        [reflexivity|].
      symmetry. apply existsb_exists. exists col. split; [exact Hin|apply String.eqb_refl].
    - intros c Hc. rewrite (Hcol c Hc). reflexivity. }
  destruct (generateInsights parseNumber Msqrt showNumber toFixed uploadedData infos table)
    as [insights|] eqn:Eins.
  - eexists. split; [reflexivity|]. cbn [colInfo stats].
    split; [unfold infos; rewrite map_map; apply map_id|]. split.
    + intros col Hin. rewrite (Hlook col Hin).
      pose proof (Hcol col Hin) as E. destruct col as [nm ty nl].
      cbn [name type nullable] in *. unfold mk in E. injection E as Ety Enl.
      split; [exact Ety|]. split; [unfold G; rewrite <- Ety; reflexivity|].
      rewrite Enl, Nat.ltb_lt. clear Ety Enl Hin. split.
      * intro Hpos. destruct (filter isMissing (columnValues uploadedData nm))
          as [|v vs] eqn:Ef; [cbn in Hpos; lia|].
        assert (Hv : In v (filter isMissing (columnValues uploadedData nm)))
          by (rewrite Ef; left; reflexivity).
        apply filter_In in Hv. exists v. exact Hv.
      * intros (v & Hv & Hm).
        assert (Hf : In v (filter isMissing (columnValues uploadedData nm)))
          by (apply filter_In; split; assumption).
        destruct (filter isMissing (columnValues uploadedData nm));
          [destruct Hf|cbn; lia].
    + intro Hcols. rewrite calculateDataQuality_unfold.
      replace (forallb _ infos) with true.
      * destruct (@score_range (length uploadedData * length infos)
                    (missingCells table infos)) as (z & Hz & Hr & _).
        -- unfold infos. rewrite length_map.
           destruct uploadedData; [congruence|]. destruct columns; [congruence|]. cbn. lia.
        -- apply missing_le. intros col st Hin Hst.
           rewrite (Hlook col Hin) in Hst. injection Hst as <-. unfold G.
           eapply Nat.le_trans; [apply analyzeColumn_nullCount_le|].
           unfold columnValues. rewrite length_map. lia.
        -- exists z. split; [rewrite Hz; reflexivity|exact Hr].
      * symmetry. apply forallb_forall. intros col Hin. rewrite (Hlook col Hin). reflexivity.
  - exfalso.
    assert (Hex : exists col, In col infos /\ lookup table (name col) = None).
    { unfold generateInsights in Eins. cbv zeta in Eins.
      rewrite calculateDataQuality_unfold in Eins.
      destruct (forallb _ infos) eqn:Eall.
      - destruct (@string_columns_run uploadedData table (filter isStringColumn infos))
          as [strings Hs].
        + intros col Hin. apply filter_In in Hin. rewrite (Hlook col (proj1 Hin)). discriminate.
        + rewrite Hs in Eins. discriminate.
      - apply all_have_stats, Eall. }
    destruct Hex as (col & Hin & Hnone). rewrite (Hlook col Hin) in Hnone. discriminate.
Qed.
End InsightRuns.

(** ** Correlations between columns *)

Lemma correlation_shape (Msqrt : Q -> Q) (x y : list Q) :
  ((exists r, calculateCorrelation Msqrt x y = Fin r) \/
   calculateCorrelation Msqrt x y = NaN) /\
  (length x <> length y -> calculateCorrelation Msqrt x y = Fin 0).
Proof.
  unfold calculateCorrelation.
  destruct (Nat.eqb_spec (length x) (length y)) as [E|E]; cbn [negb orb].
  - split; [|congruence].
    destruct (length x =? 0)%nat; [left; exists 0; reflexivity|].
    cbv zeta. unfold js_sqrt. destruct (Qltb _ 0); [right; reflexivity|].
    left. destruct (Qeq_bool (Msqrt _) 0) eqn:Ed; [exists 0; reflexivity|].
    unfold js_div. rewrite Ed. eexists. reflexivity.
  - split; [left; exists 0; reflexivity|reflexivity].
Qed.

Lemma pairs_order (A : Type) (l : list A) (a b : A) :
  In (a, b) (pairs l) <-> exists l1 l2 l3, l = l1 ++ a :: l2 ++ b :: l3.
Proof.
  induction l as [|x l IH]; cbn [pairs].
  - split; [intros []|]. intros (l1 & l2 & l3 & E). destruct l1; discriminate.
  - rewrite in_app_iff, IH, in_map_iff. split.
    + intros [(b' & Heq & Hin)|(l1 & l2 & l3 & ->)].
      * injection Heq as <- <-. apply in_split in Hin. destruct Hin as (l2 & l3 & ->).
        exists [], l2, l3. reflexivity.
      * exists (x :: l1), l2, l3. reflexivity.
    + intros (l1 & l2 & l3 & E). destruct l1 as [|x' l1]; cbn in E.
      * injection E as <- ->. left. exists b. split; [reflexivity|].
        apply in_or_app. right. left. reflexivity.
      * injection E as _ ->. right. exists l1, l2, l3. reflexivity.
Qed.

Section SortByKey.
Variable A : Type.
Variable cmp : A -> A -> jsnum.
Variable key : A -> Q.
Variable P : A -> Prop.
Hypothesis cmp_key :
  forall a b, P a -> P b -> js_le0 (cmp a b) = Qle_bool (key b) (key a).

Lemma insert_by_key (x : A) (l : list A) :
  P x -> Forall P l ->
  StronglySorted (fun a b => key b <= key a) l ->
  StronglySorted (fun a b => key b <= key a) (insert cmp x l).
Proof.
  intros Hx Hl Hs. induction Hs as [|y l Hs IH Hy]; cbn [insert].
  - constructor; constructor.
  - inversion Hl as [|? ? Py Pl]; subst.
    rewrite (cmp_key Hx Py). destruct (Qle_bool (key y) (key x)) eqn:E.
    + apply Qle_bool_iff in E. constructor; [constructor; assumption|].
      constructor; [exact E|].
      eapply Forall_impl; [|exact Hy]. cbn. intros z Hz. eapply Qle_trans; eassumption.
    + assert (Hlt : key x <= key y).
      { destruct (Qlt_le_dec (key x) (key y)) as [H|H]; [apply Qlt_le_weak, H|].
        apply Qle_bool_iff in H. congruence. }
      constructor; [apply IH, Pl|].
      apply Forall_forall. intros z Hz.
      apply (Permutation_in _ (Permutation_sym (insert_perm cmp x l))) in Hz.
      destruct Hz as [<-|Hz]; [exact Hlt|].
      rewrite Forall_forall in Hy. apply Hy, Hz.
Qed.

Lemma sort_by_key (l : list A) :
  Forall P l -> StronglySorted (fun a b => key b <= key a) (sort cmp l).
Proof.
  induction 1 as [|x l Hx Hl IH]; cbn [sort]; [constructor|].
  apply insert_by_key; [exact Hx| |exact IH].
  apply Forall_forall. intros z Hz.
  apply (Permutation_in _ (Permutation_sym (sort_perm cmp l))) in Hz.
  rewrite Forall_forall in Hl. apply Hl, Hz.
Qed.
End SortByKey.

Section CorrelationFacts.
Variable parseNumber : string -> option Q.
Variable Msqrt : Q -> Q.
Variable showNumber : jsnum -> string.
Variable toFixed : jsnum -> nat -> string.

Lemma found_unsorted (data : list (Record_ value)) (cols : list ColumnInfo) (c : Corr) :
  In c (flat_map
          (fun '(c1, c2) =>
             let values1 := columnNumbers parseNumber data (name c1) in
             let values2 := columnNumbers parseNumber data (name c2) in
             if (2 <? length values1)%nat && (2 <? length values2)%nat then
               let correlation_ := calculateCorrelation Msqrt values1 values2 in
               if js_gt (js_abs correlation_) 0.5
               then [{| col1 := name c1; col2 := name c2; cvalue := correlation_ |}]
               else []
             else [])
          (pairs cols))
  <-> exists l1 c1 l2 c2 l3 r,
        cols = l1 ++ c1 :: l2 ++ c2 :: l3 /\
        c = {| col1 := name c1; col2 := name c2; cvalue := Fin r |} /\
        calculateCorrelation Msqrt (columnNumbers parseNumber data (name c1))
                                   (columnNumbers parseNumber data (name c2)) = Fin r /\
        0.5 < Qabs r /\
        (2 < length (columnNumbers parseNumber data (name c1)))%nat /\
        length (columnNumbers parseNumber data (name c1))
        = length (columnNumbers parseNumber data (name c2)).
Proof.
  rewrite in_flat_map. split.
  - intros ([c1 c2] & Hp & Hin). cbv zeta in Hin.
    destruct (Nat.ltb_spec 2 (length (columnNumbers parseNumber data (name c1))))
      as [H1|H1]; [|destruct Hin].
    destruct (Nat.ltb_spec 2 (length (columnNumbers parseNumber data (name c2))))
      as [H2|H2]; [|destruct Hin]. cbn [andb] in Hin.
    destruct (correlation_shape Msqrt (columnNumbers parseNumber data (name c1))
                (columnNumbers parseNumber data (name c2))) as [Hshape Hlen].
    destruct Hshape as [[r Hr]|Hnan];
      [|rewrite Hnan in Hin; cbn in Hin; destruct Hin].
    rewrite Hr in Hin. cbn [js_abs js_gt] in Hin.
    destruct (Qltb 0.5 (Qabs r)) eqn:Hgt; [|destruct Hin].
    destruct Hin as [<-|[]]. apply Qltb_lt in Hgt.
    apply pairs_order in Hp. destruct Hp as (l1 & l2 & l3 & ->).
    exists l1, c1, l2, c2, l3, r. repeat split; try assumption.
    destruct (Nat.eq_dec (length (columnNumbers parseNumber data (name c1)))
                (length (columnNumbers parseNumber data (name c2)))) as [E|E]; [exact E|].
    rewrite (Hlen E) in Hr. injection Hr as <-. exfalso.
    revert Hgt. cbn. unfold Qlt. cbn. lia.
  - intros (l1 & c1 & l2 & c2 & l3 & r & -> & -> & Hr & Hgt & H1 & Hlen).
    exists (c1, c2). split; [apply pairs_order; exists l1, l2, l3; reflexivity|].
    cbv zeta. rewrite <- Hlen.
    replace (2 <? length (columnNumbers parseNumber data (name c1)))%nat with true
      by (symmetry; apply Nat.ltb_lt, H1).
    cbn [andb]. rewrite Hr. cbn [js_abs js_gt].
    apply Qltb_lt in Hgt. rewrite Hgt. left. reflexivity.
Qed.

Lemma found_sorted (data : list (Record_ value)) (cols : list ColumnInfo) (c : Corr) :
  In c (findCorrelations parseNumber Msqrt data cols)
  <-> exists l1 c1 l2 c2 l3 r,
        cols = l1 ++ c1 :: l2 ++ c2 :: l3 /\
        c = {| col1 := name c1; col2 := name c2; cvalue := Fin r |} /\
        calculateCorrelation Msqrt (columnNumbers parseNumber data (name c1))
                                   (columnNumbers parseNumber data (name c2)) = Fin r /\
        0.5 < Qabs r /\
        (2 < length (columnNumbers parseNumber data (name c1)))%nat /\
        length (columnNumbers parseNumber data (name c1))
        = length (columnNumbers parseNumber data (name c2)).
Proof.
  rewrite <- found_unsorted. unfold findCorrelations. cbv zeta. split; intro H.
  - eapply Permutation_in; [apply Permutation_sym, sort_perm|exact H].
  - eapply Permutation_in; [apply sort_perm|exact H].
Qed.

(** [findCorrelations] reports exactly the pairs of columns, the first
    before the second in the given order, that both hold more than two
    numeric values, the same number of them, and whose correlation is a
    number of absolute value above 0.5; columns whose numbers of numeric
    values differ are never reported.  The pairs come strongest first. *)
Theorem findCorrelations_pairs (data : list (Record_ value)) (cols : list ColumnInfo) :
  StronglySorted (fun a b => strength b <= strength a)
                 (findCorrelations parseNumber Msqrt data cols) /\
  (forall c,
     In c (findCorrelations parseNumber Msqrt data cols)
     <-> exists l1 c1 l2 c2 l3 r,
           cols = l1 ++ c1 :: l2 ++ c2 :: l3 /\
           c = {| col1 := name c1; col2 := name c2; cvalue := Fin r |} /\
           calculateCorrelation Msqrt (columnNumbers parseNumber data (name c1))
                                      (columnNumbers parseNumber data (name c2)) = Fin r /\
           0.5 < Qabs r /\
           (2 < length (columnNumbers parseNumber data (name c1)))%nat /\
           length (columnNumbers parseNumber data (name c1))
           = length (columnNumbers parseNumber data (name c2))).
Proof.
  split.
  - unfold findCorrelations. cbv zeta. apply (@sort_by_key _ _ strength (fun c => exists r, cvalue c = Fin r)).
    + intros a b [ra Ha] [rb Hb]. unfold strength. rewrite Ha, Hb. cbn.
      destruct (Qle_bool (Qabs rb - Qabs ra) 0) eqn:E1,
               (Qle_bool (Qabs rb) (Qabs ra)) eqn:E2; try reflexivity.
      * apply Qle_bool_iff in E1.
        assert (Qabs rb <= Qabs ra) by lra. apply Qle_bool_iff in H. congruence.
      * apply Qle_bool_iff in E2.
        assert (Qabs rb - Qabs ra <= 0) by lra. apply Qle_bool_iff in H. congruence.
    + apply Forall_forall. intros c Hc. apply found_unsorted in Hc.
      destruct Hc as (_ & c1 & _ & c2 & _ & r & _ & -> & _). exists r. reflexivity.
  - intro c. apply found_sorted.
Qed.
End CorrelationFacts.

(** ** Correlation insights *)

Section CorrelationInsights.
Variable parseNumber : string -> option Q.
Variable Msqrt : Q -> Q.
Variable showNumber : jsnum -> string.
Variable toFixed : jsnum -> nat -> string.

Lemma numeric_insight_kind (data : list (Record_ value)) (statistics : Record_ ColumnStats)
    (col : ColumnInfo) (i : Insight) :
  In i (numericColumnInsights parseNumber showNumber toFixed data statistics col) ->
  itype i <> correlation.
Proof.
  unfold numericColumnInsights, variabilityInsights, missingDataInsights. cbv zeta.
  intro H.
  repeat match goal with
         | H : In _ (_ ++ _) |- _ => apply in_app_or in H; destruct H as [H|H]
         | H : In _ (match ?t with _ => _ end) |- _ => destruct t
         | H : In _ [] |- _ => destruct H
         | H : In _ [_] |- _ => destruct H as [<-|[]]
         end; cbn; discriminate.
Qed.

Lemma correlationInsight_shape (c : Corr) (i : Insight) :
  In i (correlationInsight toFixed c) <->
  (exists r, cvalue c = Fin r /\ 0.7 < Qabs r /\
            i = {| itype := correlation;
                   title := ("Strong " ++ (if Qltb 0 r then "Positive" else "Negative")
                             ++ " Correlation Found")%string;
                   description :=
                     (quote ++ col1 c ++ quote ++ " and " ++ quote ++ col2 c ++ quote
                      ++ " are " ++ (if Qltb 0 r then "strongly related"
                                     else "inversely related")
                      ++ " (r = " ++ toFixed (Fin r) 2 ++ "). "
                      ++ (if Qltb 0 r then "As one increases, the other tends to increase."
                          else "As one increases, the other tends to decrease."))%string;
                   severity := if Qltb 0.9 (Qabs r) then high else medium |}) \/
  (exists s, cvalue c = Inf s /\
            i = {| itype := correlation;
                   title := ("Strong " ++ (if negb s then "Positive" else "Negative")
                             ++ " Correlation Found")%string;
                   description :=
                     (quote ++ col1 c ++ quote ++ " and " ++ quote ++ col2 c ++ quote
                      ++ " are " ++ (if negb s then "strongly related"
                                     else "inversely related")
                      ++ " (r = " ++ toFixed (Inf s) 2 ++ "). "
                      ++ (if negb s then "As one increases, the other tends to increase."
                          else "As one increases, the other tends to decrease."))%string;
                   severity := high |}).
Proof.
  unfold correlationInsight. cbv zeta. destruct (cvalue c) as [r| |s]; cbn [js_abs js_gt].
  - destruct (Qltb 0.7 (Qabs r)) eqn:E.
    + apply Qltb_lt in E. split.
      * intros [<-|[]]. left. exists r. repeat split. exact E.
      * intros [(r' & Hr & _ & ->)|(s & Hs & _)]; [|discriminate].
        injection Hr as <-. left. reflexivity.
    + split; [intros []|].
      intros [(r' & Hr & Hgt & _)|(s & Hs & _)]; [|discriminate].
      injection Hr as <-. apply Qltb_lt in Hgt. congruence.
  - split; [intros []|]. intros [(r & Hr & _)|(s & Hs & _)]; discriminate.
  - cbn [negb]. split.
    + intros [<-|[]]. right. exists s. split; reflexivity.
    + intros [(r & Hr & _)|(s' & Hs & ->)]; [discriminate|].
      injection Hs as <-. left. reflexivity.
Qed.

(** The correlation insights of a run are exactly those of the pairs that
    [findCorrelations] reports with a correlation of absolute value above
    0.7: a pair found with a correlation between 0.5 and 0.7 gives no
    insight.  The title says Positive or Negative after the sign, and
    the severity is high above 0.9 and medium otherwise. *)
Theorem correlation_insights (data : list (Record_ value))
    (columnInfo : list ColumnInfo) (statistics : Record_ ColumnStats)
    (insights : list Insight) :
  generateInsights parseNumber Msqrt showNumber toFixed data columnInfo statistics
  = Some insights ->
  forall i,
    (In i insights /\ itype i = correlation)
    <-> exists c r,
          In c (findCorrelations parseNumber Msqrt data (filter isNumberColumn columnInfo)) /\
          cvalue c = Fin r /\ 0.7 < Qabs r /\
          i = {| itype := correlation;
                 title := ("Strong " ++ (if Qltb 0 r then "Positive" else "Negative")
                           ++ " Correlation Found")%string;
                 description :=
                   (quote ++ col1 c ++ quote ++ " and " ++ quote ++ col2 c ++ quote
                    ++ " are " ++ (if Qltb 0 r then "strongly related"
                                   else "inversely related")
                    ++ " (r = " ++ toFixed (Fin r) 2 ++ "). "
                    ++ (if Qltb 0 r then "As one increases, the other tends to increase."
                        else "As one increases, the other tends to decrease."))%string;
                 severity := if Qltb 0.9 (Qabs r) then high else medium |}.
Proof.
  intros H i.
  destruct (generateInsights_shape _ _ _ _ _ _ _ H) as (first & strings & Hf & Hs & ->).
  set (numeric := filter isNumberColumn columnInfo).
  assert (Hfinite : forall c, In c (findCorrelations parseNumber Msqrt data numeric) ->
                              exists r, cvalue c = Fin r /\ (2 <= length numeric)%nat).
  { intros c Hc. apply found_sorted in Hc.
    destruct Hc as (l1 & c1 & l2 & c2 & l3 & r & E & -> & _).
    exists r. split; [reflexivity|]. rewrite E, !length_app. cbn. rewrite length_app. cbn. lia. }
  split.
  - intros [Hin Hty]. destruct Hin as [<-|Hin]; [congruence|].
    apply in_app_or in Hin. destruct Hin as [Hin|Hin].
    { apply in_flat_map in Hin. destruct Hin as (col & _ & Hin).
      apply numeric_insight_kind in Hin. contradiction. }
    apply in_app_or in Hin. destruct Hin as [Hin|Hin].
    + destruct (2 <=? length numeric)%nat; [|destruct Hin].
      apply in_flat_map in Hin. destruct Hin as (c & Hc & Hin).
      apply correlationInsight_shape in Hin.
      destruct Hin as [(r & Hr & Hgt & ->)|(s & Hs' & _)].
      * exists c, r. repeat split; assumption.
      * destruct (Hfinite c Hc) as (r & Hr & _). congruence.
    + pose proof (string_insights_summary _ _ _ _ Hs i Hin). congruence.
  - intros (c & r & Hc & Hr & Hgt & ->). split; [|reflexivity].
    right. apply in_or_app. right. apply in_or_app. left.
    destruct (Hfinite c Hc) as (_ & _ & Hlen).
    replace (2 <=? length numeric)%nat with true by (symmetry; apply Nat.leb_le, Hlen).
    apply in_flat_map. exists c. split; [exact Hc|].
    apply correlationInsight_shape. left. exists r. repeat split; assumption.
Qed.
End CorrelationInsights.

(** ** Symmetry of the correlation *)


Section Symmetry.
Variable Msqrt : Q -> Q.
Hypothesis Msqrt_compat : forall a b, a == b -> Msqrt a == Msqrt b.

End Symmetry.

(** ** The shape of a training result *)

Section ResultShape.
Variable K : Numerics.

Ltac result_shape H :=
  steps H;
  repeat match goal with E : _ = (_, Some _) |- _ => clear E end;
  cbn [modelType actualValues featureImportance testAccuracy trainAccuracy trainTime];
  repeat split; try reflexivity; try discriminate;
  try (cbn [In]; tauto);
  try (intros [E|[E|[E|[]]]]; discriminate E).

Lemma dispatch_shape type_ g X_train y_train X_test y_test names t r :
  dispatch K type_ g X_train y_train X_test y_test names = (t, Some r) ->
  modelType r = type_ /\ trainAccuracy r = None /\ trainTime r = 0%Z /\
  In type_ ["linear_regression"; "logistic_regression"; "decision_tree"; "random_forest";
            "gradient_boosting"; "xgboost"; "svm"; "knn"; "naive_bayes";
            "neural_network"; "kmeans"]%string /\
  (actualValues r = None <-> type_ = "kmeans"%string) /\
  (featureImportance r = None <-> In type_ ["knn"; "naive_bayes"; "kmeans"]%string) /\
  (testAccuracy r = None <-> type_ = "kmeans"%string).
Proof.
  unfold dispatch. intro H.
  repeat match type of H with
         | (if String.eqb type_ ?s then _ else _) = _ =>
             destruct (String.eqb_spec type_ s) as [->|?]
         end.
  - unfold trainLinearRegression in H. result_shape H.
  - unfold trainLogisticRegression in H. result_shape H.
  - unfold trainDecisionTree in H. result_shape H.
  - unfold trainRandomForest in H. result_shape H.
  - unfold trainGradientBoosting in H. result_shape H.
  - unfold trainXGBoost in H. result_shape H.
  - unfold trainSVM in H. result_shape H.
  - unfold trainKNN in H. result_shape H.
  - unfold trainNaiveBayes in H. result_shape H.
  - unfold trainNeuralNetwork in H. result_shape H.
  - unfold trainKMeans in H. result_shape H.
  - discriminate H.
Qed.

(** A result returned by [trainModel] is labelled with the requested
    type, which is one of the eleven known ones (any other type throws);
    its [trainTime] is the time between the two clock readings;
    [trainAccuracy] is never set; [actualValues] and [testAccuracy] are
    absent exactly for k-means, and [featureImportance] exactly for
    k-nearest neighbours, naive Bayes and k-means. *)
Theorem trainModel_result_shape clock g data config t r :
  trainModel K clock g data config = (t, Some r) ->
  modelType r = ctype config /\
  trainTime r = (endTime clock - startTime clock)%Z /\
  trainAccuracy r = None /\
  In (ctype config)
     ["linear_regression"; "logistic_regression"; "decision_tree"; "random_forest";
      "gradient_boosting"; "xgboost"; "svm"; "knn"; "naive_bayes";
      "neural_network"; "kmeans"]%string /\
  (actualValues r = None <-> ctype config = "kmeans"%string) /\
  (featureImportance r = None <-> In (ctype config) ["knn"; "naive_bayes"; "kmeans"]%string) /\
  (testAccuracy r = None <-> ctype config = "kmeans"%string).
Proof.
  intro H.
  destruct (trainModel_run _ _ _ _ H) as (Xtr & ytr & Xte & rows & r0 & _ & _ & Hd & ->).
  apply dispatch_shape in Hd.
  destruct Hd as (Hm & Ha & _ & Hin & Hav & Hfi & Hta).
  cbn [withTrainTime modelType trainTime trainAccuracy actualValues featureImportance
       testAccuracy].
  repeat split; try assumption; try (apply Hav); try (apply Hfi); try (apply Hta).
Qed.
End ResultShape.

(** ** Training on an empty dataset *)

Lemma splitData_empty (A : Type) (now : Z) (testSize : Q) (seed : option Z) :
  splitData now (@nil A) testSize seed = {| trainData := []; testData := [] |}.
Proof.
  unfold splitData, shuffle, slice. cbn [length map seq rev fold_left fst elems Nat.sub].
  rewrite !skipn_nil, !firstn_nil. reflexivity.
Qed.

Section EmptyDataset.
Variable K : Numerics.

Lemma trainModel_empty clock g config t o :
  dispatch K (ctype config) g [] [] [] [] (featureColumns config) = (t, o) ->
  trainModel K clock g [] config
  = (t, option_map (fun r => withTrainTime r (endTime clock - startTime clock)) o).
Proof.
  intro H. unfold trainModel. rewrite splitData_empty.
  cbn [trainData testData]. unfold mapM. cbn [mapM_from]. unfold ret, bind.
  rewrite H. destruct o; cbn [option_map app]; rewrite ?app_nil_r; reflexivity.
Qed.

Lemma dispatch_empty_returns type_ g names :
  In type_ ["decision_tree"; "random_forest"; "xgboost"; "knn"; "naive_bayes";
            "kmeans"]%string ->
  returns (dispatch K type_ g [] [] [] [] names).
Proof.
  intro Hty. cbn [In] in Hty. unfold dispatch.
  repeat (destruct Hty as [<-|Hty];
          [cbn [String.eqb Ascii.eqb Bool.eqb andb]|]); [..|destruct Hty].
  all: unfold trainDecisionTree, trainRandomForest, trainXGBoost, trainKNN,
         trainNaiveBayes, trainKMeans.
  all: unfold mapM; cbn [mapM_from].
  all: try (total; fail).
  (* k-means *)
  cbn [length Nat.min firstn].
  apply returns_bind; [apply returns_onProgress|]. intros.
  apply returns_bind.
  - apply returns_forM. intros i st. apply returns_bind.
    + unfold lloydPass. cbn [length seq forM]. total.
    + intros. total.
  - intros. total.
Qed.

(** On an empty dataset both partitions are empty.  Linear and logistic
    regression, gradient boosting, the support vector machine and the
    neural network then throw when they read the first training row, the
    first four after one progress report; the six other trainers return
    a result without predictions. *)
Theorem trainModel_empty_dataset clock g config :
  (In (ctype config) ["linear_regression"; "logistic_regression"]%string ->
   trainModel K clock g [] config = ([20], None)) /\
  (In (ctype config) ["gradient_boosting"; "svm"]%string ->
   trainModel K clock g [] config = ([10], None)) /\
  (ctype config = "neural_network"%string ->
   trainModel K clock g [] config = ([], None)) /\
  (In (ctype config) ["decision_tree"; "random_forest"; "xgboost"; "knn"; "naive_bayes";
                      "kmeans"]%string ->
   exists t r, trainModel K clock g [] config = (t, Some r) /\ predictions r = []).
Proof.
  split; [|split; [|split]].
  - intros [E|[E|[]]]; apply (@trainModel_empty clock g config [20] None);
      rewrite <- E; reflexivity.
  - intros [E|[E|[]]]; apply (@trainModel_empty clock g config [10] None);
      rewrite <- E; reflexivity.
  - intros E. apply (@trainModel_empty clock g config [] None). rewrite E. reflexivity.
  - intro Hty.
    destruct (@dispatch_empty_returns (ctype config) g (featureColumns config) Hty)
      as (t & r & Hr).
    exists t, (withTrainTime r (endTime clock - startTime clock)).
    split; [apply (@trainModel_empty clock g config t (Some r) Hr)|].
    apply dispatch_run in Hr. destruct Hr as (_ & _ & _ & Hlen & _).
    cbn [withTrainTime predictions]. apply length_zero_iff_nil. exact Hlen.
Qed.
End EmptyDataset.

(** ** The clusters of k-means *)

Lemma forM_invariant (S : Type) (body : nat -> S -> M S) (P : S -> Prop) :
  (forall i st t r, body i st = (t, Some r) -> P st -> P r) ->
  forall is_ st t r, forM body is_ st = (t, Some r) -> P st -> P r.
Proof.
  intro Hb. induction is_ as [|i is_ IH]; intros st t r H Hst.
  - cbn in H. injection H as _ <-. exact Hst.
  - cbn [forM] in H. apply bind_Some_inv in H.
    destruct H as (t1 & a & t2 & E & H & _).
    eapply IH; [exact H|]. eapply Hb; eassumption.
Qed.

Lemma mapM_from_each (A B : Type) (f : A -> nat -> M B) (l : list A) (k : nat)
    (t : list Q) (bs : list B) :
  mapM_from f k l = (t, Some bs) ->
  forall i a, nth_error l i = Some a -> exists t' b, f a (k + i)%nat = (t', Some b).
Proof.
  revert k t bs. induction l as [|x l IH]; intros k t bs H i a Hi.
  - destruct i; discriminate.
  - cbn [mapM_from] in H. apply bind_Some_inv in H.
    destruct H as (t1 & b & t2 & E & H & _).
    apply bind_Some_inv in H. destruct H as (t3 & bs' & t4 & E' & _ & _).
    destruct i as [|i].
    + injection Hi as <-. rewrite Nat.add_0_r. exists t1, b. exact E.
    + replace (k + S i)%nat with (S k + i)%nat by lia. eapply IH; eassumption.
Qed.

Lemma pushAt_length (clusters : list (list nat)) (c idx : nat) :
  length (pushAt clusters c idx) = length clusters.
Proof.
  revert c. induction clusters as [|cl clusters IH]; intro c; [reflexivity|].
  destruct c; cbn; [reflexivity|rewrite IH; reflexivity].
Qed.

Section KMeansFacts.
Variable K : Numerics.

Lemma lloydPass_length X_train k centroids t r :
  lloydPass K X_train k centroids = (t, Some r) -> length r = k.
Proof.
  unfold lloydPass. intro H. step H. inv_run H. rewrite length_map.
  match goal with
  | E : forM _ _ _ = (_, Some _) |- _ =>
      apply (@forM_invariant _ _ (fun cl => length cl = k)) in E;
      [exact E| |apply repeat_length]
  end.
  intros i st t' r' Hb Hst.
  match type of Hb with
  | (if ?c then _ else _) = _ => destruct c; inv_run Hb
  end.
  rewrite pushAt_length. exact Hst.
Qed.

Lemma trainKMeans_clusters X_train X_test names t r :
  trainKMeans K X_train X_test names = (t, Some r) ->
  (forall point, In point X_test -> point <> []) ->
  exists clusters,
    predictions r = map (fun c => lit K (inject_Z c)) clusters /\
    length clusters = length X_test /\
    Forall (fun c => (0 <= c < Z.of_nat (Nat.min 3 (length X_train)))%Z) clusters /\
    lookup (metrics r) "clusters"
    = Some (lit K (ofNat (Nat.min 3 (length X_train)))).
Proof.
  unfold trainKMeans. intros H Hpoints. cbv zeta in H. step H. step H. step H. step H.
  step H. inv_run H. cbn [predictions metrics lookup String.eqb Ascii.eqb Bool.eqb andb].
  match goal with
  | E : forM _ _ _ = (_, Some ?cs) |- _ =>
      rename cs into centroids;
      apply (@forM_invariant _ _
               (fun cs => length cs = Nat.min 3 (length X_train))) in E;
      [rename E into Hlen| |]
  end.
  - exists (map (closestCentroid K centroids) X_test).
    split; [reflexivity|]. split; [apply length_map|]. split; [|reflexivity].
    apply Forall_forall. intros c Hc. apply in_map_iff in Hc.
    destruct Hc as (point & <- & Hin).
    destruct (In_nth_error _ _ Hin) as [i Hi].
    match goal with
    | E : mapM _ _ = (_, Some _) |- _ =>
        destruct (@mapM_from_each _ _ _ _ _ _ _ E i point Hi) as (t' & b & Hb)
    end.
    cbn [Nat.add] in Hb.
    rewrite (nth_error_nth _ _ (-1)%Z
               (map_nth_error (closestCentroid K centroids) i X_test Hi)) in Hb.
    specialize (Hpoints point Hin). destruct point as [|v point]; [congruence|].
    destruct (Z.leb_spec 0 (closestCentroid K centroids (v :: point))) as [H0|H0];
      [|discriminate Hb].
    destruct (nth_error centroids (Z.to_nat (closestCentroid K centroids (v :: point))))
      eqn:En; [|discriminate Hb].
    assert (Hlt : (Z.to_nat (closestCentroid K centroids (v :: point))
                   < length centroids)%nat)
      by (apply nth_error_Some; congruence).
    lia.
  - intros i st t' r' Hb _. step Hb.
    match goal with
    | E : lloydPass _ _ _ _ = _ |- _ => apply lloydPass_length in E; rename E into Hl
    end.
    step Hb. inv_run Hb. exact Hl.
  - rewrite length_firstn. lia.
Qed.

(** A call of [trainModel] that returns ran the selected trainer on the
    features and targets of the rows of the two partitions. *)
Lemma trainModel_rows clock g data config t r :
  trainModel K clock g data config = (t, Some r) ->
  let s := splitData (shuffleTime clock) data (testSize config) (randomSeed config) in
  let features := fun row => map (fun col => toNumber K (getCell row col))
                                 (featureColumns config) in
  let target := fun row => toNumber K (getCell row (targetColumn config)) in
  exists train test r0,
    trainData s = map Some train /\ testData s = map Some test /\
    dispatch K (ctype config) g (map features train) (map target train)
             (map features test) (map target test) (featureColumns config)
    = (t, Some r0) /\
    r = withTrainTime r0 (endTime clock - startTime clock).
Proof.
  cbv zeta. unfold trainModel. intro H.
  step H. step H. step H. step H. step H. inv_run H.
  repeat match goal with
         | E : mapM (fun row _ => targetOf _ _ row) _ = _ |- _ =>
             apply targets_run in E; destruct E as (-> & ? & ? & ->)
         end.
  match goal with
  | Htr : trainData _ = map Some ?train, Hte : testData _ = map Some ?test |- _ =>
      rewrite Htr, Hte in *; exists train, test
  end.
  repeat match goal with
         | E : mapM (fun row _ => featuresOf _ _ row) (map Some _) = _ |- _ =>
             unfold mapM in E; rewrite features_of_rows in E; injection E as <- <-
         end.
  eexists. split; [reflexivity|]. split; [reflexivity|].
  split; [|reflexivity]. cbn [app]. rewrite app_nil_r. assumption.
Qed.

(** On a k-means run that returns, with at least one feature column,
    every prediction is the number of a cluster: a whole number from 0
    up to, and not including, the number of clusters, which is the
    smaller of 3 and the size of the train partition and is what the
    metric [clusters] holds. *)
Theorem kmeans_predictions clock g data config t r :
  trainModel K clock g data config = (t, Some r) ->
  ctype config = "kmeans"%string -> featureColumns config <> [] ->
  let s := splitData (shuffleTime clock) data (testSize config) (randomSeed config) in
  let k := Nat.min 3 (length (trainData s)) in
  exists clusters,
    predictions r = map (fun c => lit K (inject_Z c)) clusters /\
    length clusters = length (testData s) /\
    Forall (fun c => (0 <= c < Z.of_nat k)%Z) clusters /\
    lookup (metrics r) "clusters" = Some (lit K (ofNat k)).
Proof.
  intros H Hty Hcols. cbv zeta.
  destruct (trainModel_rows _ _ _ _ H) as (train & test & r0 & Htr & Hte & Hd & ->).
  rewrite Htr, Hte, !length_map.
  unfold dispatch in Hd. rewrite Hty in Hd.
  cbn [String.eqb Ascii.eqb Bool.eqb andb] in Hd.
  apply trainKMeans_clusters in Hd.
  - rewrite !length_map in Hd. exact Hd.
  - intros point Hin. apply in_map_iff in Hin. destruct Hin as (row & <- & _).
    destruct (featureColumns config); [congruence|discriminate].
Qed.
End KMeansFacts.

(** ** The checks made before training *)

Import Validation.

Lemma pushWhen_length (c : bool) (message : string) :
  length (pushWhen c message) = if c then 1%nat else 0%nat.
Proof.
  destruct c; reflexivity.
Qed.

Lemma pushWhen_In (c : bool) (message x : string) :
  In x (pushWhen c message) <-> c = true /\ message = x.
Proof.
  destruct c; cbn; [tauto|]. split; [intros []|intros [H _]; discriminate H].
Qed.

Lemma testRows_small (n : nat) :
  (Qfloor (ofNat n * 0.2) <? 10)%Z = true <-> (n < 50)%nat.
Proof.
  rewrite Z.ltb_lt. split.
  - intro H. apply Nat.nlt_ge. intro Hge. apply Nat.nlt_ge in Hge.
    assert (Hq : 10 <= ofNat n * 0.2).
    { assert (Hn : ofNat 50 <= ofNat n) by (apply ofNat_le; lia).
      change (ofNat 50) with 50 in Hn. lra. }
    apply Qfloor_resp_le in Hq. change (Qfloor 10) with 10%Z in Hq. lia.
  - intro H.
    assert (Hq : ofNat n * 0.2 < 10).
    { assert (Hn : ofNat n < ofNat 50) by (apply ofNat_lt; lia).
      change (ofNat 50) with 50 in Hn. lra. }
    pose proof (Qfloor_le (ofNat n * 0.2)) as Hf.
    assert (Hz : inject_Z (Qfloor (ofNat n * 0.2)) < inject_Z 10)
      by (change (inject_Z 10) with 10; lra).
    rewrite <- Zlt_Qlt in Hz. exact Hz.
Qed.

Section ValidationFacts.
Variable parseNumber : string -> option Q.
Variable showNumber : jsnum -> string.

Lemma valid_iff (data : list (Record_ value)) (columnInfo : list ColumnInfo)
    (modelType targetColumn : string) (featureColumns : list string) :
  isValid (validateModeling parseNumber showNumber data columnInfo modelType
                            targetColumn featureColumns) = true <->
  (20 <= length data)%nat /\
  (modelType = "kmeans"%string \/ targetColumn <> ""%string) /\
  featureColumns <> [] /\
  (modelType = "kmeans"%string ->
   (2 <= length (filter isNumberColumn columnInfo))%nat).
Proof.
  unfold validateModeling.
  destruct (Nat.ltb_spec (length data) 20) as [Hsmall|Hbig].
  - cbn [isValid]. split; [discriminate|]. intros [H _]. lia.
  - cbv zeta. cbn [isValid].
    cbn [concat]. rewrite !length_app, !pushWhen_length. cbn [length].
    assert (H1 : negb (String.eqb modelType "kmeans")
                 && negb (negb (String.eqb targetColumn "")) = false
                 <-> (modelType = "kmeans"%string \/ targetColumn <> ""%string)).
    { destruct (String.eqb_spec modelType "kmeans") as [Hk|Hk];
        destruct (String.eqb_spec targetColumn "") as [Ht|Ht]; cbn;
        split; try discriminate; try tauto;
        try (intros [H|H]; contradiction). }
    assert (H2 : (length featureColumns =? 0)%nat = false <-> featureColumns <> []).
    { destruct featureColumns; cbn; split; try discriminate; try congruence. }
    assert (H3 : String.eqb modelType "kmeans"
                 && (length (filter isNumberColumn columnInfo) <? 2)%nat = false
                 <-> (modelType = "kmeans"%string ->
                      (2 <= length (filter isNumberColumn columnInfo))%nat)).
    { destruct (String.eqb_spec modelType "kmeans") as [Hk|Hk];
        destruct (Nat.ltb_spec (length (filter isNumberColumn columnInfo)) 2) as [Hn|Hn];
        cbn; split; try discriminate; try tauto;
        try (intro H; specialize (H Hk); lia). }
    destruct (negb (String.eqb modelType "kmeans")
              && negb (negb (String.eqb targetColumn ""))) eqn:E1;
      destruct (length featureColumns =? 0)%nat eqn:E2;
      destruct (String.eqb modelType "kmeans"
                && (length (filter isNumberColumn columnInfo) <? 2)%nat) eqn:E3;
      cbn; split; try discriminate;
      try (intros (_ & A1 & A2 & A3);
           apply H1 in A1; apply H2 in A2; apply H3 in A3; congruence).
    intros _. split; [exact Hbig|]. split; [apply H1; reflexivity|].
    split; [apply H2; reflexivity|apply H3; reflexivity].
Qed.

(** With fewer than 20 rows [validateModeling] stops at once with a
    single error and nothing else.  Otherwise the configuration is valid
    exactly when a target column is chosen (unless the model is k-means),
    at least one feature column is chosen, and, for k-means, the dataset
    has at least two numeric columns; no warning makes it invalid.  The
    advice to use more data or a smaller test size is given exactly to
    datasets of 20 to 49 rows: the check always assumes a test share of
    0.2, whatever share is chosen for the training. *)
Theorem validateModeling_valid (data : list (Record_ value)) (columnInfo : list ColumnInfo)
    (modelType targetColumn : string) (featureColumns : list string) :
  let v := validateModeling parseNumber showNumber data columnInfo modelType
                            targetColumn featureColumns in
  ((length data < 20)%nat ->
   v = {| isValid := false;
          warnings := [];
          errors := ["Dataset terlalu kecil untuk training ML (minimum 20 rows diperlukan)."%string];
          suggestions := [] |}) /\
  (isValid v = true <->
   (20 <= length data)%nat /\
   (modelType = "kmeans"%string \/ targetColumn <> ""%string) /\
   featureColumns <> [] /\
   (modelType = "kmeans"%string ->
    (2 <= length (filter isNumberColumn columnInfo))%nat)) /\
  (isValid v = true <-> errors v = []) /\
  ((20 <= length data)%nat ->
   (In "Gunakan lebih banyak data atau kurangi test size."%string (suggestions v)
    <-> (length data < 50)%nat)).
Proof.
  cbv zeta. split; [|split; [apply valid_iff|]].
  - intro H. unfold validateModeling.
    replace (length data <? 20)%nat with true by (symmetry; apply Nat.ltb_lt, H).
    reflexivity.
  - unfold validateModeling.
    destruct (Nat.ltb_spec (length data) 20) as [Hsmall|Hbig].
    + split; [cbn [isValid errors]; split; discriminate|]. intro H. lia.
    + cbv zeta. cbn [isValid errors suggestions]. split.
      * cbn [concat]. rewrite app_nil_r.
        destruct (pushWhen _ _ ++ pushWhen _ _ ++ pushWhen _ _)%list; cbn; split;
          congruence.
      * intros _. cbn [concat]. split.
        -- intro H.
           repeat (apply in_app_or in H; destruct H as [H|H];
                   [apply pushWhen_In in H; destruct H as [Hc H];
                    first [discriminate H|apply testRows_small, Hc]|]).
           destruct H.
        -- intro H. do 8 (apply in_or_app; right). apply in_or_app. left.
           apply pushWhen_In. split; [apply testRows_small, H|reflexivity].
Qed.

Variable K : Numerics.

Lemma trainModel_total clock g data config :
  data <> [] ->
  0 <= testSize config < 1 ->
  (0 <= initialSeed (shuffleTime clock) (randomSeed config))%Z ->
  featureColumns config <> [] ->
  In (ctype config)
     ["linear_regression"; "logistic_regression"; "decision_tree"; "random_forest";
      "gradient_boosting"; "xgboost"; "svm"; "knn"; "naive_bayes";
      "neural_network"]%string ->
  returns (trainModel K clock g data config).
Proof.
  intros Hdata Hts Hseed Hcols Hty.
  destruct (shuffle_perm (shuffleTime clock) data (randomSeed config) Hseed)
    as (rows & Hperm & Hrows).
  assert (Hn : (0 < length data)%nat) by (destruct data; [congruence|cbn; lia]).
  pose proof (testCount_below Hn Hts) as Hc.
  assert (Hlen : length rows = length data) by (symmetry; apply Permutation_length, Hperm).
  unfold trainModel, splitData. cbn [trainData testData].
  rewrite Hrows, length_map, !slice_map. unfold mapM.
  set (c := Qfloor (ofNat (length data) * testSize config)) in *.
  destruct (slice rows c (Z.of_nat (length rows))) as [|r0 train] eqn:Etrain.
  { exfalso. apply (f_equal (@length _)) in Etrain.
    rewrite slice_train_length in Etrain by lia. cbn [length] in Etrain. lia. }
  apply returns_bind; [rewrite features_of_rows; eexists; eexists; reflexivity|].
  intros t1 X_train H1. rewrite features_of_rows in H1. injection H1 as _ <-.
  apply returns_bind; [rewrite targets_of_rows; eexists; eexists; reflexivity|].
  intros t2 y_train H2. rewrite targets_of_rows in H2. injection H2 as _ <-.
  apply returns_bind; [rewrite features_of_rows; eexists; eexists; reflexivity|].
  intros t3 X_test H3. rewrite features_of_rows in H3. injection H3 as _ <-.
  apply returns_bind; [rewrite targets_of_rows; eexists; eexists; reflexivity|].
  intros t4 y_test H4. rewrite targets_of_rows in H4. injection H4 as _ <-.
  apply returns_bind.
  - cbn [map]. apply dispatch_returns; [exact Hty|exact Hcols|apply length_map].
  - intros t a _. apply returns_ret.
Qed.

(** A configuration that [validateModeling] accepts trains without an
    exception: for each of the ten supervised model types, with the seed
    42 that the training form passes and a test share in [0, 1),
    [trainModel] returns a result on the validated dataset. *)
Theorem validated_training_returns clock g (data : list (Record_ value))
    (columnInfo : list ColumnInfo) (config : ModelConfig) :
  isValid (validateModeling parseNumber showNumber data columnInfo (ctype config)
                            (targetColumn config) (featureColumns config)) = true ->
  In (ctype config)
     ["linear_regression"; "logistic_regression"; "decision_tree"; "random_forest";
      "gradient_boosting"; "xgboost"; "svm"; "knn"; "naive_bayes";
      "neural_network"]%string ->
  0 <= testSize config < 1 ->
  randomSeed config = Some 42%Z ->
  returns (trainModel K clock g data config) /\ (20 <= length data)%nat.
Proof.
  intros Hvalid Hty Hts Hseed. apply valid_iff in Hvalid.
  destruct Hvalid as (Hrows & _ & Hcols & _). split; [|exact Hrows].
  apply trainModel_total; try assumption.
  - destruct data; [cbn in Hrows; lia|discriminate].
  - rewrite Hseed. cbn. lia.
Qed.
End ValidationFacts.

(** ** Instances *)

Local Open Scope string_scope.

Lemma parseCSVLine_plain_witness :
  parseCSVLine "a, b ,c" = ["a"; "b"; "c"].
Proof.
  exact (@parseCSVLine_plain "a, b ,c" eq_refl).
Defined.

Lemma parseCSVLine_round_trip_witness :
  parseCSVLine (joinWith ","%char
                  (map (fun c => cell (fst c) (snd c)) [(false, "a"); (true, "b, c")]))
  = ["a"; "b, c"].
Proof.
  apply (@parseCSVLine_round_trip [(false, "a"); (true, "b, c")]).
  - discriminate.
  - intros q f [H|[H|[]]]; injection H as <- <-; repeat split; try reflexivity.
    intro H. discriminate H.
Defined.

Lemma parseCSV_round_trip_witness :
  parseCSV (render ["name"; "age"] [["Ann"; "31"]; ["Bob"; "27"]])
  = [[("name", VStr "Ann"); ("age", VStr "31")];
     [("name", VStr "Bob"); ("age", VStr "27")]].
Proof.
  refine (proj1 (@parseCSV_round_trip ["name"; "age"] [["Ann"; "31"]; ["Bob"; "27"]]
                   _ _ _ _ _ _)).
  - discriminate.
  - repeat constructor.
  - repeat constructor.
  - repeat constructor.
  - discriminate.
  - discriminate.
Defined.

Lemma parseCSV_cells_witness :
  In "name" ["name"; "age"] /\
  exists s, VStr "Ann" = VStr s /\ contains dquote s = false /\ trim s = s /\
            (isMissing (VStr "Ann") = true <-> s = EmptyString).
Proof.
  apply (@parseCSV_cells (render ["name"; "age"] [["Ann"; "31"]; ["Bob"; "27"]])
           [("name", VStr "Ann"); ("age", VStr "31")] "name" (VStr "Ann")).
  - left. reflexivity.
  - left. reflexivity.
Defined.


Lemma correlation_insights_witness :
  exists insights i,
    generateInsights sampleParse sampleSqrt sampleShow sampleFixed
      sampleRows
      [{| name := "x"; type := number; nullable := false |};
       {| name := "y"; type := number; nullable := false |}]
      [("x", analyzeColumn sampleParse sampleSqrt "x" (columnValues sampleRows "x") number);
       ("y", analyzeColumn sampleParse sampleSqrt "y" (columnValues sampleRows "y") number)]
    = Some insights /\
    In i insights /\ itype i = correlation /\ severity i = high /\
    title i = "Strong Positive Correlation Found".
Proof.
  destruct (generateInsights sampleParse sampleSqrt sampleShow sampleFixed
              sampleRows
              [{| name := "x"; type := number; nullable := false |};
               {| name := "y"; type := number; nullable := false |}]
              [("x", analyzeColumn sampleParse sampleSqrt "x"
                       (columnValues sampleRows "x") number);
               ("y", analyzeColumn sampleParse sampleSqrt "y"
                       (columnValues sampleRows "y") number)])
    as [insights|] eqn:E; [|vm_compute in E; discriminate E].
  exists insights.
  eexists. split; [reflexivity|].
  refine ((fun H => conj (proj1 H) (conj (proj2 H) _))
            (proj2 (@correlation_insights sampleParse sampleSqrt sampleShow sampleFixed
                      _ _ _ _ E _)
               (ex_intro _ {| col1 := "x"; col2 := "y"; cvalue := Fin (100 # 100) |}
                  (ex_intro _ (100 # 100) (conj _ (conj eq_refl (conj _ eq_refl))))))).
  - split; reflexivity.
  - vm_compute. left. reflexivity.
  - vm_compute. reflexivity.
Defined.

Lemma trainModel_result_shape_witness :
  exists t r,
    trainModel zeroNumerics sampleClock tt sampleRows (sampleConfig "svm") = (t, Some r) /\
    modelType r = "svm" /\ trainTime r = 250%Z.
Proof.
  destruct (trainModel zeroNumerics sampleClock tt sampleRows (sampleConfig "svm"))
    as [t [r|]] eqn:E; [|vm_compute in E; discriminate E].
  exists t, r. split; [reflexivity|].
  destruct (@trainModel_result_shape zeroNumerics _ _ _ _ _ _ E) as (H1 & H2 & _).
  split; [exact H1|exact H2].
Defined.

Lemma kmeans_predictions_witness :
  exists t r clusters,
    trainModel zeroNumerics sampleClock tt sampleRows (sampleConfig "kmeans")
    = (t, Some r) /\
    predictions r = map (fun c => inject_Z c) clusters /\
    Forall (fun c => (0 <= c < 3)%Z) clusters.
Proof.
  destruct (trainModel zeroNumerics sampleClock tt sampleRows (sampleConfig "kmeans"))
    as [t [r|]] eqn:E; [|vm_compute in E; discriminate E].
  destruct (@kmeans_predictions zeroNumerics _ _ _ _ _ _ E eq_refl ltac:(discriminate))
    as (clusters & Hp & _ & Hf & _).
  exists t, r, clusters. split; [reflexivity|]. split; [exact Hp|exact Hf].
Defined.

Lemma validated_training_returns_witness :
  returns (trainModel zeroNumerics sampleClock tt
             (sampleRows ++ sampleRows ++ sampleRows ++ sampleRows)%list
             (sampleConfig "svm")) /\
  (20 <= length (sampleRows ++ sampleRows ++ sampleRows ++ sampleRows)%list)%nat.
Proof.
  apply (@validated_training_returns sampleParse sampleShow zeroNumerics sampleClock tt
           (sampleRows ++ sampleRows ++ sampleRows ++ sampleRows)%list []
           (sampleConfig "svm")).
  - vm_compute. reflexivity.
  - cbn. tauto.
  - split; vm_compute; discriminate || reflexivity.
  - reflexivity.
Defined.
